(** * FinTrack Expense Analyzer: the analysis pipeline of [main.py]

    A shallow embedding of [clean_amount], [clean_category],
    [is_food_category] and [analyze_expenses], and the properties of the
    design document that can be settled on it.

    Conventions.
    - A Python [str] is a list of Unicode code points ([N]); [bytes] is a
      list of [Byte.byte].
    - A Python [float] (and a numpy [float64]) is an IEEE 754 binary64
      value, embedded with the standard library's [spec_float] at
      precision 53 and maximal exponent 1024.
    - Exceptions are values of [exn]; the module-level [logger] is an
      explicit state threaded through every call (monad [M]).
    - What the interpreter and pandas fix outside of [main.py] and that
      depends on their version (case mapping and decimal digits beyond
      ASCII, [repr] of a float, [pandas.read_csv], the summation order of
      long series, the sum of an object column, the wording of the error
      of pandas on the truth value of a series) is taken from a record
      [Runtime]; every theorem holds for every runtime. *)

From Stdlib Require Import List NArith ZArith Bool Lia String Ascii.
From Stdlib.Strings Require Import Byte.
From Stdlib Require Import DecimalString.
From Stdlib Require DecimalPos.
From Stdlib Require Import SpecFloat PrimFloat FloatOps.
Import ListNotations.

Set Implicit Arguments.
Local Open Scope N_scope.

(* ================================================================= *)
(** ** Text *)

Module Text.

(** A Python [str]: the sequence of its code points. *)
Definition str := list N.

(** The code points of an ASCII literal. *)
Definition lit (s : string) : str :=
  List.map N_of_ascii (list_ascii_of_string s).

Definition eqb (a b : str) : bool :=
  if list_eq_dec N.eq_dec a b then true else false.

(** [str.isspace] on one code point, which is also the class [\s] of
    [re] on a [str] pattern: the characters of bidirectional type WS, B
    or S, or of general category Zs. *)
Definition isspace (c : N) : bool :=
  ((9 <=? c) && (c <=? 13)) || ((28 <=? c) && (c <=? 32))
  || (c =? 133) || (c =? 160) || (c =? 5760)
  || ((8192 <=? c) && (c <=? 8202))
  || (c =? 8232) || (c =? 8233) || (c =? 8239) || (c =? 8287)
  || (c =? 12288).

Definition is_ascii (c : N) : bool := c <? 128.

(** Case folding of one ASCII code point: A-Z to a-z. *)
Definition ascii_lower (c : N) : N :=
  if (65 <=? c) && (c <=? 90) then c + 32 else c.

(** [s.lstrip()], [s.rstrip()] and [s.strip()] with no argument. *)
Fixpoint lstrip (s : str) : str :=
  match s with
  | c :: r => if isspace c then lstrip r else s
  | [] => []
  end.

Definition rstrip (s : str) : str := rev (lstrip (rev s)).

Definition strip (s : str) : str := rstrip (lstrip s).

(** [s.startswith(p)]. *)
Fixpoint startswith (s p : str) {struct p} : bool :=
  match p, s with
  | [], _ => true
  | _ :: _, [] => false
  | a :: p', b :: s' => (a =? b) && startswith s' p'
  end.

Definition endswith (s p : str) : bool := startswith (rev s) (rev p).

(** [k in s] for two strings: [k] occurs in [s] as a contiguous run. *)
Fixpoint contains (k s : str) : bool :=
  startswith s k ||
  match s with
  | [] => false
  | _ :: r => contains k r
  end.

(** [s[1:-1]]. *)
Definition slice_1_m1 (s : str) : str := removelast (tl s).

(** [re.sub(r'[...]', '', s)] for a character class given as a
    predicate: every character of the class is deleted. *)
Definition sub_delete (cls : N -> bool) (s : str) : str :=
  List.filter (fun c => negb (cls c)) s.

(** [re.sub(r'\s+', ' ', s)]: every maximal run of whitespace becomes
    one space. *)
Fixpoint collapse_run (in_run : bool) (s : str) : str :=
  match s with
  | [] => []
  | c :: r =>
      if isspace c
      then (if in_run then collapse_run true r else 32 :: collapse_run true r)
      else c :: collapse_run false r
  end.

Definition collapse_ws (s : str) : str := collapse_run false s.

End Text.

(* ================================================================= *)
(** ** Floating point *)

Module Float.

Definition prec : Z := 53%Z.
Definition emax : Z := 1024%Z.

(** A Python [float]. *)
Definition float := spec_float.

Definition add : float -> float -> float := SFadd prec emax.
Definition mul : float -> float -> float := SFmul prec emax.
Definition div : float -> float -> float := SFdiv prec emax.

Definition of_Z (z : Z) : float := binary_normalize prec emax z 0%Z false.

Definition zero : float := S754_zero false.

Definition is_nan (x : float) : bool :=
  match x with S754_nan => true | _ => false end.

Definition is_finite (x : float) : bool :=
  match x with S754_zero _ | S754_finite _ _ _ => true | _ => false end.

Fixpoint pow10 (k : nat) : positive :=
  match k with
  | O => 1%positive
  | S k' => (10 * pow10 k')%positive
  end.

(** The binary64 value nearest to [(-1)^neg * m / 10^k], ties to even:
    what [float()] returns for a decimal numeral without exponent whose
    digits, read as one integer, are [m] and which has [k] digits after
    the point.  The quotient is rounded once, from the exact integers. *)
Definition of_decimal (neg : bool) (m : Z) (k : nat) : float :=
  match m with
  | Zpos p =>
      SFdiv prec emax (S754_finite neg p 0) (S754_finite false (pow10 k) 0)
  | _ => S754_zero neg
  end.

(** [numpy.rint]: the nearest integral value, ties to even. *)
Definition rint (x : float) : float :=
  match x with
  | S754_finite s m e =>
      if (0 <=? e)%Z then x
      else
        let mrs := fst (shr (shr_record_of_loc (Zpos m) loc_Exact) e (- e)) in
        match round_nearest_even (shr_m mrs) (loc_of_shr_record mrs) with
        | Zpos p => binary_round prec emax s p 0%Z
        | _ => S754_zero s
        end
  | _ => x
  end.

(** [round(x, 2)] for a [numpy.float64] [x]: numpy scales by
    [10 ** 2], rounds to integral and scales back. *)
Definition round2 (x : float) : float :=
  div (rint (mul x (of_Z 100))) (of_Z 100).

End Float.

(* ================================================================= *)
(** ** Python values, exceptions, data frames *)

Import Text.
Abbreviation float := Float.float.

(** The scalars a cell of a parsed frame can hold, as the objects that
    [Series.apply] hands to the applied function.  A missing cell is the
    float NaN. *)
Inductive pyobj :=
| PStr (s : str)
| PInt (z : Z)
| PFloat (f : float)
| PBool (b : bool).

(** A column of a frame, by dtype. *)
Inductive column :=
| Float64 (l : list float)
| Int64 (l : list Z)
| BoolCol (l : list bool)
| Object (l : list pyobj).

Definition items (c : column) : list pyobj :=
  match c with
  | Float64 l => List.map PFloat l
  | Int64 l => List.map PInt l
  | BoolCol l => List.map PBool l
  | Object l => l
  end.

(** A [DataFrame]: the labelled columns, in order.  Labels may repeat. *)
Definition DataFrame := list (str * column).

(** What [df[label]] evaluates to: the column when the label occurs
    once, the sub-frame of the columns that carry it when it repeats. *)
Inductive selection :=
| Series (c : column)
| SubFrame (cols : DataFrame).

(** The total and the answer: a scalar, or a series when the summed
    selection is a sub-frame. *)
Inductive value :=
| Scalar (v : pyobj)
| SeriesValue (c : column).

(** The classes of the exceptions that occur. *)
Inductive exn_class :=
| UnicodeDecodeError | EmptyDataError | ParserError
| ValueError | TypeError | AttributeError | KeyError | OtherException.

(** An exception: FastAPI's [HTTPException], or any other exception [e]
    with its class and [str(e)]. *)
Inductive exn :=
| HTTPException (status_code : Z) (detail : str)
| PyError (cls : exn_class) (msg : str).

(** What [logger] receives, one constructor per call site. *)
Inductive log_record :=
| WarnCouldNotConvert (amount_str : str)
| InfoCsvColumns (cols : list str)
| InfoCsvShape (rows cols : nat)
| InfoAmountColumn (col : str)
| InfoCategoryColumn (col : str)
| InfoFoundFood (n : nat)
| InfoTotal (total : value)
| ErrorUnexpected (msg : str).

(** The parts of the interpreter and of pandas that [main.py] relies on
    and that are not fixed by it. *)
Record Runtime := {
  (** [s.lower()] for a string with a character beyond ASCII *)
  lower_ext : str -> str;
  (** the decimal digit value of a code point beyond ASCII, if it is
      a decimal digit (class [\d], and the digits [float] accepts) *)
  decimal_ext : N -> option N;
  (** [repr] of a float *)
  float_repr : float -> str;
  (** [pandas.read_csv(io.StringIO(text), skipinitialspace=True,
      skip_blank_lines=True, encoding_errors='replace')]: the frame, or
      the exception raised *)
  read_csv : str -> (exn_class * str) + DataFrame;
  (** [Series.sum()] on a float64 series where the result depends on
      the version of numpy: 8 elements or more (order of the partial
      sums), or nothing but negative zeros (sign of the result) *)
  sum_ext : list float -> float;
  (** [.sum()] of a selection that is not a float64 series *)
  sum_other : selection -> (exn_class * str) + value;
  (** [round(total, 2)] for such a total *)
  round_other : value -> (exn_class * str) + value;
  (** [str(e)] for the [ValueError] that pandas raises when the truth
      value of a [Series] is asked for; its wording changes with the
      version of pandas *)
  ambiguous_truth : str
}.

(* ================================================================= *)
(** ** Computations that log and may raise *)

Inductive outcome (A : Type) :=
| Return (a : A)
| Raise (e : exn).
Arguments Return {A} a.
Arguments Raise {A} e.

(** The state is what the logger has received so far. *)
Definition M (A : Type) : Type := list log_record -> outcome A * list log_record.

Definition ret {A} (a : A) : M A := fun st => (Return a, st).

Definition bind {A B} (m : M A) (k : A -> M B) : M B :=
  fun st =>
    match m st with
    | (Return a, st') => k a st'
    | (Raise e, st') => (Raise e, st')
    end.

Definition raise {A} (e : exn) : M A := fun st => (Raise e, st).

Definition log (r : log_record) : M unit := fun st => (Return tt, st ++ [r]).

(** [try: m  except <any>: h e]. *)
Definition try_except {A} (m : M A) (h : exn -> M A) : M A :=
  fun st =>
    match m st with
    | (Return a, st') => (Return a, st')
    | (Raise e, st') => h e st'
    end.

Declare Scope M_scope.
Delimit Scope M_scope with M.
Notation "x <- m ;; k" := (bind m (fun x => k))
  (at level 61, m at next level, right associativity) : M_scope.
Notation "m ;;; k" := (bind m (fun _ => k))
  (at level 61, right associativity) : M_scope.

(** [Series.apply(f)] visits the elements in order. *)
Fixpoint mapM {A B} (f : A -> M B) (l : list A) : M (list B) :=
  match l with
  | [] => ret []
  | a :: r => (b <- f a ;; bs <- mapM f r ;; ret (b :: bs))%M
  end.

(** An exception of the runtime enters the computation. *)
Definition lift {A} (r : (exn_class * str) + A) : M A :=
  match r with
  | inl (c, msg) => raise (PyError c msg)
  | inr a => ret a
  end.

Local Open Scope M_scope.

(* ================================================================= *)
(** ** Built-ins used by [main.py] *)

Section Builtins.

Variable R : Runtime.

(** [s.lower()]. *)
Definition py_lower (s : str) : str :=
  if forallb is_ascii s then List.map ascii_lower s else lower_ext R s.

(** The decimal digit value of a code point, if it has one. *)
Definition py_decimal (c : N) : option N :=
  if c <? 128
  then (if (48 <=? c) && (c <=? 57) then Some (c - 48) else None)
  else decimal_ext R c.

(** The class [\d] of [re] on a [str] pattern. *)
Definition is_digit (c : N) : bool :=
  match py_decimal c with Some _ => true | None => false end.

(** [str(x)], where it returns.  An integer is printed as its decimal
    numeral; CPython 3.11 and later refuse to print an integer of more
    than 4300 digits (a [ValueError], by default), which no 64-bit
    integer of a frame is: the properties that bear on integer cells
    are stated for the cells on which [str] returns ([str_returns]
    below). *)
Definition py_str (x : pyobj) : str :=
  match x with
  | PStr s => s
  | PInt z => lit (DecimalString.NilZero.string_of_int (Z.to_int z))
  | PFloat f => float_repr R f
  | PBool true => lit "True"
  | PBool false => lit "False"
  end.

(** [pd.isna(x)] on a scalar. *)
Definition pd_isna (x : pyobj) : bool :=
  match x with
  | PFloat f => Float.is_nan f
  | _ => false
  end.

(** [x == e] where [e] is the empty string. *)
Definition is_empty_str (x : pyobj) : bool :=
  match x with
  | PStr [] => true
  | _ => false
  end.

(** The longest prefix of decimal digits of [s]: the integer it denotes
    after [acc], the number of digits read after [n], and the rest. *)
Fixpoint span_digits (s : str) (acc : Z) (n : nat) : Z * nat * str :=
  match s with
  | c :: r =>
      match py_decimal c with
      | Some d => span_digits r (acc * 10 + Z.of_N d)%Z (S n)
      | None => (acc, n, s)
      end
  | [] => (acc, n, [])
  end.

(** [float(s)] for a string [s] of digits, points and minus signs, which
    is all that line 40 leaves of a token ([None]: [ValueError]).  On
    this alphabet the numerals that [float] accepts are an optional
    minus sign, then digits with at most one point among them and at
    least one digit. *)
Definition py_float (s : str) : option float :=
  let '(neg, s1) := match s with
                    | 45 :: r => (true, r)
                    | _ => (false, s)
                    end in
  let '(ip, ni, s2) := span_digits s1 0%Z 0%nat in
  let '(m, nf, s3) := match s2 with
                      | 46 :: r => span_digits r ip 0%nat
                      | _ => (ip, 0%nat, s2)
                      end in
  match s3 with
  | [] => if (ni + nf =? 0)%nat then None
          else Some (Float.of_decimal neg m nf)
  | _ :: _ => None
  end.

End Builtins.

(* ================================================================= *)
(** ** Codecs *)

Module Codec.

Definition cont (b : N) : bool := (128 <=? b) && (b <=? 191).

(** [bytes.decode('utf-8')], strict: the well-formed byte sequences of
    the Unicode standard (no overlong form, no surrogate, nothing above
    U+10FFFF).  [None]: [UnicodeDecodeError]. *)
Fixpoint utf8 (bs : list N) : option str :=
  match bs with
  | [] => Some []
  | b0 :: r0 =>
      if b0 <? 128 then option_map (cons b0) (utf8 r0)
      else
        match r0 with
        | [] => None
        | b1 :: r1 =>
            if (194 <=? b0) && (b0 <=? 223) then
              if cont b1
              then option_map (cons ((b0 - 192) * 64 + (b1 - 128))) (utf8 r1)
              else None
            else
              match r1 with
              | [] => None
              | b2 :: r2 =>
                  if (224 <=? b0) && (b0 <=? 239) then
                    if ((if b0 =? 224 then 160 else 128) <=? b1)
                       && (b1 <=? (if b0 =? 237 then 159 else 191))
                       && cont b2
                    then option_map
                           (cons ((b0 - 224) * 4096 + (b1 - 128) * 64
                                  + (b2 - 128)))
                           (utf8 r2)
                    else None
                  else
                    match r2 with
                    | [] => None
                    | b3 :: r3 =>
                        if (240 <=? b0) && (b0 <=? 244) then
                          if ((if b0 =? 240 then 144 else 128) <=? b1)
                             && (b1 <=? (if b0 =? 244 then 143 else 191))
                             && cont b2 && cont b3
                          then option_map
                                 (cons ((b0 - 240) * 262144
                                        + (b1 - 128) * 4096
                                        + (b2 - 128) * 64 + (b3 - 128)))
                                 (utf8 r3)
                          else None
                        else None
                    end
              end
        end
  end.

(** [bytes.decode('latin-1')]: byte [b] is code point [b]. *)
Definition latin1 (bs : list N) : option str := Some bs.

(** One byte under [cp1252]; five bytes are not assigned. *)
Definition cp1252_char (b : N) : option N :=
  if (b <? 128) || (160 <=? b) then Some b
  else
    nth (N.to_nat (b - 128))
      [Some 8364; None; Some 8218; Some 402; Some 8222; Some 8230;
       Some 8224; Some 8225; Some 710; Some 8240; Some 352; Some 8249;
       Some 338; None; Some 381; None;
       None; Some 8216; Some 8217; Some 8220; Some 8221; Some 8226;
       Some 8211; Some 8212; Some 732; Some 8482; Some 353; Some 8250;
       Some 339; None; Some 382; Some 376]
      None.

(** [bytes.decode('cp1252')]. *)
Fixpoint cp1252 (bs : list N) : option str :=
  match bs with
  | [] => Some []
  | b :: r =>
      match cp1252_char b, cp1252 r with
      | Some c, Some s => Some (c :: s)
      | _, _ => None
      end
  end.

End Codec.

(** [contents.decode(codec)] as a computation. *)
Definition decode (codec : list N -> option str) (reason : string)
    (contents : list byte) : M str :=
  match codec (List.map Byte.to_N contents) with
  | Some s => ret s
  | None => raise (PyError UnicodeDecodeError (lit reason))
  end.

(* ================================================================= *)
(** ** [main.py] *)

Section Main.

Variable R : Runtime.

(** The class [[$€£¥₹,]] of line 33. *)
Definition is_currency_or_comma (c : N) : bool :=
  (c =? 36) || (c =? 8364) || (c =? 163) || (c =? 165) || (c =? 8377)
  || (c =? 44).

(** The complement of the class [[^\d\.-]] of line 40: what is kept. *)
Definition is_numeric_char (c : N) : bool :=
  is_digit R c || (c =? 46) || (c =? 45).

(** The token of lines 30 to 40. *)
Definition clean_token (x : pyobj) : str :=
  let amount_str := strip (py_str R x) in
  let amount_str := sub_delete is_currency_or_comma amount_str in
  let amount_str :=
    if startswith amount_str (lit "(") && endswith amount_str (lit ")")
    then lit "-" ++ slice_1_m1 amount_str
    else amount_str in
  sub_delete (fun c => negb (is_numeric_char c)) amount_str.

(** [clean_amount], lines 24 to 46. *)
Definition clean_amount (amount_str : pyobj) : M float :=
  if pd_isna amount_str || is_empty_str amount_str then ret Float.zero
  else
    let tok := clean_token amount_str in
    match py_float R tok with
    | Some f => ret f
    | None => log (WarnCouldNotConvert tok) ;;; ret Float.zero
    end.

(** [clean_category], lines 48 to 59. *)
Definition clean_category (category : pyobj) : str :=
  if pd_isna category then []
  else collapse_ws (py_lower R (strip (py_str R category))).

Definition food_keywords : list str :=
  List.map lit
    ["food"; "restaurant"; "dining"; "lunch"; "dinner"; "breakfast";
     "cafe"; "coffee"; "snack"; "meal"; "grocery"; "groceries";
     "catering"; "takeout"; "delivery"; "fast food"; "fastfood"]%string.

(** The loop of lines 76 to 78, and the [any(...)] of lines 128 and 134:
    is one of the keywords, tried in order, in [s]? *)
Fixpoint any_keyword_in (keywords : list str) (s : str) : bool :=
  match keywords with
  | [] => false
  | keyword :: rest =>
      if contains keyword s then true else any_keyword_in rest s
  end.

(** [is_food_category], lines 61 to 80. *)
Definition is_food_category (category : str) : bool :=
  let category_clean := strip (py_lower R category) in
  if Text.eqb category_clean (lit "food") then true
  else any_keyword_in food_keywords category_clean.

(** *** Column detection, lines 122 to 136 *)

Definition amount_keywords : list str :=
  List.map lit ["amount"; "cost"; "price"; "total"; "sum"; "expense"]%string.

Definition category_keywords : list str :=
  List.map lit ["category"; "type"; "description"; "item"]%string.

(** [for col in df.columns: if any(...): found = col; break]. *)
Fixpoint first_column_with (keywords : list str) (columns : list str)
  : option str :=
  match columns with
  | [] => None
  | col :: rest =>
      if any_keyword_in keywords col then Some col
      else first_column_with keywords rest
  end.

Definition detect_amount_col := first_column_with amount_keywords.
Definition detect_category_col := first_column_with category_keywords.

(** *** Frame operations *)

Definition columns_of (df : DataFrame) : list str := List.map fst df.

Definition nrows (df : DataFrame) : nat :=
  match df with
  | [] => 0%nat
  | (_, c) :: _ => List.length (items c)
  end.

(** [df.empty]: no column or no row. *)
Definition df_empty (df : DataFrame) : bool := (nrows df =? 0)%nat.

(** [df.columns = df.columns.str.strip().str.lower()]. *)
Definition normalize_columns (df : DataFrame) : DataFrame :=
  List.map (fun lc => (py_lower R (strip (fst lc)), snd lc)) df.

(** [df[label]]. *)
Definition getitem (df : DataFrame) (label : str) : M selection :=
  match List.filter (fun lc => Text.eqb (fst lc) label) df with
  | [] => raise (PyError KeyError (lit "'" ++ label ++ lit "'"))
  | [(_, c)] => ret (Series c)
  | cols => ret (SubFrame cols)
  end.

(** [df[label] = c] for a series [c]: every column that carries the
    label is replaced, and a new label is appended. *)
Definition setitem (df : DataFrame) (label : str) (c : column) : DataFrame :=
  if existsb (fun lc => Text.eqb (fst lc) label) df
  then List.map (fun lc => if Text.eqb (fst lc) label then (label, c) else lc) df
  else df ++ [(label, c)].

(** [sel.apply(clean_amount)].  On a sub-frame the function receives
    a whole column, and line 26 asks for the truth value of a series. *)
Definition apply_clean_amount (sel : selection) : M column :=
  match sel with
  | Series c => l <- mapM clean_amount (items c) ;; ret (Float64 l)
  | SubFrame _ => raise (PyError ValueError (ambiguous_truth R))
  end.

(** [sel.apply(clean_category)]; line 50 on a sub-frame. *)
Definition apply_clean_category (sel : selection) : M column :=
  match sel with
  | Series c => ret (Object (List.map (fun x => PStr (clean_category x)) (items c)))
  | SubFrame _ => raise (PyError ValueError (ambiguous_truth R))
  end.

(** [is_food_category] on an object that need not be a string:
    line 69 calls its [lower]. *)
Definition is_food_category_obj (x : pyobj) : M bool :=
  match x with
  | PStr s => ret (is_food_category s)
  | PInt _ => raise (PyError AttributeError (lit "'int' object has no attribute 'lower'"))
  | PFloat _ => raise (PyError AttributeError (lit "'float' object has no attribute 'lower'"))
  | PBool _ => raise (PyError AttributeError (lit "'bool' object has no attribute 'lower'"))
  end.

(** [sel.apply(is_food_category)]. *)
Definition apply_is_food_category (sel : selection) : M (list bool) :=
  match sel with
  | Series c => mapM is_food_category_obj (items c)
  | SubFrame _ =>
      raise (PyError AttributeError (lit "'Series' object has no attribute 'lower'"))
  end.

(** The elements of [l] at the positions where [mask] holds. *)
Fixpoint mask_filter {A} (mask : list bool) (l : list A) : list A :=
  match mask, l with
  | m :: ms, x :: xs =>
      if m then x :: mask_filter ms xs else mask_filter ms xs
  | _, _ => []
  end.

Definition mask_column (mask : list bool) (c : column) : column :=
  match c with
  | Float64 l => Float64 (mask_filter mask l)
  | Int64 l => Int64 (mask_filter mask l)
  | BoolCol l => BoolCol (mask_filter mask l)
  | Object l => Object (mask_filter mask l)
  end.

(** [df[food_mask]] for a boolean series. *)
Definition boolean_index (df : DataFrame) (mask : list bool) : DataFrame :=
  List.map (fun lc => (fst lc, mask_column mask (snd lc))) df.

Definition is_neg_zero (x : float) : bool :=
  match x with S754_zero true => true | _ => false end.

(** [Series.sum()] on a float64 series: NaN counts as zero (skipna), the
    empty sum is 0.0, and a short series is added from left to right
    starting from 0.0. *)
Definition float64_sum (l : list float) : float :=
  let l := List.map (fun x => if Float.is_nan x then Float.zero else x) l in
  match l with
  | [] => Float.zero
  | _ :: _ =>
      if (List.length l <? 8)%nat && negb (forallb is_neg_zero l)
      then fold_left Float.add l Float.zero
      else sum_ext R l
  end.

Record AnalysisResult := {
  answer : value;
  email : str;
  exam : str
}.

(** Lines 116 to 166: from the parsed frame to the result. *)
Definition analyze_frame (df : DataFrame) : M AnalysisResult :=
  log (InfoCsvColumns (columns_of df)) ;;;
  log (InfoCsvShape (nrows df) (List.length df)) ;;;
  let df := normalize_columns df in
  let amount_col := detect_amount_col (columns_of df) in
  let category_col := detect_category_col (columns_of df) in
  match amount_col with
  | None =>
      raise (HTTPException 400 (lit "Could not identify amount column in CSV"))
  | Some amount_col =>
      match category_col with
      | None =>
          raise (HTTPException 400
                   (lit "Could not identify category column in CSV"))
      | Some category_col =>
          log (InfoAmountColumn amount_col) ;;;
          log (InfoCategoryColumn category_col) ;;;
          sel <- getitem df amount_col ;;
          amounts <- apply_clean_amount sel ;;
          let df := setitem df (amount_col ++ lit "_clean") amounts in
          sel <- getitem df category_col ;;
          categories <- apply_clean_category sel ;;
          let df := setitem df (category_col ++ lit "_clean") categories in
          sel <- getitem df (category_col ++ lit "_clean") ;;
          food_mask <- apply_is_food_category sel ;;
          let food_expenses := boolean_index df food_mask in
          log (InfoFoundFood (nrows food_expenses)) ;;;
          sel <- getitem food_expenses (amount_col ++ lit "_clean") ;;
          rounded <-
            match sel with
            | Series (Float64 l) =>
                let total_food_spending := float64_sum l in
                log (InfoTotal (Scalar (PFloat total_food_spending))) ;;;
                ret (Scalar (PFloat (Float.round2 total_food_spending)))
            | _ =>
                total_food_spending <- lift (sum_other R sel) ;;
                log (InfoTotal total_food_spending) ;;;
                lift (round_other R total_food_spending)
            end ;;
          ret {| answer := rounded;
                 email := lit "user@example.com";
                 exam := lit "tds-2025-05-roe" |}
      end
  end.

(** Lines 91 to 98, for any three codecs tried in this order. *)
Definition decode_cascade (first second third : list N -> option str)
    (contents : list byte) : M str :=
  try_except (decode first "invalid start byte" contents)
    (fun _ =>
       try_except (decode second "ordinal not in range" contents)
         (fun _ => decode third "character maps to <undefined>" contents)).

Definition decode_contents : list byte -> M str :=
  decode_cascade Codec.utf8 Codec.latin1 Codec.cp1252.

(** Lines 101 to 114: the frame, which has at least one row. *)
Definition parse (csv_string : str) : M DataFrame :=
  df <- match read_csv R csv_string with
        | inr df => ret df
        | inl (EmptyDataError, _) =>
            raise (HTTPException 400 (lit "CSV file is empty"))
        | inl (_, msg) =>
            raise (HTTPException 400 (lit "Error reading CSV: " ++ msg))
        end ;;
  if df_empty df
  then raise (HTTPException 400 (lit "CSV file contains no data"))
  else ret df.

(** Lines 168 to 172: an [HTTPException] passes, any other exception
    is logged and becomes an internal server error. *)
Definition http_errors {A} (m : M A) : M A :=
  try_except m
    (fun e =>
       match e with
       | HTTPException _ _ => raise e
       | PyError _ msg =>
           log (ErrorUnexpected msg) ;;;
           raise (HTTPException 500 (lit "Internal server error: " ++ msg))
       end).

(** [analyze_expenses], lines 83 to 172, on the bytes of the upload. *)
Definition analyze_expenses (contents : list byte) : M AnalysisResult :=
  http_errors
    (csv_string <- decode_contents contents ;;
     df <- parse csv_string ;;
     analyze_frame df).

End Main.

(* ================================================================= *)
(** ** A reference runtime

    One runtime on which the pipeline runs: it reads plain
    comma-separated text the way the C parser of pandas tokenizes it
    (line ends, blank lines, initial spaces, short and long rows) for
    text without quotes whose header names are distinct and not empty,
    and keeps every column as an object column of strings and missing
    markers, which is the dtype pandas infers as soon as a column holds
    a cell that is neither a number, a boolean nor a missing marker.
    The other fields are the simplest choice: no case mapping and no
    digit beyond ASCII, left-to-right sums. *)

Module Reference.

(** The lines of a text, ended by LF, CR LF or CR. *)
Fixpoint split_lines (s cur : str) : list str :=
  match s with
  | [] => match cur with [] => [] | _ => [rev cur] end
  | 10 :: r => rev cur :: split_lines r []
  | 13 :: r =>
      match r with
      | 10 :: r' => rev cur :: split_lines r' []
      | _ => rev cur :: split_lines r []
      end
  | c :: r => split_lines r (c :: cur)
  end.

Definition is_blank (line : str) : bool :=
  forallb (fun c => (c =? 32) || (c =? 9)) line.

Fixpoint skip_initial_space (s : str) : str :=
  match s with
  | c :: r => if (c =? 32) || (c =? 9) then skip_initial_space r else s
  | [] => []
  end.

(** The fields of a line, without their initial spaces. *)
Fixpoint split_fields (s cur : str) : list str :=
  match s with
  | [] => [skip_initial_space (rev cur)]
  | 44 :: r => skip_initial_space (rev cur) :: split_fields r []
  | c :: r => split_fields r (c :: cur)
  end.

(** The records of a text with the number of their line in the file:
    blank lines are skipped but counted. *)
Fixpoint records (lines : list str) (lineno : nat) : list (nat * list str) :=
  match lines with
  | [] => []
  | l :: rest =>
      if is_blank l then records rest (S lineno)
      else (lineno, split_fields l []) :: records rest (S lineno)
  end.

(** The strings that [read_csv] reads as a missing cell. *)
Definition na_values : list str :=
  List.map lit
    [""; "#N/A"; "#N/A N/A"; "#NA"; "-1.#IND"; "-1.#QNAN"; "-NaN"; "-nan";
     "1.#IND"; "1.#QNAN"; "<NA>"; "N/A"; "NA"; "NULL"; "NaN"; "None";
     "n/a"; "nan"; "null"]%string.

Definition cell (field : str) : pyobj :=
  if existsb (Text.eqb field) na_values then PFloat S754_nan else PStr field.

Definition nat_str (n : nat) : str :=
  lit (DecimalString.NilZero.string_of_uint (Nat.to_uint n)).

(** Rows after the first are checked against the row before them; a
    short row is filled with missing cells. *)
Fixpoint check_rows (width : nat) (rows : list (nat * list str))
  : (exn_class * str) + list (list str) :=
  match rows with
  | [] => inr []
  | (lineno, fields) :: rest =>
      if (width <? List.length fields)%nat
      then inl (ParserError,
                lit "Error tokenizing data. C error: Expected "
                ++ nat_str width ++ lit " fields in line " ++ nat_str lineno
                ++ lit ", saw " ++ nat_str (List.length fields) ++ [10])
      else
        match check_rows width rest with
        | inl e => inl e
        | inr rs =>
            inr ((fields ++ repeat [] (width - List.length fields)) :: rs)
        end
  end.

(** Column [i] of the rows. *)
Definition column_at (rows : list (list str)) (i : nat) : column :=
  Object (List.map (fun row => cell (nth i row [])) rows).

Definition read_text (text : str) : (exn_class * str) + DataFrame :=
  match records (split_lines text []) 1 with
  | [] => inl (EmptyDataError, lit "No columns to parse from file")
  | (_, names) :: data =>
      let n := List.length names in
      let width :=
        match data with
        | (_, first) :: _ => Nat.max n (List.length first)
        | [] => n
        end in
      match check_rows width data with
      | inl e => inl e
      | inr rows =>
          (* the leading [width - n] fields of a row are its index *)
          inr (List.map (fun i => (nth i names [], column_at rows (width - n + i)))
                        (seq 0 n))
      end
  end.

Definition runtime : Runtime := {|
  lower_ext := fun s => s;
  decimal_ext := fun _ => None;
  float_repr := fun _ => lit "nan";
  read_csv := read_text;
  sum_ext := fun l => fold_left Float.add l Float.zero;
  sum_other := fun _ => inl (TypeError, lit "unsupported operand");
  round_other := fun _ => inl (TypeError, lit "unsupported operand");
  ambiguous_truth :=
    lit "The truth value of a Series is ambiguous. Use a.empty, a.bool(), a.item(), a.any() or a.all()."
|}.

(** The bytes of an ASCII text. *)
Definition bytes_of (s : string) : list byte := list_byte_of_string s.

End Reference.

(* ================================================================= *)
(** ** Vocabulary of the properties *)

(** [k] occurs in [s]: some characters, then [k], then some characters. *)
Definition substring (k s : str) : Prop :=
  exists pre post, s = pre ++ k ++ post.

(** [s] holds one of the keywords. *)
Definition has_keyword (keywords : list str) (s : str) : Prop :=
  exists k, In k keywords /\ substring k s.

(** [h] is the first element of [columns] that holds a keyword. *)
Definition first_with_keyword (keywords : list str) (columns : list str)
    (h : str) : Prop :=
  exists before after,
    columns = before ++ h :: after
    /\ has_keyword keywords h
    /\ Forall (fun c => ~ has_keyword keywords c) before.

(** The text that the decode stage hands on: the UTF-8 reading of the
    bytes when they are well-formed UTF-8, their Latin-1 reading
    otherwise. *)
Definition decoded_text (contents : list byte) : str :=
  match Codec.utf8 (List.map Byte.to_N contents) with
  | Some s => s
  | None => List.map Byte.to_N contents
  end.

(** The line feed, and the lines of a text file. *)
Definition LF : string := String (Ascii.ascii_of_nat 10) EmptyString.

Fixpoint unlines (lines : list string) : string :=
  match lines with
  | [] => EmptyString
  | l :: rest => (l ++ LF ++ unlines rest)%string
  end.

(** The binary64 value of a decimal literal. *)
Definition f64 (x : PrimFloat.float) : float := Prim2SF x.

(** A computation that only appends to what the logger has received:
    its outcome and what it appends do not depend on the state. *)
Definition appends {A} (m : M A) : Prop :=
  exists (r : outcome A) (w : list log_record), forall st, m st = (r, st ++ w).

(** A string is trimmed when it neither starts nor ends with
    whitespace. *)
Definition trimmed (s : str) : Prop :=
  match s with
  | [] => True
  | c :: _ => isspace c = false /\ isspace (last s c) = false
  end.

(** What [clean_amount] returns and what it logs, as functions of the
    cell. *)
Definition amount_value (R : Runtime) (x : pyobj) : float :=
  if pd_isna x || is_empty_str x then Float.zero
  else match py_float R (clean_token R x) with
       | Some f => f
       | None => Float.zero
       end.

Definition amount_warning (R : Runtime) (x : pyobj) : list log_record :=
  if pd_isna x || is_empty_str x then []
  else match py_float R (clean_token R x) with
       | Some _ => []
       | None => [WarnCouldNotConvert (clean_token R x)]
       end.

(** The numeral that [float] reads in a token of digits, points and
    minus signs: its sign, its digits read as one integer, and the
    number of digits after the point.  [py_float] is the rounding of
    this numeral. *)
Definition numeral (R : Runtime) (s : str) : option (bool * Z * nat) :=
  let '(neg, s1) := match s with
                    | 45 :: r => (true, r)
                    | _ => (false, s)
                    end in
  let '(ip, ni, s2) := span_digits R s1 0%Z 0%nat in
  let '(m, nf, s3) := match s2 with
                      | 46 :: r => span_digits R r ip 0%nat
                      | _ => (ip, 0%nat, s2)
                      end in
  match s3 with
  | [] => if (ni + nf =? 0)%nat then None else Some (neg, m, nf)
  | _ :: _ => None
  end.

(** Where binary64 overflows: the middle of the largest finite number,
    [2^1024 - 2^971], and [2^1024]. *)
Definition overflow_threshold : Z := (2 ^ 1024 - 2 ^ 970)%Z.

(** The cells on which [str] returns: every cell but an integer of more
    than 4300 digits, the default limit of CPython 3.11 and later. *)
Definition str_returns (x : pyobj) : Prop :=
  match x with
  | PInt z => (Z.abs z < 10 ^ 4300)%Z
  | _ => True
  end.

(** No cell of the column passes the Food Classifier once normalized. *)
Definition no_food_row (R : Runtime) (c : column) : Prop :=
  Forall (fun x => is_food_category R (clean_category R x) = false) (items c).

(** The result whose answer is the float [total]. *)
Definition result_of (total : float) : AnalysisResult :=
  {| answer := Scalar (PFloat total);
     email := lit "user@example.com";
     exam := lit "tds-2025-05-roe" |}.

(** A cell of 310 digits: one followed by 309 zeros. *)
Definition huge_cell : pyobj := PStr (lit "1" ++ repeat 48 309).

(** The three-row upload of the design document, as a text file. *)
Definition three_row_text : list byte :=
  Reference.bytes_of
    (unlines ["Category,Amount"; "Lunch,$12.50"; "Rent,800";
              "Groceries,(5.00)"]%string).

(** An upload of a header row alone. *)
Definition header_only_upload : list byte :=
  Reference.bytes_of (unlines ["Date,Notes"]%string).

(** An upload whose first two headers have the same normalized name. *)
Definition duplicate_amount_upload : list byte :=
  Reference.bytes_of (unlines ["Amount,AMOUNT,Category"; "$1,$2,Rent"]%string).

(** The errors of the parse stage, by their detail: the reader found
    nothing to parse, the reader failed otherwise, the frame is empty. *)
Definition nothing_to_parse_error {A} (o : outcome A) : Prop :=
  o = Raise (HTTPException 400 (lit "CSV file is empty")).

Definition malformed_error {A} (o : outcome A) : Prop :=
  exists msg, o = Raise (HTTPException 400 (lit "Error reading CSV: " ++ msg)).

Definition empty_error {A} (o : outcome A) : Prop :=
  o = Raise (HTTPException 400 (lit "CSV file contains no data")).

(** The text holds no row at all for the reference reader: every line
    is blank. *)
Definition no_parsable_row (csv_string : str) : Prop :=
  Reference.records (Reference.split_lines csv_string []) 1 = [].

(** The errors of column detection. *)
Definition amount_not_found {A} : outcome A :=
  Raise (HTTPException 400 (lit "Could not identify amount column in CSV")).

Definition category_not_found {A} : outcome A :=
  Raise (HTTPException 400 (lit "Could not identify category column in CSV")).

(** The frame of the three-row upload of the design document. *)
Definition lunch_rent_groceries : DataFrame :=
  [ (lit "Category",
     Object [PStr (lit "Lunch"); PStr (lit "Rent"); PStr (lit "Groceries")]);
    (lit "Amount",
     Object [PStr (lit "$12.50"); PStr (lit "800"); PStr (lit "(5.00)")]) ].

(* ----------------------------------------------------------------- *)
(** *** Vocabulary of the further properties *)

(** The rows that line 152 keeps, and the sum of their cleaned amounts. *)
Definition food_mask_of (R : Runtime) (categories : column) : list bool :=
  List.map (fun x => is_food_category R (clean_category R x)) (items categories).

Definition food_total (R : Runtime) (amounts categories : column) : float :=
  float64_sum R
    (mask_filter (food_mask_of R categories)
       (List.map (amount_value R) (items amounts))).

(** An upload with a date column, a category column and an amount
    column. *)
Definition dated_upload : list byte :=
  Reference.bytes_of
    (unlines ["Date,Category,Amount ($)"; "2024-01-01,Coffee,$3.50";
              "2024-01-02,Rent,$900"; "2024-01-03,Dinner out,(1.25)"]%string).

Definition dated_frame : DataFrame :=
  [ (lit "Date",
     Object [PStr (lit "2024-01-01"); PStr (lit "2024-01-02");
             PStr (lit "2024-01-03")]);
    (lit "Category",
     Object [PStr (lit "Coffee"); PStr (lit "Rent"); PStr (lit "Dinner out")]);
    (lit "Amount ($)",
     Object [PStr (lit "$3.50"); PStr (lit "$900"); PStr (lit "(1.25)")]) ].

(** An upload whose total lies half-way between two amounts of two
    decimals. *)
Definition half_cent_upload : list byte :=
  Reference.bytes_of (unlines ["Item,Cost"; "Coffee,$0.125"]%string).

(** The details that a client error of the request can carry. *)
Definition client_detail (d : str) : Prop :=
  d = lit "CSV file is empty"
  \/ (exists msg, d = lit "Error reading CSV: " ++ msg)
  \/ d = lit "CSV file contains no data"
  \/ d = lit "Could not identify amount column in CSV"
  \/ d = lit "Could not identify category column in CSV".

(** The record of line 171. *)
Definition is_error_record (r : log_record) : Prop :=
  exists msg, r = ErrorUnexpected msg.

(** A computation as it runs inside the [try] of line 87: it appends
    records that are not the record of line 171, and an [HTTPException]
    it raises is a client error with one of the five details. *)
Definition inside_try {A} (m : M A) : Prop :=
  exists (r : outcome A) (w : list log_record),
    (forall st, m st = (r, st ++ w))
    /\ Forall (fun rec => ~ is_error_record rec) w
    /\ (forall code d, r = Raise (HTTPException code d) ->
                       code = 400%Z /\ client_detail d).

(** The three-row upload with its header row in capitals and a blank
    after a name. *)
Definition three_row_text_capitals : list byte :=
  Reference.bytes_of
    (unlines ["CATEGORY ,AMOUNT"; "Lunch,$12.50"; "Rent,800";
              "Groceries,(5.00)"]%string).

(** Every whitespace of [s] is one space, and no two follow each other;
    [after_space] tells whether [s] comes after a space. *)
Fixpoint single_spaced (after_space : bool) (s : str) : bool :=
  match s with
  | [] => true
  | c :: r =>
      if isspace c
      then (c =? 32) && negb after_space && single_spaced true r
      else single_spaced false r
  end.

(** The characters of an unsigned amount: an ASCII digit, the point, a
    currency symbol or a comma. *)
Definition is_unsigned_amount_char (c : N) : bool :=
  ((48 <=? c) && (c <=? 57)) || (c =? 46) || is_currency_or_comma c.

(** The number of rows of a category column that count as food. *)
Definition food_rows (R : Runtime) (categories : column) : nat :=
  List.length
    (List.filter (fun x => is_food_category R (clean_category R x))
       (items categories)).

(** Every column of the frame has as many cells as the frame has
    rows. *)
Definition rectangular (df : DataFrame) : Prop :=
  Forall (fun lc => List.length (items (snd lc)) = nrows df) df.

(** An upload with two amounts that do not convert, one of them in a
    row that is not food. *)
Definition unpriced_upload : list byte :=
  Reference.bytes_of
    (unlines ["Item,Cost"; "Coffee,3.50"; "Rent,12-01"; "Snack,free"]%string).

(** The cleaned categories of the food rows of a category column. *)
Definition kept_categories (R : Runtime) (categories : column) : column :=
  Object
    (mask_filter (food_mask_of R categories)
       (List.map (fun x => PStr (clean_category R x)) (items categories))).

(** The answer of a request, or its failure, from what the runtime
    makes of the sum of a selection that is no series of floats and of
    the rounding of that sum (lines 158 to 172). *)
Definition sum_and_round (R : Runtime) (sel : selection) : outcome AnalysisResult :=
  match sum_other R sel with
  | inl (_, msg) => Raise (HTTPException 500 (lit "Internal server error: " ++ msg))
  | inr total =>
      match round_other R total with
      | inl (_, msg) =>
          Raise (HTTPException 500 (lit "Internal server error: " ++ msg))
      | inr rounded =>
          Return {| answer := rounded;
                    email := lit "user@example.com";
                    exam := lit "tds-2025-05-roe" |}
      end
  end.

(** How many times a label stands among the header names. *)
Definition occurrences (label : str) (columns : list str) : nat :=
  count_occ (list_eq_dec N.eq_dec) columns label.

(** An upload with one header for both roles, and one whose category
    header comes twice once in lower case. *)
Definition expense_type_upload : list byte :=
  Reference.bytes_of
    (unlines ["Expense type,Notes"; "Coffee,x"; "Rent,y"]%string).

Definition repeated_category_upload : list byte :=
  Reference.bytes_of
    (unlines ["Amount,Type,TYPE"; "$1,Food,Rent"]%string).

Unset Implicit Arguments.

(* ================================================================= *)
(** ** Text: substring search *)

Section TextFacts.

Lemma eqb_eq (a b : str) : Text.eqb a b = true <-> a = b.
Proof.
  unfold Text.eqb. destruct (list_eq_dec N.eq_dec a b); split; congruence.
Qed.

Lemma eqb_refl (a : str) : Text.eqb a a = true.
Proof. apply eqb_eq. reflexivity. Qed.

Lemma eqb_neq (a b : str) : Text.eqb a b = false <-> a <> b.
Proof.
  unfold Text.eqb. destruct (list_eq_dec N.eq_dec a b); split; congruence.
Qed.

Lemma startswith_spec (p s : str) :
  startswith s p = true <-> exists post, s = p ++ post.
Proof.
  revert s. induction p as [|a p IH]; intros s; simpl.
  - split; [intros _; exists s; reflexivity | reflexivity].
  - destruct s as [|b s].
    + split; [discriminate | intros [post H]; discriminate].
    + rewrite andb_true_iff, N.eqb_eq, IH. split.
      * intros [-> [post ->]]. exists post. reflexivity.
      * intros [post H]. injection H as -> ->. split; eauto.
Qed.

Lemma contains_spec (k s : str) : contains k s = true <-> substring k s.
Proof.
  unfold substring. induction s as [|c s IH].
  - simpl. rewrite orb_false_r, startswith_spec. split.
    + intros [post H]. exists [], post. exact H.
    + intros [pre [post H]]. destruct pre; simpl in H.
      * exists post. exact H.
      * discriminate.
  - simpl. rewrite orb_true_iff, startswith_spec, IH. split.
    + intros [[post H] | [pre [post H]]].
      * exists [], post. exact H.
      * exists (c :: pre), post. simpl. congruence.
    + intros [pre [post H]]. destruct pre as [|x pre]; simpl in H.
      * left. exists post. exact H.
      * right. injection H as _ H. exists pre, post. exact H.
Qed.

Lemma any_keyword_in_spec (keywords : list str) (s : str) :
  any_keyword_in keywords s = true <-> has_keyword keywords s.
Proof.
  unfold has_keyword. induction keywords as [|k rest IH]; simpl.
  - split; [discriminate | intros [k [[] _]]].
  - destruct (contains k s) eqn:E.
    + split; [intros _ | reflexivity].
      exists k. split; [left; reflexivity | apply contains_spec; exact E].
    + rewrite IH. split.
      * intros [k' [Hin Hs]]. exists k'. split; [right|]; assumption.
      * intros [k' [[<- | Hin] Hs]].
        -- apply contains_spec in Hs. congruence.
        -- exists k'. split; assumption.
Qed.

Lemma any_keyword_in_false (keywords : list str) (s : str) :
  any_keyword_in keywords s = false <-> ~ has_keyword keywords s.
Proof.
  rewrite <- any_keyword_in_spec. destruct (any_keyword_in keywords s);
    split; congruence.
Qed.

End TextFacts.

(* ================================================================= *)
(** ** The Value Normalizer on the tokens of the design document *)

(** C2.  On the tokens "$1,234.56", "(50.00)", "€99", the empty string
    and "n/a", [clean_amount] returns 1234.56, -50.0, 99.0, 0.0 and 0.0,
    whatever the runtime and whatever the logger has received; the last
    token is the only one that is logged as not convertible. *)
#[warnings="-inexact-float"]
Theorem clean_amount_examples (R : Runtime) (st : list log_record) :
  clean_amount R (PStr (lit "$1,234.56")) st = (Return (f64 1234.56), st)
  /\ clean_amount R (PStr (lit "(50.00)")) st = (Return (f64 (-50.0)), st)
  /\ clean_amount R (PStr (8364 :: lit "99")) st = (Return (f64 99.0), st)
  /\ clean_amount R (PStr (lit "")) st = (Return (f64 0.0), st)
  /\ clean_amount R (PStr (lit "n/a")) st
     = (Return (f64 0.0), st ++ [WarnCouldNotConvert []]).
Proof.
  repeat split; vm_compute; reflexivity.
Qed.

(* ================================================================= *)
(** ** The Category Normalizer yields categories in normal form *)

Section CategoryNormalForm.

Variable R : Runtime.

Ltac decide_cmp :=
  repeat match goal with
    | |- context [N.leb ?a ?b] =>
        first [ rewrite (proj2 (N.leb_le a b)) by lia
              | rewrite (proj2 (N.leb_gt a b)) by lia ]
    | |- context [N.eqb ?a ?b] =>
        first [ rewrite (proj2 (N.eqb_eq a b)) by lia
              | rewrite (proj2 (N.eqb_neq a b)) by lia ]
    | |- context [N.ltb ?a ?b] =>
        first [ rewrite (proj2 (N.ltb_lt a b)) by lia
              | rewrite (proj2 (N.ltb_ge a b)) by lia ]
    end.

Lemma upper_case_cases (c : N) :
  (65 <=? c) && (c <=? 90) = true /\ 65 <= c <= 90
  \/ (65 <=? c) && (c <=? 90) = false.
Proof.
  destruct ((65 <=? c) && (c <=? 90)) eqn:E; [left | right; reflexivity].
  apply andb_true_iff in E. destruct E as [E1 E2].
  apply N.leb_le in E1. apply N.leb_le in E2. split; [reflexivity | lia].
Qed.

Lemma isspace_ascii_lower (c : N) : isspace (ascii_lower c) = isspace c.
Proof.
  unfold ascii_lower.
  destruct (upper_case_cases c) as [[E H] | E]; rewrite E; [|reflexivity].
  unfold isspace. decide_cmp. reflexivity.
Qed.

Lemma ascii_lower_idem (c : N) : ascii_lower (ascii_lower c) = ascii_lower c.
Proof.
  unfold ascii_lower.
  destruct (upper_case_cases c) as [[E H] | E]; rewrite E.
  - decide_cmp. reflexivity.
  - rewrite E. reflexivity.
Qed.

Lemma is_ascii_lower (c : N) : is_ascii c = true -> is_ascii (ascii_lower c) = true.
Proof.
  unfold is_ascii, ascii_lower. intros H.
  destruct (upper_case_cases c) as [[E Hc] | E]; rewrite E; [|exact H].
  decide_cmp. reflexivity.
Qed.

Lemma lstrip_head (s : str) :
  match lstrip s with [] => True | c :: _ => isspace c = false end.
Proof.
  induction s as [|c s IH]; simpl; [exact I|].
  destruct (isspace c) eqn:E; [exact IH | exact E].
Qed.

Lemma lstrip_nonspace (c : N) (s : str) :
  isspace c = false -> lstrip (c :: s) = c :: s.
Proof. intros H. simpl. rewrite H. reflexivity. Qed.

Lemma lstrip_suffix (s : str) : exists p, s = p ++ lstrip s.
Proof.
  induction s as [|c s [p IH]]; simpl.
  - exists []. reflexivity.
  - destruct (isspace c).
    + exists (c :: p). simpl. f_equal. exact IH.
    + exists []. reflexivity.
Qed.

Lemma trimmed_strip_fixed (s : str) : trimmed s -> strip s = s.
Proof.
  destruct s as [|c s]; [reflexivity|]. intros [Hh Hl].
  unfold strip. rewrite (lstrip_nonspace _ _ Hh). unfold rstrip.
  destruct (exists_last (l := c :: s) ltac:(discriminate)) as [p [z E]].
  rewrite E in *. rewrite last_last in Hl.
  rewrite rev_unit, (lstrip_nonspace _ _ Hl), <- rev_unit, rev_involutive.
  reflexivity.
Qed.

Lemma strip_trimmed (s : str) : trimmed (strip s).
Proof.
  unfold strip, rstrip.
  pose proof (lstrip_head s) as Hh.
  pose proof (lstrip_head (rev (lstrip s))) as Hl.
  destruct (lstrip_suffix (rev (lstrip s))) as [p Hp].
  destruct (lstrip (rev (lstrip s))) as [|z t] eqn:Et; [exact I|].
  assert (E : lstrip s = rev t ++ z :: rev p).
  { rewrite <- (rev_involutive (lstrip s)), Hp, rev_app_distr. simpl.
    rewrite <- app_assoc. reflexivity. }
  simpl rev. destruct (rev t ++ [z]) as [|c u] eqn:Eu.
  { destruct (rev t); discriminate. }
  split.
  - rewrite E in Hh. destruct (rev t) as [|y w]; simpl in *.
    + injection Eu as <- _. exact Hh.
    + injection Eu as <- _. exact Hh.
  - rewrite <- Eu, last_last. exact Hl.
Qed.

Lemma last_map_lower (s : str) (d : N) :
  last (List.map ascii_lower s) (ascii_lower d) = ascii_lower (last s d).
Proof.
  induction s as [|c s IH]; [reflexivity|].
  destruct s as [|c' s]; [reflexivity|]. exact IH.
Qed.

Lemma trimmed_map_lower (s : str) : trimmed s -> trimmed (List.map ascii_lower s).
Proof.
  destruct s as [|c s]; [trivial|]. intros [Hh Hl]. split.
  - rewrite isspace_ascii_lower. exact Hh.
  - change (ascii_lower c :: List.map ascii_lower s)
      with (List.map ascii_lower (c :: s)).
    rewrite last_map_lower, isspace_ascii_lower. exact Hl.
Qed.

Lemma collapse_run_last (b : bool) (p : str) (c : N) :
  isspace c = false -> collapse_run b (p ++ [c]) = collapse_run b p ++ [c].
Proof.
  intros Hc. revert b. induction p as [|x p IH]; intros b; simpl.
  - rewrite Hc. reflexivity.
  - destruct (isspace x); [destruct b|]; simpl; rewrite IH; reflexivity.
Qed.

Lemma trimmed_collapse_ws (s : str) : trimmed s -> trimmed (collapse_ws s).
Proof.
  destruct s as [|c s]; [trivial|]. intros [Hh Hl].
  destruct (exists_last (l := c :: s) ltac:(discriminate)) as [p [z E]].
  rewrite E in *. rewrite last_last in Hl.
  unfold collapse_ws. rewrite (collapse_run_last _ _ _ Hl).
  destruct p as [|y p]; simpl in *.
  - split; exact Hl.
  - injection E as <- _. rewrite Hh.
    change (c :: collapse_run false p ++ [z])
      with ((c :: collapse_run false p) ++ [z]).
    split; [exact Hh | rewrite last_last; exact Hl].
Qed.

Lemma collapse_run_chars (P : N -> Prop) (b : bool) (s : str) :
  P 32 -> Forall P s -> Forall P (collapse_run b s).
Proof.
  intros H32 H. revert b. induction H as [|x s Hx Hs IH]; intros b; simpl.
  - constructor.
  - destruct (isspace x); [destruct b|]; try constructor; auto.
Qed.

Lemma lstrip_chars (P : N -> Prop) (s : str) : Forall P s -> Forall P (lstrip s).
Proof.
  induction 1 as [|x s Hx Hs IH]; simpl; [constructor|].
  destruct (isspace x); [exact IH | constructor; assumption].
Qed.

Lemma strip_chars (P : N -> Prop) (s : str) : Forall P s -> Forall P (strip s).
Proof.
  intros H. unfold strip, rstrip.
  apply Forall_rev, lstrip_chars, Forall_rev, lstrip_chars, H.
Qed.

Lemma py_lower_ascii (s : str) :
  Forall (fun c => is_ascii c = true) s -> py_lower R s = List.map ascii_lower s.
Proof.
  intros H. unfold py_lower.
  rewrite (proj2 (forallb_forall is_ascii s)); [reflexivity|].
  intros x Hx. rewrite Forall_forall in H. apply H. exact Hx.
Qed.

(** What the Category Normalizer makes of an ASCII cell is in the
    normal form of the Food Classifier: lower case and trimmed. *)
Lemma clean_category_normal_form (s : str) :
  Forall (fun c => is_ascii c = true) s ->
  strip (py_lower R (clean_category R (PStr s))) = clean_category R (PStr s).
Proof.
  intros Hs. unfold clean_category. simpl pd_isna. cbv iota. simpl py_str.
  pose proof (strip_chars _ _ Hs) as Ht.
  rewrite (py_lower_ascii _ Ht).
  set (u := List.map ascii_lower (strip s)).
  assert (Hu : Forall (fun c => is_ascii c = true /\ ascii_lower c = c) u).
  { unfold u. rewrite Forall_map. eapply Forall_impl; [|exact Ht].
    intros c Hc. split; [apply is_ascii_lower; exact Hc | apply ascii_lower_idem]. }
  assert (Hv : Forall (fun c => is_ascii c = true /\ ascii_lower c = c) (collapse_ws u)).
  { apply collapse_run_chars; [split; reflexivity | exact Hu]. }
  rewrite py_lower_ascii by (eapply Forall_impl; [|exact Hv]; intros c [H _]; exact H).
  assert (Hm : List.map ascii_lower (collapse_ws u) = collapse_ws u).
  { clear -Hv. induction Hv as [|x l [_ Hx] _ IH]; simpl; [reflexivity|].
    rewrite Hx, IH. reflexivity. }
  rewrite Hm. apply trimmed_strip_fixed, trimmed_collapse_ws.
  unfold u. apply trimmed_map_lower, strip_trimmed.
Qed.

End CategoryNormalForm.

(* ================================================================= *)
(** ** The Food Classifier *)

Section FoodClassifier.

Variable R : Runtime.

(** The classifier looks for the keywords in its own normal form of the
    category, lower case and trimmed. *)
Lemma is_food_category_keywords (category : str) :
  is_food_category R category = true
  <-> has_keyword food_keywords (strip (py_lower R category)).
Proof.
  unfold is_food_category.
  destruct (Text.eqb (strip (py_lower R category)) (lit "food")) eqn:E.
  - apply eqb_eq in E. rewrite E. split; [intros _ | reflexivity].
    exists (lit "food"). split; [left; reflexivity|].
    exists [], []. reflexivity.
  - apply any_keyword_in_spec.
Qed.

End FoodClassifier.

(** C3.  The Food Classifier holds of a category exactly when the
    category, in lower case and trimmed, contains one of the seventeen
    keywords as a substring; for a category that is already in that
    normal form, as is every category that the Category Normalizer
    makes of an ASCII cell, this is the category itself.  It holds of
    "Restaurant", "Seafood Market" and "FOOD", and not of
    "Office Supplies" nor of the empty string. *)
Theorem is_food_category_spec (R : Runtime) :
  (forall c, is_food_category R c = true
             <-> has_keyword food_keywords (strip (py_lower R c)))
  /\ (forall c, strip (py_lower R c) = c ->
                (is_food_category R c = true <-> has_keyword food_keywords c))
  /\ (forall s, Forall (fun c => is_ascii c = true) s ->
                (is_food_category R (clean_category R (PStr s)) = true
                 <-> has_keyword food_keywords (clean_category R (PStr s))))
  /\ food_keywords
     = List.map lit
         ["food"; "restaurant"; "dining"; "lunch"; "dinner"; "breakfast";
          "cafe"; "coffee"; "snack"; "meal"; "grocery"; "groceries";
          "catering"; "takeout"; "delivery"; "fast food"; "fastfood"]%string
  /\ is_food_category R (lit "Restaurant") = true
  /\ is_food_category R (lit "Seafood Market") = true
  /\ is_food_category R (lit "FOOD") = true
  /\ is_food_category R (lit "Office Supplies") = false
  /\ is_food_category R (lit "") = false.
Proof.
  split; [apply is_food_category_keywords|].
  split.
  { intros c Hc. rewrite is_food_category_keywords, Hc. reflexivity. }
  split.
  { intros s Hs.
    rewrite is_food_category_keywords, clean_category_normal_form by exact Hs.
    reflexivity. }
  repeat split; vm_compute; reflexivity.
Qed.

(** A normalized category on which the classifier holds by a substring
    that is not a whole word. *)
Lemma is_food_category_spec_witness :
  strip (py_lower Reference.runtime (lit "seafood market")) = lit "seafood market"
  /\ (is_food_category Reference.runtime (lit "seafood market") = true
      <-> has_keyword food_keywords (lit "seafood market")).
Proof.
  split.
  - vm_compute. reflexivity.
  - apply (proj1 (proj2 (is_food_category_spec Reference.runtime))).
    vm_compute. reflexivity.
Defined.

(* ================================================================= *)
(** ** The Column Detector *)

Section ColumnDetector.

Variable keywords : list str.

Lemma first_column_with_some (columns : list str) (h : str) :
  first_column_with keywords columns = Some h
  <-> first_with_keyword keywords columns h.
Proof.
  unfold first_with_keyword. induction columns as [|col rest IH]; simpl.
  - split; [discriminate|].
    intros [before [after [H _]]]. destruct before; discriminate.
  - destruct (any_keyword_in keywords col) eqn:E.
    + split.
      * intros [= <-]. exists [], rest. repeat split.
        -- apply any_keyword_in_spec. exact E.
        -- constructor.
      * intros [before [after [H [Hh Hb]]]].
        destruct before as [|b before]; simpl in H.
        -- congruence.
        -- injection H as <- _. inversion Hb as [|? ? Hn _]; subst.
           apply any_keyword_in_spec in E. contradiction.
    + rewrite IH. split.
      * intros [before [after [-> [Hh Hb]]]].
        exists (col :: before), after. repeat split; [exact Hh|].
        constructor; [apply any_keyword_in_false; exact E | exact Hb].
      * intros [before [after [H [Hh Hb]]]].
        destruct before as [|b before]; simpl in H.
        -- injection H as <- _. apply any_keyword_in_spec in Hh. congruence.
        -- injection H as <- ->. inversion Hb; subst.
           exists before, after. repeat split; assumption.
Qed.

Lemma first_column_with_none (columns : list str) :
  first_column_with keywords columns = None
  <-> Forall (fun c => ~ has_keyword keywords c) columns.
Proof.
  induction columns as [|col rest IH]; simpl.
  - split; [constructor | reflexivity].
  - destruct (any_keyword_in keywords col) eqn:E.
    + split; [discriminate|]. intros H. inversion H as [|? ? Hn _]; subst.
      apply any_keyword_in_spec in E. contradiction.
    + rewrite IH. split.
      * intros H. constructor; [apply any_keyword_in_false; exact E | exact H].
      * intros H. inversion H; assumption.
Qed.

End ColumnDetector.

(** C4.  Whatever the header names, the amount column is the first
    header, in the order of the file, that contains one of amount, cost,
    price, total, sum, expense as a substring, and the category column
    is found in the same way, by a search of its own, with category,
    type, description, item; a role is unresolved exactly when no header
    contains one of its keywords.  For date, category, amount ($) the
    amount column is amount ($) and the category column is category.
    The two searches do not exclude each other: item cost is found by
    both. *)
Theorem column_detector_first_match (columns : list str) :
  (forall h, detect_amount_col columns = Some h
             <-> first_with_keyword amount_keywords columns h)
  /\ (detect_amount_col columns = None
      <-> Forall (fun c => ~ has_keyword amount_keywords c) columns)
  /\ (forall h, detect_category_col columns = Some h
                <-> first_with_keyword category_keywords columns h)
  /\ (detect_category_col columns = None
      <-> Forall (fun c => ~ has_keyword category_keywords c) columns)
  /\ amount_keywords
     = List.map lit ["amount"; "cost"; "price"; "total"; "sum"; "expense"]%string
  /\ category_keywords
     = List.map lit ["category"; "type"; "description"; "item"]%string
  /\ detect_amount_col [lit "date"; lit "category"; lit "amount ($)"]
     = Some (lit "amount ($)")
  /\ detect_category_col [lit "date"; lit "category"; lit "amount ($)"]
     = Some (lit "category")
  /\ detect_amount_col [lit "date"; lit "item cost"] = Some (lit "item cost")
  /\ detect_category_col [lit "date"; lit "item cost"] = Some (lit "item cost").
Proof.
  split; [intros h; apply first_column_with_some|].
  split; [apply first_column_with_none|].
  split; [intros h; apply first_column_with_some|].
  split; [apply first_column_with_none|].
  repeat split; vm_compute; reflexivity.
Qed.

(* ================================================================= *)
(** ** The decode stage *)

Lemma decode_cascade_latin1 (third : list N -> option str)
    (contents : list byte) (st : list log_record) :
  decode_cascade Codec.utf8 Codec.latin1 third contents st
  = (Return (decoded_text contents), st).
Proof.
  unfold decode_cascade, try_except, decode, decoded_text.
  destruct (Codec.utf8 (List.map to_N contents)); reflexivity.
Qed.

Lemma decode_contents_total (contents : list byte) (st : list log_record) :
  decode_contents contents st = (Return (decoded_text contents), st).
Proof. apply decode_cascade_latin1. Qed.

(** C8.  Decoding never fails.  The bytes are read as UTF-8 when they
    are well-formed UTF-8 and as Latin-1 otherwise, and Latin-1 reads
    every byte sequence; the third codec is never consulted: replacing
    it by any other changes nothing, and no exception leaves the
    stage. *)
Theorem decode_never_fails (contents : list byte) (st : list log_record) :
  decode_contents contents st = (Return (decoded_text contents), st)
  /\ (forall u, Codec.utf8 (List.map to_N contents) = Some u ->
                decoded_text contents = u)
  /\ (Codec.utf8 (List.map to_N contents) = None ->
      decoded_text contents = List.map to_N contents)
  /\ (forall bs, Codec.latin1 bs = Some bs)
  /\ (forall third,
        decode_cascade Codec.utf8 Codec.latin1 third contents st
        = decode_contents contents st).
Proof.
  split; [apply decode_cascade_latin1|].
  split; [intros u H; unfold decoded_text; rewrite H; reflexivity|].
  split; [intros H; unfold decoded_text; rewrite H; reflexivity|].
  split; [reflexivity|].
  intros third. unfold decode_contents.
  rewrite !decode_cascade_latin1. reflexivity.
Qed.

(** Bytes that are not UTF-8, read as Latin-1; and a byte that the
    third codec would refuse. *)
Lemma decode_never_fails_witness :
  Codec.utf8 (List.map to_N [xe9; x2c; xff]) = None
  /\ decoded_text [xe9; x2c; xff] = [233; 44; 255]
  /\ Codec.cp1252 (List.map to_N [x81]) = None
  /\ decode_contents [x81] [] = (Return [129], []).
Proof.
  split; [reflexivity|].
  split; [apply (proj1 (proj2 (proj2 (decode_never_fails [xe9; x2c; xff] [])))); reflexivity|].
  split; [reflexivity|].
  apply (proj1 (decode_never_fails [x81] [])).
Defined.

(* ================================================================= *)
(** ** The logger is the only state, and it is write-only *)

Section Appends.

Lemma appends_ret {A} (a : A) : appends (ret a).
Proof. exists (Return a), []. intros st. unfold ret. rewrite app_nil_r. reflexivity. Qed.

Lemma appends_raise {A} (e : exn) : appends (@raise A e).
Proof. exists (Raise e), []. intros st. unfold raise. rewrite app_nil_r. reflexivity. Qed.

Lemma appends_log (r : log_record) : appends (log r).
Proof. exists (Return tt), [r]. reflexivity. Qed.

Lemma appends_bind {A B} (m : M A) (k : A -> M B) :
  appends m -> (forall a, appends (k a)) -> appends (bind m k).
Proof.
  intros [r [w Hm]] Hk. destruct r as [a|e].
  - destruct (Hk a) as [r' [w' Hk']]. exists r', (w ++ w'). intros st.
    unfold bind. rewrite Hm, Hk', app_assoc. reflexivity.
  - exists (Raise e), w. intros st. unfold bind. rewrite Hm. reflexivity.
Qed.

Lemma appends_try_except {A} (m : M A) (h : exn -> M A) :
  appends m -> (forall e, appends (h e)) -> appends (try_except m h).
Proof.
  intros [r [w Hm]] Hh. destruct r as [a|e].
  - exists (Return a), w. intros st. unfold try_except. rewrite Hm. reflexivity.
  - destruct (Hh e) as [r' [w' Hh']]. exists r', (w ++ w'). intros st.
    unfold try_except. rewrite Hm, Hh', app_assoc. reflexivity.
Qed.

Lemma appends_lift {A} (r : (exn_class * str) + A) : appends (lift r).
Proof.
  destruct r as [[c msg]|a]; [apply appends_raise | apply appends_ret].
Qed.

Lemma appends_mapM {A B} (f : A -> M B) (l : list A) :
  (forall a, appends (f a)) -> appends (mapM f l).
Proof.
  intros Hf. induction l as [|a l IH]; simpl.
  - apply appends_ret.
  - apply appends_bind; [apply Hf|]. intros b.
    apply appends_bind; [exact IH|]. intros bs. apply appends_ret.
Qed.

Lemma appends_decode codec reason contents : appends (decode codec reason contents).
Proof.
  unfold decode. destruct (codec _); [apply appends_ret | apply appends_raise].
Qed.

End Appends.

Create HintDb appends.

#[local] Hint Resolve appends_ret appends_raise appends_log appends_lift
  appends_decode : appends.

Ltac appends_step :=
  match goal with
  | |- appends (bind _ _) => apply appends_bind; [|intros ?]
  | |- appends (try_except _ _) => apply appends_try_except; [|intros ?]
  | |- appends (mapM _ _) => apply appends_mapM; intros ?
  | |- appends (match ?x with _ => _ end) => destruct x
  | |- appends (if ?b then _ else _) => destruct b
  | |- appends _ => solve [auto with appends]
  end.

Section Determinism.

Variable R : Runtime.

Lemma appends_clean_amount (x : pyobj) : appends (clean_amount R x).
Proof. unfold clean_amount. repeat appends_step. Qed.

Lemma appends_getitem (df : DataFrame) (label : str) : appends (getitem df label).
Proof. unfold getitem. repeat appends_step. Qed.

Lemma appends_is_food_category_obj (x : pyobj) : appends (is_food_category_obj R x).
Proof. unfold is_food_category_obj. repeat appends_step. Qed.

Lemma appends_analyze_frame (df : DataFrame) : appends (analyze_frame R df).
Proof.
  unfold analyze_frame, apply_clean_amount, apply_clean_category,
    apply_is_food_category.
  repeat first [ apply appends_clean_amount | apply appends_getitem
               | apply appends_is_food_category_obj | appends_step ].
Qed.

Lemma appends_parse (csv_string : str) : appends (parse R csv_string).
Proof. unfold parse. repeat appends_step. Qed.

Lemma appends_analyze_expenses (contents : list byte) :
  appends (analyze_expenses R contents).
Proof.
  unfold analyze_expenses, http_errors, decode_contents, decode_cascade.
  repeat first [ apply appends_analyze_frame | apply appends_parse
               | appends_step ].
Qed.

End Determinism.

(** C9.  The pipeline is a function of the uploaded bytes alone: its
    result, or its classified error, does not depend on the state it is
    run from, so two runs on the same bytes end alike, also when the
    second starts from the state the first has left; the only state it
    touches is the logger, to which it appends records that are
    themselves fixed by the bytes. *)
Theorem analyze_expenses_deterministic (R : Runtime) (contents : list byte) :
  (forall st1 st2,
      fst (analyze_expenses R contents st1) = fst (analyze_expenses R contents st2))
  /\ (forall st,
         fst (analyze_expenses R contents (snd (analyze_expenses R contents st)))
         = fst (analyze_expenses R contents st))
  /\ (exists written, forall st,
         snd (analyze_expenses R contents st) = st ++ written).
Proof.
  destruct (appends_analyze_expenses R contents) as [r [w H]].
  split; [|split].
  - intros st1 st2. rewrite !H. reflexivity.
  - intros st. rewrite !H. reflexivity.
  - exists w. intros st. rewrite H. reflexivity.
Qed.

(* ================================================================= *)
(** ** The parse stage *)

Section ParseStage.

Variable R : Runtime.

Lemma parse_frame (csv_string : str) (df : DataFrame) (st : list log_record) :
  read_csv R csv_string = inr df -> df_empty df = false ->
  parse R csv_string st = (Return df, st).
Proof.
  intros H E. unfold parse, bind, ret. rewrite H, E. reflexivity.
Qed.

Lemma parse_cases (csv_string : str) (st : list log_record) :
  match read_csv R csv_string with
  | inl (EmptyDataError, _) =>
      parse R csv_string st
      = (Raise (HTTPException 400 (lit "CSV file is empty")), st)
  | inl (_, msg) =>
      parse R csv_string st
      = (Raise (HTTPException 400 (lit "Error reading CSV: " ++ msg)), st)
  | inr df =>
      parse R csv_string st
      = if df_empty df
        then (Raise (HTTPException 400 (lit "CSV file contains no data")), st)
        else (Return df, st)
  end.
Proof.
  unfold parse, bind, ret, raise.
  destruct (read_csv R csv_string) as [[[] msg]|df]; try reflexivity.
  destruct (df_empty df); reflexivity.
Qed.

(** The pipeline from a frame that the parse stage lets through. *)
Lemma analyze_expenses_frame (contents : list byte) (df : DataFrame)
    (st : list log_record) :
  read_csv R (decoded_text contents) = inr df -> df_empty df = false ->
  analyze_expenses R contents st = http_errors (analyze_frame R df) st.
Proof.
  intros H E. unfold analyze_expenses, http_errors, try_except, bind.
  rewrite decode_contents_total.
  rewrite (parse_frame _ _ st H E). reflexivity.
Qed.

(** An error of the parse stage is the error of the request. *)
Lemma analyze_expenses_parse_error (contents : list byte) (code : Z)
    (detail : str) (st : list log_record) :
  fst (parse R (decoded_text contents) st) = Raise (HTTPException code detail) ->
  fst (analyze_expenses R contents st) = Raise (HTTPException code detail).
Proof.
  intros H. unfold analyze_expenses, http_errors, try_except, bind.
  rewrite decode_contents_total.
  destruct (parse R (decoded_text contents) st) as [o st'].
  simpl in H. subst o. reflexivity.
Qed.

End ParseStage.

(** The outcome of the parse stage as a function of what the reader
    returns. *)
Lemma parse_outcome (R : Runtime) (csv_string : str) (st : list log_record) :
  parse R csv_string st
  = (match read_csv R csv_string with
     | inl (EmptyDataError, _) =>
         Raise (HTTPException 400 (lit "CSV file is empty"))
     | inl (_, msg) =>
         Raise (HTTPException 400 (lit "Error reading CSV: " ++ msg))
     | inr df =>
         if (nrows df =? 0)%nat
         then Raise (HTTPException 400 (lit "CSV file contains no data"))
         else Return df
     end, st).
Proof.
  pose proof (parse_cases R csv_string st) as H.
  destruct (read_csv R csv_string) as [[[] msg]|df]; try exact H.
  rewrite H. unfold df_empty. destruct (nrows df =? 0)%nat; reflexivity.
Qed.

Lemma nrows_no_row (df : DataFrame) :
  Forall (fun lc => items (snd lc) = []) df -> nrows df = 0%nat.
Proof.
  intros H. destruct df as [|[l c] df]; [reflexivity|].
  inversion H as [|? ? Hc _]; subst. simpl in *. rewrite Hc. reflexivity.
Qed.

Ltac text_neq H := exfalso; revert H; cbv; discriminate.

Ltac parse_crush :=
  repeat match goal with
    | |- _ <-> _ => split
    | |- _ -> _ => intro
    | H : exists _, _ |- _ => destruct H
    | H : _ /\ _ |- _ => destruct H
    | H : inl _ = inl _ |- _ =>
        first [ discriminate H | injection H; intros; subst; clear H ]
    | H : inr _ = inr _ |- _ => injection H as H; subst
    | H : Return _ = Return _ |- _ => injection H as H; subst
    | H : (_ =? _)%nat = true |- _ => apply Nat.eqb_eq in H
    | H : (_ =? _)%nat = false |- _ => apply Nat.eqb_neq in H
    | H : Forall _ _ |- _ => apply nrows_no_row in H
    | H : inl _ = inr _ |- _ => discriminate H
    | H : inr _ = inl _ |- _ => discriminate H
    | H : Return _ = Raise _ |- _ => discriminate H
    | H : Raise _ = Return _ |- _ => discriminate H
    | H : ?x <> ?x |- _ => contradiction H; reflexivity
    | H : ?x <> ?y, H' : ?x = ?y |- _ => contradiction (H H')
    | H : Raise _ = Raise _ |- _ =>
        first [ text_neq H | cbv in H; inversion H; subst; clear H ]
    end;
  try reflexivity;
  try (eexists; reflexivity);
  try (eexists; split; [|reflexivity]; discriminate);
  try (eexists; split; [reflexivity | assumption]);
  try (split; [reflexivity | assumption]).

(** C6, as the code has it.  The parse stage fails in three ways, each
    a client error with a detail of its own.  It reports that the file
    is empty exactly when the reader finds nothing to parse; it reports
    an error of reading, with the reader's message, exactly when the
    reader fails in any other way, which it also does on texts that hold
    rows it could parse; and it reports that the file contains no data
    exactly when the reader succeeds and the frame has no row, as for a
    header row alone.  Otherwise the frame is handed on.  The stage logs
    nothing. *)
Theorem parse_stage_errors (R : Runtime) (csv_string : str)
    (st : list log_record) :
  (nothing_to_parse_error (fst (parse R csv_string st))
   <-> exists msg, read_csv R csv_string = inl (EmptyDataError, msg))
  /\ (forall msg,
         fst (parse R csv_string st)
         = Raise (HTTPException 400 (lit "Error reading CSV: " ++ msg))
         <-> exists cls, cls <> EmptyDataError
                         /\ read_csv R csv_string = inl (cls, msg))
  /\ (empty_error (fst (parse R csv_string st))
      <-> exists df, read_csv R csv_string = inr df /\ nrows df = 0%nat)
  /\ (forall df, fst (parse R csv_string st) = Return df
                 <-> read_csv R csv_string = inr df /\ nrows df <> 0%nat)
  /\ (forall df, read_csv R csv_string = inr df ->
                 Forall (fun lc => items (snd lc) = []) df ->
                 empty_error (fst (parse R csv_string st)))
  /\ snd (parse R csv_string st) = st.
Proof.
  unfold nothing_to_parse_error, empty_error.
  rewrite parse_outcome. simpl fst. simpl snd.
  destruct (read_csv R csv_string) as [[cls msg]|df] eqn:E.
  - refine (conj _ (conj _ (conj _ (conj _ (conj _ _)))));
      destruct cls; parse_crush.
  - refine (conj _ (conj _ (conj _ (conj _ (conj _ _)))));
      destruct (nrows df =? 0)%nat eqn:En; parse_crush.
Qed.

(** A header row alone is an empty input; a row longer than the row
    before it is an error of reading. *)
Lemma parse_stage_errors_witness :
  empty_error (fst (parse Reference.runtime (lit (unlines ["Category,Amount"]%string)) []))
  /\ malformed_error
       (fst (parse Reference.runtime (lit (unlines ["a,b"; "1,2"; "3,4,5"]%string)) [])).
Proof.
  split.
  - eapply (proj1 (proj2 (proj2 (proj2 (proj2
              (parse_stage_errors Reference.runtime
                 (lit (unlines ["Category,Amount"]%string)) []))))));
      [vm_compute; reflexivity | repeat constructor].
  - exists (lit ("Error tokenizing data. C error: Expected 2 fields in line 3, saw 3" ++ LF)%string).
    apply (proj1 (proj2
              (parse_stage_errors Reference.runtime
                 (lit (unlines ["a,b"; "1,2"; "3,4,5"]%string)) []))).
    exists ParserError. split; [discriminate | vm_compute; reflexivity].
Defined.

(** C6 as stated fails: the text of the rows a,b then 1,2 then 3,4,5
    holds rows that parse, and the parse stage fails on it with the
    error of a malformed CSV, because its third row is longer than the
    second.  This holds whether or not the report of an empty file is
    counted among the errors of a malformed CSV. *)
Lemma parse_malformed_counterexample :
  ~ (forall csv_string,
        malformed_error (fst (parse Reference.runtime csv_string []))
        <-> no_parsable_row csv_string)
  /\ ~ (forall csv_string,
          (nothing_to_parse_error (fst (parse Reference.runtime csv_string []))
           \/ malformed_error (fst (parse Reference.runtime csv_string [])))
          <-> no_parsable_row csv_string).
Proof.
  assert (Hm : malformed_error
                 (fst (parse Reference.runtime
                         (lit (unlines ["a,b"; "1,2"; "3,4,5"]%string)) []))).
  { exists (lit ("Error tokenizing data. C error: Expected 2 fields in line 3, saw 3" ++ LF)%string).
    vm_compute. reflexivity. }
  split; intros H;
    specialize (H (lit (unlines ["a,b"; "1,2"; "3,4,5"]%string)));
    destruct H as [H _].
  - apply H in Hm. vm_compute in Hm. discriminate.
  - specialize (H (or_intror Hm)). vm_compute in H. discriminate.
Qed.

(* ================================================================= *)
(** ** Column detection in the pipeline *)

Section Detection.

Variable R : Runtime.

Lemma columns_of_normalize (df : DataFrame) :
  columns_of (normalize_columns R df)
  = List.map (fun l => py_lower R (strip l)) (columns_of df).
Proof.
  unfold columns_of, normalize_columns. rewrite !map_map. reflexivity.
Qed.

Lemma http_errors_http {A} (m : M A) (st st' : list log_record) code detail :
  m st = (Raise (HTTPException code detail), st') ->
  http_errors m st = (Raise (HTTPException code detail), st').
Proof. intros H. unfold http_errors, try_except. rewrite H. reflexivity. Qed.

Lemma http_errors_return {A} (m : M A) (st st' : list log_record) (a : A) :
  m st = (Return a, st') -> http_errors m st = (Return a, st').
Proof. intros H. unfold http_errors, try_except. rewrite H. reflexivity. Qed.

Lemma analyze_frame_no_amount (df : DataFrame) (st : list log_record) :
  detect_amount_col (columns_of (normalize_columns R df)) = None ->
  fst (analyze_frame R df st) = amount_not_found.
Proof.
  intros H. unfold analyze_frame, bind, log. rewrite H. reflexivity.
Qed.

Lemma analyze_frame_no_category (df : DataFrame) (st : list log_record) a :
  detect_amount_col (columns_of (normalize_columns R df)) = Some a ->
  detect_category_col (columns_of (normalize_columns R df)) = None ->
  fst (analyze_frame R df st) = category_not_found.
Proof.
  intros Ha Hc. unfold analyze_frame, bind, log. rewrite Ha, Hc. reflexivity.
Qed.

Lemma http_errors_fst_http {A} (m : M A) (st : list log_record) code detail :
  fst (m st) = Raise (HTTPException code detail) ->
  fst (http_errors m st) = Raise (HTTPException code detail).
Proof.
  intros H. destruct (m st) as [o st'] eqn:E. simpl in H. subst o.
  rewrite (http_errors_http _ _ _ _ _ E). reflexivity.
Qed.

End Detection.

(** C5, as the code has it.  When the reader yields a frame with at
    least one row in which no normalized header holds an amount
    keyword, the request fails with the client error (status 400) whose
    detail names the amount column, whether or not a category column
    can be found; when an amount column is found and no normalized
    header holds a category keyword, it fails with the client error
    whose detail names the category column.  For the headers Date and
    Notes the error is the one of the amount column. *)
Theorem missing_column_errors (R : Runtime) (contents : list byte)
    (df : DataFrame) (st : list log_record) :
  read_csv R (decoded_text contents) = inr df ->
  df_empty df = false ->
  (detect_amount_col (columns_of (normalize_columns R df)) = None ->
   fst (analyze_expenses R contents st) = amount_not_found)
  /\ (forall a,
         detect_amount_col (columns_of (normalize_columns R df)) = Some a ->
         detect_category_col (columns_of (normalize_columns R df)) = None ->
         fst (analyze_expenses R contents st) = category_not_found)
  /\ (columns_of df = [lit "Date"; lit "Notes"] ->
      fst (analyze_expenses R contents st) = amount_not_found)
  /\ (forall A, @amount_not_found A
                = Raise (HTTPException 400
                           (lit "Could not identify amount column in CSV")))
  /\ (forall A, @category_not_found A
                = Raise (HTTPException 400
                           (lit "Could not identify category column in CSV")))
  /\ substring (lit "amount") (lit "Could not identify amount column in CSV")
  /\ ~ substring (lit "category") (lit "Could not identify amount column in CSV")
  /\ substring (lit "category") (lit "Could not identify category column in CSV")
  /\ ~ substring (lit "amount") (lit "Could not identify category column in CSV").
Proof.
  intros Hread Hrows.
  assert (Hno : detect_amount_col (columns_of (normalize_columns R df)) = None ->
                fst (analyze_expenses R contents st) = amount_not_found).
  { intros H. rewrite (analyze_expenses_frame _ _ _ st Hread Hrows).
    apply http_errors_fst_http. apply analyze_frame_no_amount. exact H. }
  split; [exact Hno|].
  split.
  { intros a Ha Hc. rewrite (analyze_expenses_frame _ _ _ st Hread Hrows).
    apply http_errors_fst_http. apply analyze_frame_no_category with a; assumption. }
  split.
  { intros Hcols. apply Hno. rewrite columns_of_normalize, Hcols.
    vm_compute. reflexivity. }
  split; [reflexivity|]. split; [reflexivity|].
  split; [apply contains_spec; vm_compute; reflexivity|].
  split; [rewrite <- contains_spec; vm_compute; discriminate|].
  split; [apply contains_spec; vm_compute; reflexivity|].
  rewrite <- contains_spec; vm_compute; discriminate.
Qed.

(** The upload of the headers Date and Notes with one row. *)
Lemma missing_column_errors_witness :
  read_csv Reference.runtime
    (decoded_text (Reference.bytes_of (unlines ["Date,Notes"; "x,y"]%string)))
  = inr [(lit "Date", Object [PStr (lit "x")]); (lit "Notes", Object [PStr (lit "y")])]
  /\ fst (analyze_expenses Reference.runtime
            (Reference.bytes_of (unlines ["Date,Notes"; "x,y"]%string)) [])
     = amount_not_found.
Proof.
  split; [vm_compute; reflexivity|].
  apply (proj1 (proj2 (proj2
           (missing_column_errors Reference.runtime
              (Reference.bytes_of (unlines ["Date,Notes"; "x,y"]%string))
              [(lit "Date", Object [PStr (lit "x")]);
               (lit "Notes", Object [PStr (lit "y")])] []
              ltac:(vm_compute; reflexivity) ltac:(vm_compute; reflexivity))))).
  reflexivity.
Defined.

(** C5 as stated fails on a dataset without a row: for the upload of
    the header row Date, Notes alone no header holds an amount keyword,
    and the error reported is the one of an empty input, which names no
    role; line 113 stops the request before the columns are looked
    for. *)
Lemma header_only_counterexample :
  let df := [(lit "Date", Object []); (lit "Notes", Object [])] in
  read_csv Reference.runtime (decoded_text header_only_upload) = inr df
  /\ detect_amount_col (columns_of (normalize_columns Reference.runtime df)) = None
  /\ fst (analyze_expenses Reference.runtime header_only_upload [])
     = Raise (HTTPException 400 (lit "CSV file contains no data"))
  /\ fst (analyze_expenses Reference.runtime header_only_upload [])
     <> amount_not_found
  /\ ~ substring (lit "amount") (lit "CSV file contains no data").
Proof.
  cbv zeta.
  split; [vm_compute; reflexivity|].
  split; [vm_compute; reflexivity|].
  split; [vm_compute; reflexivity|].
  split; [vm_compute; discriminate|].
  rewrite <- contains_spec. vm_compute. discriminate.
Qed.

(* ================================================================= *)
(** ** End to end *)

(** C1.  For the upload that the reader parses into the header
    Category, Amount and the rows (Lunch, $12.50), (Rent, 800),
    (Groceries, (5.00)), the pipeline succeeds and its answer is 7.5:
    the rows Lunch and Groceries are kept, 12.50 and -5.00 are added and
    the sum is rounded to two decimals. *)
Theorem three_row_upload (R : Runtime) (contents : list byte)
    (st : list log_record) :
  read_csv R (decoded_text contents) = inr lunch_rent_groceries ->
  fst (analyze_expenses R contents st)
  = Return {| answer := Scalar (PFloat (f64 7.5));
              email := lit "user@example.com";
              exam := lit "tds-2025-05-roe" |}
  /\ Float.round2 (Float.add (f64 12.5) (f64 (-5.0))) = f64 7.5.
Proof.
  intros Hread. split; [|vm_compute; reflexivity].
  rewrite (analyze_expenses_frame _ _ _ st Hread) by reflexivity.
  vm_compute. reflexivity.
Qed.

(** The upload as the text of its four lines. *)
Lemma three_row_upload_witness :
  read_csv Reference.runtime (decoded_text three_row_text)
  = inr lunch_rent_groceries
  /\ fst (analyze_expenses Reference.runtime three_row_text [])
     = Return {| answer := Scalar (PFloat (f64 7.5));
                 email := lit "user@example.com";
                 exam := lit "tds-2025-05-roe" |}.
Proof.
  split; [vm_compute; reflexivity|].
  apply (proj1 (three_row_upload Reference.runtime three_row_text []
                  ltac:(vm_compute; reflexivity))).
Defined.

(* ================================================================= *)
(** ** Frames whose labels are distinct *)

Section FrameFacts.

Lemma filter_none {A} (p : A -> bool) (l : list A) :
  (forall x, In x l -> p x = false) -> List.filter p l = [].
Proof.
  induction l as [|x l IH]; intros H; simpl; [reflexivity|].
  rewrite (H x (or_introl eq_refl)). apply IH.
  intros y Hy. apply H. right. exact Hy.
Qed.

Lemma getitem_unique (df : DataFrame) (label : str) (col : column)
    (st : list log_record) :
  NoDup (columns_of df) -> In (label, col) df ->
  getitem df label st = (Return (Series col), st).
Proof.
  unfold getitem, columns_of. intros Hnd Hin.
  assert (H : List.filter (fun lc => Text.eqb (fst lc) label) df = [(label, col)]).
  { induction df as [|[l c] df IH]; [contradiction|].
    simpl in *. inversion Hnd as [|? ? Hnot Hnd']; subst.
    destruct Hin as [[= -> ->] | Hin].
    - rewrite eqb_refl. f_equal.
      apply filter_none. intros [l' c'] Hin'. simpl. apply eqb_neq.
      intros ->. apply Hnot. apply (in_map fst) in Hin'. exact Hin'.
    - destruct (Text.eqb l label) eqn:E.
      + apply eqb_eq in E. subst l. exfalso. apply Hnot.
        apply (in_map fst) in Hin. exact Hin.
      + apply IH; assumption. }
  rewrite H. reflexivity.
Qed.

Lemma columns_of_setitem_present (df : DataFrame) label col :
  In label (columns_of df) ->
  columns_of (setitem df label col) = columns_of df.
Proof.
  intros Hin. unfold setitem, columns_of.
  assert (E : existsb (fun lc => Text.eqb (fst lc) label) df = true).
  { apply existsb_exists. apply in_map_iff in Hin. destruct Hin as [lc [<- Hin]].
    exists lc. split; [exact Hin | apply eqb_refl]. }
  rewrite E, map_map. apply map_ext. intros [l c]. simpl.
  destruct (Text.eqb l label) eqn:El; [apply eqb_eq in El; subst|]; reflexivity.
Qed.

Lemma setitem_absent (df : DataFrame) label col :
  ~ In label (columns_of df) -> setitem df label col = df ++ [(label, col)].
Proof.
  intros Hnot. unfold setitem.
  destruct (existsb _ df) eqn:E; [|reflexivity].
  apply existsb_exists in E. destruct E as [[l c] [Hin El]]. simpl in El.
  apply eqb_eq in El. subst l. exfalso. apply Hnot.
  apply (in_map fst) in Hin. exact Hin.
Qed.

Lemma setitem_NoDup (df : DataFrame) label col :
  NoDup (columns_of df) -> NoDup (columns_of (setitem df label col)).
Proof.
  intros Hnd. destruct (in_dec (list_eq_dec N.eq_dec) label (columns_of df)) as [Hin|Hnot].
  - rewrite columns_of_setitem_present by exact Hin. exact Hnd.
  - rewrite setitem_absent by exact Hnot. unfold columns_of in *.
    rewrite map_app. simpl. apply NoDup_app; [exact Hnd | repeat constructor; intros [] |].
    intros x Hx [<- | []]. contradiction.
Qed.

Lemma setitem_in_same (df : DataFrame) label col :
  In (label, col) (setitem df label col).
Proof.
  destruct (in_dec (list_eq_dec N.eq_dec) label (columns_of df)) as [Hin|Hnot].
  - unfold setitem.
    assert (E : existsb (fun lc => Text.eqb (fst lc) label) df = true).
    { apply existsb_exists. apply in_map_iff in Hin. destruct Hin as [lc [<- Hin]].
      exists lc. split; [exact Hin | apply eqb_refl]. }
    rewrite E. apply in_map_iff in Hin. destruct Hin as [lc [<- Hin]].
    apply in_map_iff. exists lc. rewrite eqb_refl. split; [reflexivity | exact Hin].
  - rewrite setitem_absent by exact Hnot. apply in_or_app. right. left. reflexivity.
Qed.

Lemma setitem_in_other (df : DataFrame) label col l c :
  l <> label -> In (l, c) df -> In (l, c) (setitem df label col).
Proof.
  intros Hne Hin. unfold setitem. destruct (existsb _ df).
  - apply in_map_iff. exists (l, c). simpl.
    apply eqb_neq in Hne. rewrite Hne. split; [reflexivity | exact Hin].
  - apply in_or_app. left. exact Hin.
Qed.

Lemma columns_of_boolean_index (df : DataFrame) mask :
  columns_of (boolean_index df mask) = columns_of df.
Proof. unfold columns_of, boolean_index. rewrite map_map. reflexivity. Qed.

Lemma boolean_index_in (df : DataFrame) mask l c :
  In (l, c) df -> In (l, mask_column mask c) (boolean_index df mask).
Proof.
  intros Hin. unfold boolean_index. apply in_map_iff. exists (l, c).
  split; [reflexivity | exact Hin].
Qed.

End FrameFacts.

(* ================================================================= *)
(** ** The two created labels never meet a detected column *)

Section CleanLabels.

Lemma startswith_before_underscore (k a t : str) :
  ~ In 95 k -> startswith (a ++ 95 :: t) k = true -> startswith a k = true.
Proof.
  revert a. induction k as [|x k IH]; intros a Hk H; [reflexivity|].
  destruct a as [|y a]; simpl in *.
  - apply andb_true_iff in H. destruct H as [H _]. apply N.eqb_eq in H.
    exfalso. apply Hk. left. congruence.
  - apply andb_true_iff in H. destruct H as [H1 H2].
    rewrite H1. simpl. apply IH; [tauto | exact H2].
Qed.

Lemma contains_before_underscore (k a t : str) :
  ~ In 95 k -> contains k (95 :: t) = false ->
  contains k (a ++ 95 :: t) = true -> contains k a = true.
Proof.
  intros Hk Ht. induction a as [|y a IH]; intros H.
  - simpl app in H. congruence.
  - simpl app in H. simpl in H. simpl.
    apply orb_true_iff in H. apply orb_true_iff. destruct H as [H|H].
    + left. apply (startswith_before_underscore k (y :: a) t Hk H).
    + right. apply IH. exact H.
Qed.

Lemma category_keyword_before_clean (a : str) :
  any_keyword_in category_keywords (a ++ lit "_clean") = true ->
  any_keyword_in category_keywords a = true.
Proof.
  rewrite !any_keyword_in_spec. intros [k [Hin Hs]]. exists k. split; [exact Hin|].
  apply contains_spec. apply contains_spec in Hs.
  change (lit "_clean") with (95 :: lit "clean") in Hs.
  assert (Hk : ~ In 95 k /\ contains k (95 :: lit "clean") = false).
  { unfold category_keywords in Hin. simpl in Hin.
    repeat (destruct Hin as [<- | Hin];
            [split; [vm_compute; intuition discriminate | vm_compute; reflexivity]|]).
    contradiction. }
  apply (contains_before_underscore k a (lit "clean") (proj1 Hk) (proj2 Hk) Hs).
Qed.

Lemma keyword_after_append (keywords : list str) (a t : str) :
  any_keyword_in keywords a = true -> any_keyword_in keywords (a ++ t) = true.
Proof.
  rewrite !any_keyword_in_spec. intros [k [Hin [pre [post ->]]]].
  exists k. split; [exact Hin|]. exists pre, (post ++ t).
  rewrite <- !app_assoc. reflexivity.
Qed.

Lemma first_column_with_in (keywords : list str) (columns : list str) h :
  first_column_with keywords columns = Some h ->
  In h columns /\ any_keyword_in keywords h = true.
Proof.
  induction columns as [|col rest IH]; simpl; [discriminate|].
  destruct (any_keyword_in keywords col) eqn:E.
  - intros [= <-]. split; [left; reflexivity | exact E].
  - intros H. destruct (IH H) as [Hin Hk]. split; [right; exact Hin | exact Hk].
Qed.

(** Two searches that each accept what the other found have found the
    same column. *)
Lemma first_columns_agree (ka kc : list str) (columns : list str) a c :
  first_column_with ka columns = Some a ->
  first_column_with kc columns = Some c ->
  any_keyword_in kc a = true -> any_keyword_in ka c = true -> a = c.
Proof.
  induction columns as [|col rest IH]; simpl; [discriminate|].
  destruct (any_keyword_in ka col) eqn:Ea, (any_keyword_in kc col) eqn:Ec.
  - intros [= <-] [= <-] _ _. reflexivity.
  - intros [= <-] _ H _. congruence.
  - intros _ [= <-] _ H. congruence.
  - exact IH.
Qed.

Lemma detected_not_clean (columns : list str) a c :
  detect_amount_col columns = Some a ->
  detect_category_col columns = Some c ->
  c <> a ++ lit "_clean".
Proof.
  intros Ha Hc ->.
  destruct (first_column_with_in _ _ _ Ha) as [_ Hka].
  destruct (first_column_with_in _ _ _ Hc) as [_ Hkc].
  assert (E : a = a ++ lit "_clean").
  { apply (first_columns_agree _ _ _ _ _ Ha Hc).
    - apply category_keyword_before_clean. exact Hkc.
    - apply keyword_after_append. exact Hka. }
  apply (f_equal (@List.length N)) in E. rewrite length_app in E.
  simpl in E. lia.
Qed.

End CleanLabels.

(* ================================================================= *)
(** ** The rows of the pipeline *)

Section Rows.

Variable R : Runtime.

Lemma clean_amount_run (x : pyobj) (st : list log_record) :
  clean_amount R x st = (Return (amount_value R x), st ++ amount_warning R x).
Proof.
  unfold clean_amount, amount_value, amount_warning.
  destruct (pd_isna x || is_empty_str x).
  - unfold ret. rewrite app_nil_r. reflexivity.
  - destruct (py_float R (clean_token R x)).
    + unfold ret. rewrite app_nil_r. reflexivity.
    + reflexivity.
Qed.

Lemma mapM_clean_amount_run (l : list pyobj) (st : list log_record) :
  mapM (clean_amount R) l st
  = (Return (List.map (amount_value R) l), st ++ flat_map (amount_warning R) l).
Proof.
  revert st. induction l as [|x l IH]; intros st; simpl.
  - unfold ret. rewrite app_nil_r. reflexivity.
  - unfold bind. rewrite clean_amount_run, IH. unfold ret.
    rewrite app_assoc. reflexivity.
Qed.

Lemma mapM_is_food_category_run (l : list pyobj) (st : list log_record) :
  mapM (is_food_category_obj R) (List.map (fun x => PStr (clean_category R x)) l) st
  = (Return (List.map (fun x => is_food_category R (clean_category R x)) l), st).
Proof.
  induction l as [|x l IH]; simpl; [reflexivity|].
  unfold bind, ret in *. simpl. rewrite IH. reflexivity.
Qed.

End Rows.

(** C10.  The claim fails on the code, by a slip: line 120 gives the
    headers Amount and AMOUNT one label.  The upload of the headers
    Amount, AMOUNT, Category and the row $1, $2, Rent is parsed into a
    frame of one row, an amount column and a category column are
    detected and no row is food, so that the claim promises the answer
    0.0.  But line 148 selects the two columns that are labelled amount,
    line 26 asks for the truth value of a series, and the request ends
    in an internal server error that carries the message of pandas and
    is logged as an unexpected error. *)
Theorem duplicate_header_fails :
  let df := [(lit "Amount", Object [PStr (lit "$1")]);
             (lit "AMOUNT", Object [PStr (lit "$2")]);
             (lit "Category", Object [PStr (lit "Rent")])] in
  let headers := columns_of (normalize_columns Reference.runtime df) in
  read_csv Reference.runtime (decoded_text duplicate_amount_upload) = inr df
  /\ df_empty df = false
  /\ headers = [lit "amount"; lit "amount"; lit "category"]
  /\ detect_amount_col headers = Some (lit "amount")
  /\ detect_category_col headers = Some (lit "category")
  /\ (forall cc, In (lit "category", cc) (normalize_columns Reference.runtime df) ->
                 no_food_row Reference.runtime cc)
  /\ analyze_expenses Reference.runtime duplicate_amount_upload []
     = (Raise (HTTPException 500
                 (lit "Internal server error: "
                  ++ ambiguous_truth Reference.runtime)),
        [InfoCsvColumns [lit "Amount"; lit "AMOUNT"; lit "Category"];
         InfoCsvShape 1 3;
         InfoAmountColumn (lit "amount");
         InfoCategoryColumn (lit "category");
         ErrorUnexpected (ambiguous_truth Reference.runtime)])
  /\ ~ (exists r, fst (analyze_expenses Reference.runtime duplicate_amount_upload [])
                  = Return r).
Proof.
  cbv zeta.
  split; [vm_compute; reflexivity|].
  split; [vm_compute; reflexivity|].
  split; [vm_compute; reflexivity|].
  split; [vm_compute; reflexivity|].
  split; [vm_compute; reflexivity|].
  split.
  { intros cc [H | [H | [H | []]]];
      [ vm_compute in H; discriminate | vm_compute in H; discriminate | ].
    injection H as <-. constructor; [vm_compute; reflexivity | constructor]. }
  split; [vm_compute; reflexivity|].
  intros [r H]. vm_compute in H. discriminate.
Qed.

(* ================================================================= *)
(** ** The Value Normalizer never raises and never yields NaN *)

Section Rounding.

Local Open Scope Z_scope.

Lemma shr_1_nonneg (mrs : shr_record) :
  0 <= shr_m mrs -> 0 <= shr_m (shr_1 mrs).
Proof.
  destruct mrs as [m r s]. simpl. intros H.
  destruct m as [|p|p]; [simpl; lia | destruct p; simpl; lia | lia].
Qed.

Lemma iter_pos_shr_1_nonneg (n : positive) (mrs : shr_record) :
  0 <= shr_m mrs -> 0 <= shr_m (iter_pos shr_1 n mrs).
Proof.
  revert mrs. induction n as [n IH|n IH|]; intros mrs H; simpl.
  - apply IH, IH, shr_1_nonneg, H.
  - apply IH, IH, H.
  - apply shr_1_nonneg, H.
Qed.

Lemma shr_fexp_nonneg (m e : Z) (l : location) :
  0 <= m -> 0 <= shr_m (fst (shr_fexp Float.prec Float.emax m e l)).
Proof.
  intros H. unfold shr_fexp, shr.
  assert (H0 : 0 <= shr_m (shr_record_of_loc m l))
    by (destruct l as [|[]]; simpl; exact H).
  destruct (fexp Float.prec Float.emax (Zdigits2 m + e) - e);
    simpl; [exact H0 | apply iter_pos_shr_1_nonneg; exact H0 | exact H0].
Qed.

Lemma round_nearest_even_nonneg (m : Z) (l : location) :
  0 <= m -> 0 <= round_nearest_even m l.
Proof.
  intros H. destruct l as [|[]]; simpl; try lia.
  destruct (Z.even m); lia.
Qed.

Lemma binary_round_aux_not_nan (sx : bool) (mx ex : Z) (lx : location) :
  0 <= mx ->
  Float.is_nan (binary_round_aux Float.prec Float.emax sx mx ex lx) = false.
Proof.
  intros H. unfold binary_round_aux.
  pose proof (shr_fexp_nonneg mx ex lx H) as H1.
  destruct (shr_fexp Float.prec Float.emax mx ex lx) as [mrs' e'].
  simpl in H1.
  pose proof (shr_fexp_nonneg _ e' loc_Exact
                (round_nearest_even_nonneg _ (loc_of_shr_record mrs') H1)) as H2.
  destruct (shr_fexp Float.prec Float.emax
              (round_nearest_even (shr_m mrs') (loc_of_shr_record mrs')) e' loc_Exact)
    as [mrs'' e''].
  simpl in H2. destruct (shr_m mrs'') as [|p|p]; [reflexivity | | lia].
  destruct (e'' <=? Float.emax - Float.prec); reflexivity.
Qed.

Lemma of_decimal_not_nan (neg : bool) (m : Z) (k : nat) :
  Float.is_nan (Float.of_decimal neg m k) = false.
Proof.
  unfold Float.of_decimal. destruct m as [|p|p]; try reflexivity.
  unfold SFdiv, SFdiv_core_binary.
  set (s := _ - _ - _).
  set (m' := match s with Z0 => Z.pos p | Z.pos _ => Z.shiftl (Z.pos p) s | Z.neg _ => 0 end).
  assert (Hm' : 0 <= m').
  { unfold m'. destruct s; try lia. apply Z.shiftl_nonneg. lia. }
  pose proof (Z.div_pos m' (Z.pos (Float.pow10 k)) Hm' ltac:(lia)) as Hq.
  unfold Z.div in Hq.
  destruct (Z.div_eucl m' (Z.pos (Float.pow10 k))) as [q r]. simpl in Hq.
  apply binary_round_aux_not_nan. exact Hq.
Qed.

(** *** Where the rounding overflows *)

Lemma digits2_pos_spec (p : positive) :
  2 ^ (Z.pos (digits2_pos p) - 1) <= Z.pos p < 2 ^ Z.pos (digits2_pos p).
Proof.
  induction p as [p IH|p IH|]; simpl digits2_pos.
  - rewrite Pos2Z.inj_succ, (Pos2Z.inj_xI p).
    replace (Z.succ (Z.pos (digits2_pos p)) - 1)
      with (Z.succ (Z.pos (digits2_pos p) - 1)) by lia.
    rewrite !Z.pow_succ_r by lia.
    destruct IH as [IH1 IH2]. revert IH1 IH2.
    generalize (2 ^ (Z.pos (digits2_pos p) - 1)) (2 ^ Z.pos (digits2_pos p)).
    intros; lia.
  - rewrite Pos2Z.inj_succ, (Pos2Z.inj_xO p).
    replace (Z.succ (Z.pos (digits2_pos p)) - 1)
      with (Z.succ (Z.pos (digits2_pos p) - 1)) by lia.
    rewrite !Z.pow_succ_r by lia.
    destruct IH as [IH1 IH2]. revert IH1 IH2.
    generalize (2 ^ (Z.pos (digits2_pos p) - 1)) (2 ^ Z.pos (digits2_pos p)).
    intros; lia.
  - simpl. lia.
Qed.

Lemma Zdigits2_bounds (m : Z) :
  0 < m -> 2 ^ (Zdigits2 m - 1) <= m < 2 ^ Zdigits2 m.
Proof.
  destruct m as [|p|p]; try lia. intros _. apply digits2_pos_spec.
Qed.

Lemma Zdigits2_nonneg (m : Z) : 0 <= Zdigits2 m.
Proof. destruct m; simpl; lia. Qed.

Lemma Zdigits2_le (m n : Z) :
  0 <= m -> 0 <= n -> m < 2 ^ n -> Zdigits2 m <= n.
Proof.
  intros Hm Hn H. destruct (Z.eq_dec m 0) as [->|Hz]; [simpl; lia|].
  destruct (Zdigits2_bounds m ltac:(lia)) as [Hl _].
  destruct (Z.le_gt_cases (Zdigits2 m) n) as [|Hgt]; [assumption|].
  assert (2 ^ n <= 2 ^ (Zdigits2 m - 1)) by (apply Z.pow_le_mono_r; lia).
  lia.
Qed.

Lemma Zdigits2_ge (m n : Z) :
  0 <= n -> 2 ^ n <= m -> n + 1 <= Zdigits2 m.
Proof.
  intros Hn H. assert (0 < 2 ^ n) by (apply Z.pow_pos_nonneg; lia).
  destruct (Zdigits2_bounds m ltac:(lia)) as [_ Hu].
  destruct (Z.le_gt_cases (n + 1) (Zdigits2 m)) as [|Hgt]; [assumption|].
  assert (2 ^ Zdigits2 m <= 2 ^ n) by (apply Z.pow_le_mono_r; lia).
  lia.
Qed.

Lemma div_pow_pow (m a b : Z) :
  0 <= a -> 0 <= b -> m / 2 ^ a / 2 ^ b = m / 2 ^ (a + b).
Proof.
  intros Ha Hb. assert (0 < 2 ^ a) by (apply Z.pow_pos_nonneg; lia).
  assert (0 < 2 ^ b) by (apply Z.pow_pos_nonneg; lia).
  rewrite Z.div_div by lia. rewrite <- Z.pow_add_r by lia. reflexivity.
Qed.

Lemma div_pow_lt (m a b : Z) :
  0 <= b <= a -> m < 2 ^ a -> m / 2 ^ b < 2 ^ (a - b).
Proof.
  intros Hab H. apply Z.div_lt_upper_bound; [apply Z.pow_pos_nonneg; lia|].
  rewrite <- Z.pow_add_r by lia. replace (b + (a - b)) with a by lia. exact H.
Qed.

Lemma div_pow_ge (m a b : Z) :
  0 <= b <= a -> 2 ^ a <= m -> 2 ^ (a - b) <= m / 2 ^ b.
Proof.
  intros Hab H. apply Z.div_le_lower_bound; [apply Z.pow_pos_nonneg; lia|].
  rewrite <- Z.pow_add_r by lia. replace (b + (a - b)) with a by lia. exact H.
Qed.

Lemma shr_1_spec (mrs : shr_record) :
  0 <= shr_m mrs ->
  shr_m (shr_1 mrs) = shr_m mrs / 2 /\ shr_r (shr_1 mrs) = Z.odd (shr_m mrs).
Proof.
  destruct mrs as [m r s]. simpl shr_m at 1 2 4. intros H.
  rewrite <- Z.div2_div.
  destruct m as [|p|p]; [split; reflexivity | | lia].
  destruct p; split; reflexivity.
Qed.

Lemma iter_pos_shr_1_spec (n : positive) (mrs : shr_record) :
  0 <= shr_m mrs ->
  shr_m (iter_pos shr_1 n mrs) = shr_m mrs / 2 ^ Z.pos n
  /\ shr_r (iter_pos shr_1 n mrs) = Z.odd (shr_m mrs / 2 ^ (Z.pos n - 1)).
Proof.
  revert mrs. induction n as [n IH|n IH|]; intros mrs H; simpl iter_pos.
  - destruct (shr_1_spec mrs H) as [E1 _].
    change (shr_m mrs / 2) with (shr_m mrs / 2 ^ 1) in E1.
    assert (H1 : 0 <= shr_m (shr_1 mrs)).
    { rewrite E1. apply Z.div_pos; [exact H | lia]. }
    destruct (IH _ H1) as [E2 _].
    assert (H2 : 0 <= shr_m (iter_pos shr_1 n (shr_1 mrs))).
    { rewrite E2. apply Z.div_pos; [exact H1 | apply Z.pow_pos_nonneg; lia]. }
    destruct (IH _ H2) as [E3 R3].
    rewrite E3, R3, E2, E1. rewrite !div_pow_pow by lia.
    split; [do 2 f_equal; lia | do 3 f_equal; lia].
  - destruct (IH _ H) as [E2 _].
    assert (H2 : 0 <= shr_m (iter_pos shr_1 n mrs)).
    { rewrite E2. apply Z.div_pos; [exact H | apply Z.pow_pos_nonneg; lia]. }
    destruct (IH _ H2) as [E3 R3].
    rewrite E3, R3, E2. rewrite !div_pow_pow by lia.
    split; [do 2 f_equal; lia | do 3 f_equal; lia].
  - destruct (shr_1_spec mrs H) as [E1 R1]. rewrite E1, R1. split.
    + reflexivity.
    + simpl. rewrite Z.div_1_r. reflexivity.
Qed.

Lemma shr_spec (mrs : shr_record) (e n : Z) :
  0 <= shr_m mrs ->
  snd (shr mrs e n) = e + Z.max n 0
  /\ shr_m (fst (shr mrs e n)) = shr_m mrs / 2 ^ Z.max n 0
  /\ (0 < n -> shr_r (fst (shr mrs e n)) = Z.odd (shr_m mrs / 2 ^ (n - 1))).
Proof.
  intros H. destruct n as [|p|p]; simpl shr; simpl fst; simpl snd.
  - rewrite Z.max_id. simpl. rewrite Z.div_1_r, Z.add_0_r.
    repeat split. intros; lia.
  - destruct (iter_pos_shr_1_spec p mrs H) as [E1 R1].
    rewrite Z.max_l by lia. repeat split; [exact E1 | intros _; exact R1].
  - rewrite Z.max_r by lia. simpl. rewrite Z.div_1_r, Z.add_0_r.
    repeat split. intros; lia.
Qed.

Lemma shr_m_of_loc (m : Z) (l : location) : shr_m (shr_record_of_loc m l) = m.
Proof. destruct l as [|[]]; reflexivity. Qed.

Lemma round_nearest_even_bounds (mrs : shr_record) :
  shr_m mrs <= round_nearest_even (shr_m mrs) (loc_of_shr_record mrs)
  <= shr_m mrs + 1.
Proof.
  destruct mrs as [m [] []]; simpl; try lia. destruct (Z.even m); lia.
Qed.

Lemma round_nearest_even_down (mrs : shr_record) :
  shr_r mrs = false ->
  round_nearest_even (shr_m mrs) (loc_of_shr_record mrs) = shr_m mrs.
Proof. destruct mrs as [m [] []]; simpl; intros; congruence. Qed.

Lemma round_nearest_even_up (mrs : shr_record) :
  shr_r mrs = true -> Z.odd (shr_m mrs) = true ->
  round_nearest_even (shr_m mrs) (loc_of_shr_record mrs) = shr_m mrs + 1.
Proof.
  destruct mrs as [m [] []]; simpl; intros H Ho; try congruence.
  rewrite <- Z.negb_odd, Ho. reflexivity.
Qed.

(** The steps of [binary_round_aux] on a mantissa that is not
    negative. *)
Lemma binary_round_aux_steps (s : bool) (M E : Z) (l : location) :
  0 <= M ->
  exists (mrs1 : shr_record) (e1 m2 e2 m3 : Z),
    e1 = E + Z.max (fexp Float.prec Float.emax (Zdigits2 M + E) - E) 0
    /\ shr_m mrs1 = M / 2 ^ (e1 - E)
    /\ (E < e1 -> shr_r mrs1 = Z.odd (M / 2 ^ (e1 - E - 1)))
    /\ m2 = round_nearest_even (shr_m mrs1) (loc_of_shr_record mrs1)
    /\ e2 = e1 + Z.max (fexp Float.prec Float.emax (Zdigits2 m2 + e1) - e1) 0
    /\ m3 = m2 / 2 ^ (e2 - e1)
    /\ binary_round_aux Float.prec Float.emax s M E l
       = match m3 with
         | Z0 => S754_zero s
         | Zpos m => if e2 <=? Float.emax - Float.prec then S754_finite s m e2
                     else S754_infinity s
         | Zneg _ => S754_nan
         end.
Proof.
  intros HM. unfold binary_round_aux, shr_fexp.
  set (n1 := fexp Float.prec Float.emax (Zdigits2 M + E) - E).
  assert (H0 : 0 <= shr_m (shr_record_of_loc M l)) by (rewrite shr_m_of_loc; exact HM).
  destruct (shr_spec (shr_record_of_loc M l) E n1 H0) as [Se [Sm Sr]].
  rewrite shr_m_of_loc in Sm, Sr.
  destruct (shr (shr_record_of_loc M l) E n1) as [mrs1 e1]. simpl in Se, Sm, Sr.
  set (m2 := round_nearest_even (shr_m mrs1) (loc_of_shr_record mrs1)).
  set (n2 := fexp Float.prec Float.emax (Zdigits2 m2 + e1) - e1).
  assert (Hm1 : 0 <= shr_m mrs1).
  { rewrite Sm. apply Z.div_pos; [exact HM | apply Z.pow_pos_nonneg; lia]. }
  assert (Hm2 : 0 <= m2).
  { pose proof (round_nearest_even_bounds mrs1). unfold m2. lia. }
  assert (H2 : 0 <= shr_m (shr_record_of_loc m2 loc_Exact)) by exact Hm2.
  destruct (shr_spec (shr_record_of_loc m2 loc_Exact) e1 n2 H2) as [Te [Tm _]].
  simpl shr_m in Tm at 2.
  destruct (shr (shr_record_of_loc m2 loc_Exact) e1 n2) as [mrs2 e2].
  simpl in Te, Tm.
  exists mrs1, e1, m2, e2, (shr_m mrs2).
  replace (e1 - E) with (Z.max n1 0) by lia.
  replace (e2 - e1) with (Z.max n2 0) by lia.
  split; [exact Se|]. split; [exact Sm|]. split.
  { intros Hlt. replace (Z.max n1 0 - 1) with (n1 - 1) by lia. apply Sr. lia. }
  split; [reflexivity|]. split; [exact Te|]. split; [exact Tm|]. reflexivity.
Qed.

Lemma fexp_eq (x : Z) : fexp Float.prec Float.emax x = Z.max (x - 53) (-1074).
Proof. reflexivity. Qed.

Ltac pow_const a :=
  let v := eval vm_compute in (2 ^ a) in change (2 ^ a) with v in *.

(** At or above the middle of the largest binary64 and [2 ^ 1024], the
    rounding reaches the exponent of the infinities. *)
Lemma binary_round_aux_overflow (s : bool) (M E : Z) (l : location) :
  E <= 0 -> (2 ^ 54 - 1) * 2 ^ (970 - E) <= M ->
  binary_round_aux Float.prec Float.emax s M E l = S754_infinity s.
Proof.
  intros HE H. remember (970 - E) as t eqn:Et.
  assert (Ht : 0 <= t) by (clear - HE Et; lia).
  assert (Hpt : 0 < 2 ^ t) by (apply Z.pow_pos_nonneg; [reflexivity | exact Ht]).
  assert (H53 : 2 ^ (53 + t) <= M).
  { rewrite Z.pow_add_r by (clear - Ht; lia). pow_const 53. pow_const 54.
    clear - H Hpt. revert H Hpt. generalize (2 ^ t). intros; lia. }
  assert (HM : 0 < M).
  { assert (0 < 2 ^ (53 + t)) by (apply Z.pow_pos_nonneg; clear - Ht; lia).
    clear - H0 H53. lia. }
  pose proof (Zdigits2_ge M (53 + t) ltac:(clear - Ht; lia) H53) as Hd.
  destruct (Zdigits2_bounds M HM) as [Hlo Hhi].
  destruct (binary_round_aux_steps s M E l ltac:(clear - HM; lia))
    as (mrs1 & e1 & m2 & e2 & m3 & He1 & Hm1 & Hr1 & Hm2 & He2 & Hm3 & Hres).
  rewrite fexp_eq in He1, He2. rewrite Hres. clear Hres.
  set (d := Zdigits2 M) in *. clearbody d.
  assert (E1 : e1 = d + E - 53) by (clear - He1 Hd HE Et; lia).
  assert (D53 : e1 - E = d - 53) by (clear - E1; lia).
  assert (B1 : 2 ^ 52 <= shr_m mrs1 < 2 ^ 53).
  { rewrite Hm1, D53. split.
    - replace 52 with (d - 1 - (d - 53)) by (clear; lia).
      apply div_pow_ge; [clear - Hd Ht; lia | exact Hlo].
    - replace 53 with (d - (d - 53)) at 2 by (clear; lia).
      apply div_pow_lt; [clear - Hd Ht; lia | exact Hhi]. }
  pose proof (round_nearest_even_bounds mrs1) as B2. rewrite <- Hm2 in B2.
  assert (Hinf : 2 ^ 52 <= m2 <= 2 ^ 53 -> 972 <= e1 ->
                 match m3 with
                 | 0 => S754_zero s
                 | Z.pos m => if e2 <=? Float.emax - Float.prec then S754_finite s m e2
                              else S754_infinity s
                 | Z.neg _ => S754_nan
                 end = S754_infinity s).
  { clear - He2 Hm3. intros Bm2 Be1.
    assert (D2 : 53 <= Zdigits2 m2 <= 54).
    { split.
      - apply (Zdigits2_ge m2 52); [clear; lia | apply Bm2].
      - apply Zdigits2_le; [pow_const 52; clear - Bm2; lia | clear; lia |].
        pow_const 53. pow_const 54. clear - Bm2. lia. }
    assert (Ee : e2 - e1 = 0 \/ e2 - e1 = 1) by (clear - He2 D2 Be1; lia).
    assert (Be2 : 971 < e2) by (clear - Ee Be1; lia).
    assert (B3 : 0 < m3).
    { rewrite Hm3. destruct Ee as [-> | ->].
      - simpl (2 ^ 0). rewrite Z.div_1_r. pow_const 52. clear - Bm2. lia.
      - assert (2 ^ (52 - 1) <= m2 / 2 ^ 1)
          by (apply div_pow_ge; [clear; lia | apply Bm2]).
        pow_const (52 - 1). clear - H. lia. }
    destruct m3 as [|p|p]; [clear - B3; lia | | clear - B3; lia].
    change (Float.emax - Float.prec) with 971.
    rewrite (proj2 (Z.leb_gt e2 971) Be2). reflexivity. }
  destruct (Z.eq_dec d (54 + t)) as [Ed|Ed].
  - (* the mantissa before rounding is 2^53 - 1 and the round bit is set *)
    assert (Ee1 : e1 = 971) by (clear - E1 Ed Et; lia).
    assert (T1 : e1 - E = t + 1) by (clear - Ee1 Et; lia).
    assert (T0 : e1 - E - 1 = t) by (clear - T1; lia).
    assert (Y : M / 2 ^ t = 2 ^ 54 - 1).
    { assert (Y1 : 2 ^ 54 - 1 <= M / 2 ^ t).
      { apply Z.div_le_lower_bound; [exact Hpt|]. rewrite Z.mul_comm. exact H. }
      assert (Y2 : M / 2 ^ t < 2 ^ 54).
      { replace 54 with (d - t) by (clear - Ed; lia).
        apply div_pow_lt; [clear - Ed Ht; lia | exact Hhi]. }
      clear - Y1 Y2. lia. }
    assert (M1 : shr_m mrs1 = 2 ^ 53 - 1).
    { rewrite Hm1, T1. rewrite <- div_pow_pow by (clear - Ht; lia).
      rewrite Y. reflexivity. }
    assert (R1 : shr_r mrs1 = true).
    { rewrite Hr1 by (clear - T1 Ht; lia). rewrite T0, Y. reflexivity. }
    assert (M2 : m2 = 2 ^ 53).
    { rewrite Hm2, round_nearest_even_up; [rewrite M1; reflexivity | exact R1 |].
      rewrite M1. reflexivity. }
    rewrite M2 in He2. change (Zdigits2 (2 ^ 53)) with 54 in He2.
    assert (Ee2 : e2 = 972) by (clear - He2 Ee1; lia).
    rewrite Hm3, M2, Ee2, Ee1. reflexivity.
  - apply Hinf; [|clear - E1 Hd Ed Et; lia].
    pow_const 52. pow_const 53. clear - B1 B2. lia.
Qed.

(** Below it, the result is a finite number. *)
Lemma binary_round_aux_in_range (s : bool) (M E : Z) (l : location) :
  0 <= M -> E <= 0 -> M < (2 ^ 54 - 1) * 2 ^ (970 - E) ->
  Float.is_finite (binary_round_aux Float.prec Float.emax s M E l) = true.
Proof.
  intros HM HE H. remember (970 - E) as t eqn:Et.
  assert (Ht : 0 <= t) by (clear - HE Et; lia).
  assert (Hpt : 0 < 2 ^ t) by (apply Z.pow_pos_nonneg; [reflexivity | exact Ht]).
  assert (H54 : M < 2 ^ (54 + t)).
  { rewrite Z.pow_add_r by (clear - Ht; lia). pow_const 54.
    clear - H Hpt. revert H Hpt. generalize (2 ^ t). intros; lia. }
  pose proof (Zdigits2_le M (54 + t) HM ltac:(clear - Ht; lia) H54) as Hd.
  pose proof (Zdigits2_nonneg M) as Hd0.
  assert (Hhi : M < 2 ^ Zdigits2 M).
  { destruct (Z.eq_dec M 0) as [->|Hz]; [reflexivity|].
    apply Zdigits2_bounds. clear - HM Hz. lia. }
  destruct (binary_round_aux_steps s M E l HM)
    as (mrs1 & e1 & m2 & e2 & m3 & He1 & Hm1 & Hr1 & Hm2 & He2 & Hm3 & Hres).
  rewrite fexp_eq in He1, He2. rewrite Hres. clear Hres.
  set (d := Zdigits2 M) in *. clearbody d.
  assert (Be1 : E <= e1 <= 971) by (clear - He1 Hd HE Et; lia).
  assert (B1 : 0 <= shr_m mrs1).
  { rewrite Hm1. apply Z.div_pos; [exact HM | apply Z.pow_pos_nonneg; clear - Be1; lia]. }
  pose proof (round_nearest_even_bounds mrs1) as B2. rewrite <- Hm2 in B2.
  assert (Hm2' : 0 <= m2) by (clear - B1 B2; lia).
  assert (Be2 : e1 <= e2) by (clear - He2; lia).
  assert (B3 : 0 <= m3).
  { rewrite Hm3. apply Z.div_pos; [exact Hm2' | apply Z.pow_pos_nonneg; clear - Be2; lia]. }
  assert (Hfin : e2 <= 971 ->
                 Float.is_finite
                   match m3 with
                   | 0 => S754_zero s
                   | Z.pos m => if e2 <=? Float.emax - Float.prec then S754_finite s m e2
                                else S754_infinity s
                   | Z.neg _ => S754_nan
                   end = true).
  { clear - B3. intros Be2. destruct m3 as [|p|p]; [reflexivity | | lia].
    change (Float.emax - Float.prec) with 971.
    rewrite (proj2 (Z.leb_le e2 971) Be2). reflexivity. }
  apply Hfin.
  pose proof (Zdigits2_nonneg m2) as Hd2.
  destruct (Z.eq_dec d (54 + t)) as [Ed|Ed].
  - (* the mantissa before rounding has 53 bits: it is not rounded up
       to 2^53 *)
    assert (Ee1 : e1 = 971) by (clear - He1 Ed HE Et; lia).
    assert (T1 : e1 - E = t + 1) by (clear - Ee1 Et; lia).
    assert (T0 : e1 - E - 1 = t) by (clear - T1; lia).
    assert (Y : 0 <= M / 2 ^ t < 2 ^ 54 - 1).
    { split; [apply Z.div_pos; [exact HM | exact Hpt]|].
      apply Z.div_lt_upper_bound; [exact Hpt|]. rewrite Z.mul_comm. exact H. }
    assert (M1 : shr_m mrs1 = M / 2 ^ t / 2).
    { rewrite Hm1, T1. rewrite <- div_pow_pow by (clear - Ht; lia). reflexivity. }
    assert (R1 : shr_r mrs1 = Z.odd (M / 2 ^ t)).
    { rewrite Hr1 by (clear - T1 Ht; lia). rewrite T0. reflexivity. }
    assert (M2 : m2 < 2 ^ 53).
    { destruct (shr_r mrs1) eqn:Er.
      - symmetry in R1. apply Z.odd_spec in R1. destruct R1 as [k Hk].
        pow_const 53. pow_const 54. clear - Hk Y M1 B2.
        revert Hk Y M1. generalize (M / 2 ^ t). intros y Hk Y M1.
        Z.to_euclidean_division_equations. lia.
      - rewrite Hm2, (round_nearest_even_down _ Er), M1.
        pow_const 53. pow_const 54. clear - Y.
        revert Y. generalize (M / 2 ^ t). intros y Y.
        Z.to_euclidean_division_equations. lia. }
    pose proof (Zdigits2_le m2 53 Hm2' ltac:(clear; lia) M2) as D2.
    clear - He2 D2 Hd2 Ee1. lia.
  - assert (M1 : shr_m mrs1 < 2 ^ (1023 - e1)).
    { rewrite Hm1.
      replace (1023 - e1) with (53 + t - (e1 - E)) by (clear - Et; lia).
      apply div_pow_lt; [clear - Be1 Et; lia|].
      apply (Z.lt_le_trans _ _ _ Hhi).
      apply Z.pow_le_mono_r; [reflexivity | clear - Hd Ed; lia]. }
    assert (M2 : m2 < 2 ^ (1024 - e1)).
    { replace (1024 - e1) with (Z.succ (1023 - e1)) by (clear; lia).
      rewrite Z.pow_succ_r by (clear - Be1; lia).
      clear - M1 B1 B2. revert M1. generalize (2 ^ (1023 - e1)). intros; lia. }
    pose proof (Zdigits2_le m2 (1024 - e1) Hm2' ltac:(clear - Be1; lia) M2) as D2.
    clear - He2 D2 Hd2 Be1. lia.
Qed.

(** The quotient that [SFdiv] rounds, for two integers. *)
Lemma SFdiv_core_binary_integers (p q : positive) :
  exists (E : Z) (l : location),
    E <= 0
    /\ SFdiv_core_binary Float.prec Float.emax (Z.pos p) 0 (Z.pos q) 0
       = (Z.pos p * 2 ^ (- E) / Z.pos q, E, l).
Proof.
  unfold SFdiv_core_binary.
  set (E := Z.min (fexp Float.prec Float.emax (Zdigits2 (Z.pos p) + 0 - (Zdigits2 (Z.pos q) + 0)))
                  (0 - 0)).
  assert (HE : E <= 0) by (unfold E; apply Z.le_min_r).
  assert (Hm : match 0 - 0 - E with
               | 0 => Z.pos p
               | Z.pos _ => Z.shiftl (Z.pos p) (0 - 0 - E)
               | Z.neg _ => 0
               end = Z.pos p * 2 ^ (- E)).
  { replace (0 - 0 - E) with (- E) by lia.
    destruct (- E) as [|s|s] eqn:Es; [simpl; lia | | lia].
    rewrite Z.shiftl_mul_pow2 by lia. reflexivity. }
  rewrite Hm.
  destruct (Z.div_eucl (Z.pos p * 2 ^ (- E)) (Z.pos q)) as [q0 r0] eqn:Ed.
  exists E, (new_location (Z.pos q) r0). split; [exact HE|].
  unfold Z.div. rewrite Ed. reflexivity.
Qed.

Lemma overflow_threshold_factors : overflow_threshold = (2 ^ 54 - 1) * 2 ^ 970.
Proof. reflexivity. Qed.

Lemma scaled_threshold (E : Z) :
  E <= 0 -> (2 ^ 54 - 1) * 2 ^ (970 - E) = overflow_threshold * 2 ^ (- E).
Proof.
  intros HE. rewrite overflow_threshold_factors.
  replace (970 - E) with (970 + - E) by lia.
  rewrite Z.pow_add_r by lia. ring.
Qed.

(** [float] overflows exactly from the middle of the largest binary64
    and [2 ^ 1024] on. *)
Lemma of_decimal_infinite (neg : bool) (m : Z) (k : nat) :
  overflow_threshold * Z.pos (Float.pow10 k) <= m ->
  Float.of_decimal neg m k = S754_infinity neg.
Proof.
  intros H. assert (Ht : 0 < overflow_threshold * Z.pos (Float.pow10 k)).
  { apply Z.mul_pos_pos; reflexivity. }
  destruct m as [|p|p]; [lia | | lia].
  unfold Float.of_decimal, SFdiv.
  destruct (SFdiv_core_binary_integers p (Float.pow10 k)) as (E & l & HE & ->).
  rewrite xorb_false_r. apply binary_round_aux_overflow; [exact HE|].
  rewrite (scaled_threshold E HE).
  assert (Hp : 0 < 2 ^ (- E)) by (apply Z.pow_pos_nonneg; lia).
  apply Z.div_le_lower_bound; [reflexivity|].
  rewrite Z.mul_assoc, (Z.mul_comm (Z.pos (Float.pow10 k))).
  apply Z.mul_le_mono_nonneg_r; [lia | exact H].
Qed.

Lemma of_decimal_finite (neg : bool) (m : Z) (k : nat) :
  m < overflow_threshold * Z.pos (Float.pow10 k) ->
  Float.is_finite (Float.of_decimal neg m k) = true.
Proof.
  intros H. destruct m as [|p|p]; [reflexivity | | reflexivity].
  unfold Float.of_decimal, SFdiv.
  destruct (SFdiv_core_binary_integers p (Float.pow10 k)) as (E & l & HE & ->).
  assert (Hp : 0 < 2 ^ (- E)) by (apply Z.pow_pos_nonneg; lia).
  apply binary_round_aux_in_range;
    [apply Z.div_pos; [apply Z.mul_nonneg_nonneg; lia | reflexivity] | exact HE |].
  rewrite (scaled_threshold E HE).
  apply Z.div_lt_upper_bound; [reflexivity|].
  rewrite Z.mul_assoc, (Z.mul_comm (Z.pos (Float.pow10 k))).
  apply Z.mul_lt_mono_pos_r; [exact Hp | exact H].
Qed.

End Rounding.

Section ValueNormalizer.

Variable R : Runtime.

Lemma py_float_not_nan (s : str) (f : float) :
  py_float R s = Some f -> Float.is_nan f = false.
Proof.
  unfold py_float.
  destruct (match s with 45 :: r => (true, r) | _ => (false, s) end) as [neg s1].
  destruct (span_digits R s1 0%Z 0%nat) as [[ip ni] s2].
  destruct (match s2 with 46 :: r => span_digits R r ip 0%nat | _ => (ip, 0%nat, s2) end)
    as [[m nf] s3].
  destruct s3; [|discriminate].
  destruct (ni + nf =? 0)%nat; [discriminate|].
  intros [= <-]. apply of_decimal_not_nan.
Qed.

Lemma amount_value_not_nan (x : pyobj) : Float.is_nan (amount_value R x) = false.
Proof.
  unfold amount_value. destruct (pd_isna x || is_empty_str x); [reflexivity|].
  destruct (py_float R (clean_token R x)) eqn:E; [|reflexivity].
  apply (py_float_not_nan _ _ E).
Qed.

(** [float] rounds the numeral it reads. *)
Lemma py_float_numeral (s : str) :
  py_float R s
  = match numeral R s with
    | Some (neg, m, k) => Some (Float.of_decimal neg m k)
    | None => None
    end.
Proof.
  unfold py_float, numeral.
  destruct (match s with 45 :: r => (true, r) | _ => (false, s) end) as [neg s1].
  destruct (span_digits R s1 0%Z 0%nat) as [[ip ni] s2].
  destruct (match s2 with 46 :: r => span_digits R r ip 0%nat | _ => (ip, 0%nat, s2) end)
    as [[m nf] s3].
  destruct s3; [|reflexivity].
  destruct (ni + nf =? 0)%nat; reflexivity.
Qed.

Lemma not_empty_str (x : pyobj) : x <> PStr [] -> is_empty_str x = false.
Proof. destruct x as [[|? ?]| | |]; try reflexivity. congruence. Qed.

End ValueNormalizer.

(** C7, as the code has it.  On every cell on which [str] returns (a
    string, a float, a truth value, the missing marker, an integer of
    at most 4300 digits), and from every state, [clean_amount] returns:
    it never raises.  What it returns is a float that is not NaN; it is
    0.0 when the cell is missing or the empty string, and 0.0, with one
    warning logged, when the cleaned token is not a numeral.  When the
    token is a numeral, what is returned is its rounding, and nothing
    is logged: a finite float as long as the magnitude of the numeral
    is below [2^1024 - 2^970], the middle of the largest binary64 and
    [2^1024], and from there on the infinity of the sign of the
    numeral.  A column of such cells is normalized to its end. *)
Theorem clean_amount_total (R : Runtime) (x : pyobj) (st : list log_record) :
  str_returns x ->
  clean_amount R x st = (Return (amount_value R x), st ++ amount_warning R x)
  /\ Float.is_nan (amount_value R x) = false
  /\ (pd_isna x = true \/ x = PStr [] ->
      amount_value R x = f64 0.0 /\ amount_warning R x = [])
  /\ (pd_isna x = false -> x <> PStr [] ->
      numeral R (clean_token R x) = None ->
      py_float R (clean_token R x) = None
      /\ amount_value R x = f64 0.0
      /\ amount_warning R x = [WarnCouldNotConvert (clean_token R x)])
  /\ (forall neg m k,
         pd_isna x = false -> x <> PStr [] ->
         numeral R (clean_token R x) = Some (neg, m, k) ->
         py_float R (clean_token R x) = Some (Float.of_decimal neg m k)
         /\ amount_value R x = Float.of_decimal neg m k
         /\ amount_warning R x = []
         /\ ((m < overflow_threshold * Z.pos (Float.pow10 k))%Z ->
             Float.is_finite (amount_value R x) = true)
         /\ ((overflow_threshold * Z.pos (Float.pow10 k) <= m)%Z ->
             amount_value R x = S754_infinity neg))
  /\ (forall column, Forall str_returns column ->
         exists amounts st',
           mapM (clean_amount R) column st = (Return amounts, st')).
Proof.
  intros _.
  split; [apply clean_amount_run|].
  split; [apply amount_value_not_nan|].
  split.
  { unfold amount_value, amount_warning.
    intros [H | ->]; [rewrite H|rewrite orb_true_r]; split; reflexivity. }
  split.
  { unfold amount_value, amount_warning. intros Hna Hne Hn.
    rewrite Hna, (not_empty_str x Hne), (py_float_numeral R), Hn.
    repeat split. }
  split.
  { intros neg m k Hna Hne Hn.
    assert (Hf : py_float R (clean_token R x) = Some (Float.of_decimal neg m k))
      by (rewrite (py_float_numeral R), Hn; reflexivity).
    assert (Hv : amount_value R x = Float.of_decimal neg m k).
    { unfold amount_value. rewrite Hna, (not_empty_str x Hne), Hf. reflexivity. }
    split; [exact Hf|]. split; [exact Hv|]. split.
    { unfold amount_warning. rewrite Hna, (not_empty_str x Hne), Hf. reflexivity. }
    rewrite Hv. split.
    - apply of_decimal_finite.
    - apply of_decimal_infinite. }
  intros column _. rewrite mapM_clean_amount_run. eauto.
Qed.

(** The missing marker, the token n/a, an amount between parentheses
    and the cell of 310 digits. *)
Lemma clean_amount_total_witness :
  amount_value Reference.runtime (PFloat S754_nan) = f64 0.0
  /\ (amount_value Reference.runtime (PStr (lit "n/a")) = f64 0.0
      /\ amount_warning Reference.runtime (PStr (lit "n/a")) = [WarnCouldNotConvert []])
  /\ Float.is_finite (amount_value Reference.runtime (PStr (lit "($1,250.75)"))) = true
  /\ amount_value Reference.runtime huge_cell = S754_infinity false.
Proof.
  split.
  { destruct (clean_amount_total Reference.runtime (PFloat S754_nan) [] I)
      as (_ & _ & H & _).
    apply H. left. reflexivity. }
  split.
  { destruct (clean_amount_total Reference.runtime (PStr (lit "n/a")) [] I)
      as (_ & _ & _ & H & _).
    apply H; [reflexivity | discriminate | vm_compute; reflexivity]. }
  split.
  { destruct (clean_amount_total Reference.runtime (PStr (lit "($1,250.75)")) [] I)
      as (_ & _ & _ & _ & H & _).
    destruct (H true 125075%Z 2%nat) as (_ & _ & _ & Hfin & _);
      [reflexivity | discriminate | vm_compute; reflexivity |].
    apply Hfin. vm_compute. reflexivity. }
  destruct (clean_amount_total Reference.runtime huge_cell [] I)
    as (_ & _ & _ & _ & H & _).
  destruct (H false (10 ^ 309)%Z 0%nat) as (_ & _ & _ & _ & Hinf);
    [reflexivity | discriminate | vm_compute; reflexivity |].
  apply Hinf. vm_compute. discriminate.
Defined.

(** C7 as stated fails: on the cell of the digit one followed by 309
    zeros the value returned is not a finite number, it is the positive
    infinity. *)
Lemma clean_amount_overflow_counterexample :
  clean_amount Reference.runtime huge_cell []
  = (Return (S754_infinity false), [])
  /\ Float.is_finite (S754_infinity false) = false
  /\ ~ (forall x st, exists f st',
           clean_amount Reference.runtime x st = (Return f, st')
           /\ Float.is_finite f = true).
Proof.
  assert (H : clean_amount Reference.runtime huge_cell []
              = (Return (S754_infinity false), []))
    by (vm_compute; reflexivity).
  split; [exact H|]. split; [reflexivity|].
  intros Hall. destruct (Hall huge_cell []) as [f [st' [E Hf]]].
  rewrite H in E. injection E as <- _. discriminate.
Qed.


(* ================================================================= *)
(** * Further properties of [main.py] *)

(* ================================================================= *)
(** ** The answer of a regular frame *)

Section RegularFrame.

Variable R : Runtime.

(** From a frame with distinct normalized labels and two different
    detected columns: the answer is the rounded sum of the cleaned
    amounts of the rows whose cleaned category is food, and the logger
    receives the six messages of lines 116 to 160, with the warnings of
    the amount column between the fourth and the fifth. *)
Lemma analyze_frame_regular_run (df : DataFrame) (st : list log_record)
    (a c : str) (ca cc : column) :
  NoDup (columns_of (normalize_columns R df)) ->
  detect_amount_col (columns_of (normalize_columns R df)) = Some a ->
  detect_category_col (columns_of (normalize_columns R df)) = Some c ->
  a <> c ->
  In (a, ca) (normalize_columns R df) ->
  In (c, cc) (normalize_columns R df) ->
  analyze_frame R df st
  = (Return (result_of (Float.round2 (food_total R ca cc))),
     st ++ [InfoCsvColumns (columns_of df);
            InfoCsvShape (nrows df) (List.length df);
            InfoAmountColumn a; InfoCategoryColumn c]
        ++ flat_map (amount_warning R) (items ca)
        ++ [InfoFoundFood
              (nrows (boolean_index
                        (setitem
                           (setitem (normalize_columns R df) (a ++ lit "_clean")
                              (Float64 (List.map (amount_value R) (items ca))))
                           (c ++ lit "_clean")
                           (Object (List.map (fun x => PStr (clean_category R x))
                                      (items cc))))
                        (food_mask_of R cc)));
            InfoTotal (Scalar (PFloat (food_total R ca cc)))]).
Proof.
  intros Hnd Ha Hc Hac Hca Hcc.
  pose proof (detected_not_clean _ _ _ Ha Hc) as Hclean.
  unfold analyze_frame. cbv zeta. rewrite Ha, Hc.
  set (df0 := normalize_columns R df) in *.
  unfold bind, log. cbv beta iota.
  rewrite (getitem_unique df0 a ca _ Hnd Hca). cbv beta iota.
  unfold apply_clean_amount. unfold bind.
  rewrite mapM_clean_amount_run. unfold ret. cbv beta iota.
  set (amounts := Float64 (List.map (amount_value R) (items ca))).
  set (df1 := setitem df0 (a ++ lit "_clean") amounts).
  assert (Hnd1 : NoDup (columns_of df1)) by (apply setitem_NoDup; exact Hnd).
  assert (Hcc1 : In (c, cc) df1) by (apply setitem_in_other; assumption).
  assert (Ham1 : In (a ++ lit "_clean", amounts) df1) by apply setitem_in_same.
  rewrite (getitem_unique df1 c cc _ Hnd1 Hcc1). cbv beta iota.
  unfold apply_clean_category. unfold ret. cbv beta iota.
  set (categories := Object (List.map (fun x => PStr (clean_category R x)) (items cc))).
  set (df2 := setitem df1 (c ++ lit "_clean") categories).
  assert (Hnd2 : NoDup (columns_of df2)) by (apply setitem_NoDup; exact Hnd1).
  assert (Hcat2 : In (c ++ lit "_clean", categories) df2) by apply setitem_in_same.
  assert (Ham2 : In (a ++ lit "_clean", amounts) df2).
  { apply setitem_in_other; [|exact Ham1].
    intros E. apply app_inv_tail in E. contradiction. }
  rewrite (getitem_unique df2 _ categories _ Hnd2 Hcat2). cbv beta iota.
  unfold apply_is_food_category, categories. simpl items.
  rewrite mapM_is_food_category_run. cbv beta iota.
  fold (food_mask_of R cc).
  set (mask := food_mask_of R cc).
  assert (Hndf : NoDup (columns_of (boolean_index df2 mask)))
    by (rewrite columns_of_boolean_index; exact Hnd2).
  rewrite (getitem_unique _ _ _ _ Hndf (boolean_index_in df2 mask _ _ Ham2)).
  cbv beta iota. unfold amounts, mask_column. cbv beta iota.
  fold categories. fold amounts. fold df1. fold df2.
  unfold food_total. fold mask.
  f_equal. rewrite <- !app_assoc. reflexivity.
Qed.

End RegularFrame.

(** X1.  When the reader yields a frame with at least one row whose
    normalized header names are pairwise distinct and in which two
    different columns are detected, the request succeeds and its answer
    is the sum, rounded to two decimals, of the cleaned amounts of
    exactly the rows whose cleaned category is food; no other cell of
    the frame has a part in it. *)
Theorem answer_is_rounded_food_total (R : Runtime) (contents : list byte)
    (df : DataFrame) (st : list log_record) (a c : str) (ca cc : column) :
  read_csv R (decoded_text contents) = inr df ->
  df_empty df = false ->
  NoDup (columns_of (normalize_columns R df)) ->
  detect_amount_col (columns_of (normalize_columns R df)) = Some a ->
  detect_category_col (columns_of (normalize_columns R df)) = Some c ->
  a <> c ->
  In (a, ca) (normalize_columns R df) ->
  In (c, cc) (normalize_columns R df) ->
  fst (analyze_expenses R contents st)
  = Return (result_of (Float.round2 (food_total R ca cc))).
Proof.
  intros Hread Hrows Hnd Ha Hc Hac Hca Hcc.
  rewrite (analyze_expenses_frame _ _ _ st Hread Hrows).
  pose proof (analyze_frame_regular_run R df st a c ca cc Hnd Ha Hc Hac Hca Hcc) as E.
  rewrite (http_errors_return _ _ _ _ E). reflexivity.
Qed.

(** The upload of three dated rows: coffee and the dinner are kept.
    The upload of one coffee at 0.125: the total is rounded to the even
    neighbour, 0.12. *)
#[warnings="-inexact-float"]
Lemma answer_is_rounded_food_total_witness :
  read_csv Reference.runtime (decoded_text dated_upload) = inr dated_frame
  /\ fst (analyze_expenses Reference.runtime dated_upload [])
     = Return (result_of (f64 2.25))
  /\ fst (analyze_expenses Reference.runtime half_cent_upload [])
     = Return (result_of (f64 0.12)).
Proof.
  split; [vm_compute; reflexivity|]. split; [|
    rewrite (answer_is_rounded_food_total Reference.runtime half_cent_upload
               [ (lit "Item", Object [PStr (lit "Coffee")]);
                 (lit "Cost", Object [PStr (lit "$0.125")]) ]
               [] (lit "cost") (lit "item")
               (Object [PStr (lit "$0.125")])
               (Object [PStr (lit "Coffee")])
               ltac:(vm_compute; reflexivity)
               ltac:(vm_compute; reflexivity)
               ltac:(vm_compute; repeat constructor; simpl; intuition discriminate)
               ltac:(vm_compute; reflexivity)
               ltac:(vm_compute; reflexivity)
               ltac:(vm_compute; discriminate)
               ltac:(vm_compute; tauto)
               ltac:(vm_compute; tauto));
    vm_compute; reflexivity ].
  rewrite (answer_is_rounded_food_total Reference.runtime dated_upload
             dated_frame [] (lit "amount ($)") (lit "category")
             (Object [PStr (lit "$3.50"); PStr (lit "$900"); PStr (lit "(1.25)")])
             (Object [PStr (lit "Coffee"); PStr (lit "Rent"); PStr (lit "Dinner out")])
             ltac:(vm_compute; reflexivity)
             ltac:(vm_compute; reflexivity)
             ltac:(vm_compute; repeat constructor; simpl; intuition discriminate)
             ltac:(vm_compute; reflexivity)
             ltac:(vm_compute; reflexivity)
             ltac:(vm_compute; discriminate)
             ltac:(vm_compute; tauto)
             ltac:(vm_compute; tauto)).
  vm_compute. reflexivity.
Defined.

(* ================================================================= *)
(** ** How a request can fail *)

Section InsideTry.

Lemma inside_try_ret {A} (a : A) : inside_try (ret a).
Proof.
  exists (Return a), []. repeat split; [|constructor|discriminate|discriminate].
  intros st. unfold ret. rewrite app_nil_r. reflexivity.
Qed.

Lemma inside_try_raise_py {A} (c : exn_class) (msg : str) :
  inside_try (@raise A (PyError c msg)).
Proof.
  exists (Raise (PyError c msg)), [].
  repeat split; [|constructor|discriminate|discriminate].
  intros st. unfold raise. rewrite app_nil_r. reflexivity.
Qed.

Lemma inside_try_raise_client {A} (d : str) :
  client_detail d -> inside_try (@raise A (HTTPException 400 d)).
Proof.
  intros Hd. exists (Raise (HTTPException 400 d)), [].
  split; [|split; [constructor|]].
  - intros st. unfold raise. rewrite app_nil_r. reflexivity.
  - intros code d' [= <- <-]. split; [reflexivity | exact Hd].
Qed.

Lemma inside_try_log (r : log_record) :
  ~ is_error_record r -> inside_try (log r).
Proof.
  intros Hr. exists (Return tt), [r].
  split; [reflexivity|]. split; [repeat constructor; exact Hr | discriminate].
Qed.

Lemma inside_try_bind {A B} (m : M A) (k : A -> M B) :
  inside_try m -> (forall a, inside_try (k a)) -> inside_try (bind m k).
Proof.
  intros [r [w [Hm [Hw Hr]]]] Hk. destruct r as [a|e].
  - destruct (Hk a) as [r' [w' [Hk' [Hw' Hr']]]]. exists r', (w ++ w').
    split; [|split; [apply Forall_app; split; assumption | exact Hr']].
    intros st. unfold bind. rewrite Hm, Hk', app_assoc. reflexivity.
  - exists (Raise e), w. split; [|split; [exact Hw|]].
    + intros st. unfold bind. rewrite Hm. reflexivity.
    + intros code d [= ->]. apply Hr. reflexivity.
Qed.

Lemma inside_try_lift {A} (r : (exn_class * str) + A) : inside_try (lift r).
Proof.
  destruct r as [[c msg]|a]; [apply inside_try_raise_py | apply inside_try_ret].
Qed.

Lemma inside_try_mapM {A B} (f : A -> M B) (l : list A) :
  (forall a, inside_try (f a)) -> inside_try (mapM f l).
Proof.
  intros Hf. induction l as [|a l IH]; simpl.
  - apply inside_try_ret.
  - apply inside_try_bind; [apply Hf|]. intros b.
    apply inside_try_bind; [exact IH|]. intros bs. apply inside_try_ret.
Qed.

Lemma inside_try_decode_contents (contents : list byte) :
  inside_try (decode_contents contents).
Proof.
  exists (Return (decoded_text contents)), [].
  split; [|split; [constructor | discriminate]].
  intros st. rewrite app_nil_r. apply decode_contents_total.
Qed.

End InsideTry.

Ltac not_error_record :=
  let msg := fresh in let H := fresh in
  intros [msg H]; discriminate H.

Ltac client_detail_tac :=
  unfold client_detail;
  first [ left; reflexivity
        | right; left; eexists; reflexivity
        | right; right; left; reflexivity
        | right; right; right; left; reflexivity
        | right; right; right; right; reflexivity ].

Ltac inside_try_step :=
  match goal with
  | |- inside_try (bind _ _) => apply inside_try_bind; [|intros ?]
  | |- inside_try (mapM _ _) => apply inside_try_mapM; intros ?
  | |- inside_try (ret _) => apply inside_try_ret
  | |- inside_try (lift _) => apply inside_try_lift
  | |- inside_try (log _) => apply inside_try_log; not_error_record
  | |- inside_try (raise (PyError _ _)) => apply inside_try_raise_py
  | |- inside_try (raise (HTTPException _ _)) =>
      apply inside_try_raise_client; client_detail_tac
  | |- inside_try (match ?x with _ => _ end) => destruct x
  | |- inside_try (if ?b then _ else _) => destruct b
  end.

Section Failures.

Variable R : Runtime.

Lemma inside_try_clean_amount (x : pyobj) : inside_try (clean_amount R x).
Proof. unfold clean_amount. repeat inside_try_step. Qed.

Lemma inside_try_getitem (df : DataFrame) (label : str) :
  inside_try (getitem df label).
Proof. unfold getitem. repeat inside_try_step. Qed.

Lemma inside_try_is_food_category_obj (x : pyobj) :
  inside_try (is_food_category_obj R x).
Proof. unfold is_food_category_obj. repeat inside_try_step. Qed.

Lemma inside_try_analyze_frame (df : DataFrame) : inside_try (analyze_frame R df).
Proof.
  unfold analyze_frame, apply_clean_amount, apply_clean_category,
    apply_is_food_category.
  repeat first [ apply inside_try_clean_amount | apply inside_try_getitem
               | apply inside_try_is_food_category_obj | inside_try_step ].
Qed.

Lemma inside_try_parse (csv_string : str) : inside_try (parse R csv_string).
Proof. unfold parse. repeat inside_try_step. Qed.

(** The request, by what happens inside the [try]: a result or a
    client error passes with the records written so far; any other
    exception is logged once more and becomes an internal error. *)
Lemma analyze_expenses_cases (contents : list byte) :
  exists (r : outcome AnalysisResult) (w : list log_record),
    Forall (fun rec => ~ is_error_record rec) w
    /\ (forall code d, r = Raise (HTTPException code d) ->
                       code = 400%Z /\ client_detail d)
    /\ forall st,
         analyze_expenses R contents st
         = match r with
           | Raise (PyError _ msg) =>
               (Raise (HTTPException 500 (lit "Internal server error: " ++ msg)),
                st ++ w ++ [ErrorUnexpected msg])
           | _ => (r, st ++ w)
           end.
Proof.
  assert (H : inside_try
                (bind (decode_contents contents)
                   (fun csv_string => bind (parse R csv_string) (analyze_frame R)))).
  { apply inside_try_bind; [apply inside_try_decode_contents|]. intros csv.
    apply inside_try_bind; [apply inside_try_parse|]. intros df.
    apply inside_try_analyze_frame. }
  destruct H as [r [w [Hm [Hw Hr]]]]. exists r, w.
  split; [exact Hw|]. split; [exact Hr|].
  intros st. unfold analyze_expenses, http_errors, try_except.
  rewrite Hm. destruct r as [a|[code d|cls msg]]; try reflexivity.
  unfold bind, log, raise. rewrite app_assoc. reflexivity.
Qed.

End Failures.

(** X2.  A request ends in a result or in an [HTTPException], never in
    another exception.  The status of the exception is 400 with one of
    five details (the file is empty, an error of reading, no data, no
    amount column, no category column) or 500 with a detail that starts
    with Internal server error. *)
Theorem failures_are_classified (R : Runtime) (contents : list byte)
    (st : list log_record) :
  match fst (analyze_expenses R contents st) with
  | Return _ => True
  | Raise (HTTPException code d) =>
      (code = 400%Z /\ client_detail d)
      \/ (code = 500%Z /\ exists msg, d = lit "Internal server error: " ++ msg)
  | Raise (PyError _ _) => False
  end.
Proof.
  destruct (analyze_expenses_cases R contents) as [r [w [_ [Hr H]]]].
  rewrite H. destruct r as [a|[code d|cls msg]]; simpl.
  - exact I.
  - left. apply Hr. reflexivity.
  - right. split; [reflexivity|]. exists msg. reflexivity.
Qed.

(** X3.  The error record of line 171 is written exactly when the
    request ends in an internal server error: it is then the last record
    written and carries the message of the detail; a result and a
    client error write no such record.  The request only appends to
    what the logger has received. *)
Theorem internal_errors_are_logged (R : Runtime) (contents : list byte)
    (st : list log_record) :
  exists w,
    snd (analyze_expenses R contents st) = st ++ w
    /\ (forall msg,
           In (ErrorUnexpected msg) w
           <-> fst (analyze_expenses R contents st)
               = Raise (HTTPException 500 (lit "Internal server error: " ++ msg)))
    /\ (forall msg,
           In (ErrorUnexpected msg) w ->
           exists w', w = w' ++ [ErrorUnexpected msg]
                      /\ Forall (fun rec => ~ is_error_record rec) w').
Proof.
  destruct (analyze_expenses_cases R contents) as [r [w [Hw [Hr H]]]].
  assert (Hno : forall msg, ~ In (ErrorUnexpected msg) w).
  { intros msg Hin. rewrite Forall_forall in Hw. apply (Hw _ Hin).
    exists msg. reflexivity. }
  rewrite H. destruct r as [a|[code d|cls msg]]; simpl.
  - exists w. split; [reflexivity|]. split.
    + intros msg. split; [intros Hin; destruct (Hno _ Hin) | discriminate].
    + intros msg Hin. destruct (Hno _ Hin).
  - exists w. split; [reflexivity|]. split.
    + intros msg. split; [intros Hin; destruct (Hno _ Hin)|].
      intros [= -> _]. destruct (Hr _ _ eq_refl) as [Hc _]. discriminate.
    + intros msg Hin. destruct (Hno _ Hin).
  - exists (w ++ [ErrorUnexpected msg]). split; [reflexivity|].
    assert (Hin : forall m, In (ErrorUnexpected m) (w ++ [ErrorUnexpected msg]) -> m = msg).
    { intros m Hm. apply in_app_or in Hm. destruct Hm as [Hm | [[= ->] | []]];
        [destruct (Hno _ Hm) | reflexivity]. }
    split.
    + intros m. split.
      * intros Hm. rewrite (Hin _ Hm). reflexivity.
      * intros [= E]. subst m.
        apply in_or_app. right. left. reflexivity.
    + intros m Hm. rewrite (Hin _ Hm). exists w. split; [reflexivity | exact Hw].
Qed.

(* ================================================================= *)
(** ** Header names count in their normalized form only *)

Section HeaderForm.

Variable R : Runtime.

Lemma fst_after_two_logs {A} (r1 r2 r1' r2' : log_record) (X : M A)
    (st1 st2 : list log_record) :
  appends X ->
  fst (bind (log r1) (fun _ => bind (log r2) (fun _ => X)) st1)
  = fst (bind (log r1') (fun _ => bind (log r2') (fun _ => X)) st2).
Proof.
  intros [r [w H]]. unfold bind, log. rewrite !H. reflexivity.
Qed.

Lemma analyze_frame_normalized (df1 df2 : DataFrame) (st1 st2 : list log_record) :
  normalize_columns R df1 = normalize_columns R df2 ->
  fst (analyze_frame R df1 st1) = fst (analyze_frame R df2 st2).
Proof.
  intros H. unfold analyze_frame. cbv zeta. rewrite H.
  apply fst_after_two_logs.
  unfold apply_clean_amount, apply_clean_category, apply_is_food_category.
  repeat first [ apply appends_clean_amount | apply appends_getitem
               | apply appends_is_food_category_obj | appends_step ].
Qed.

Lemma http_errors_fst {A} (m1 m2 : M A) (st1 st2 : list log_record) :
  fst (m1 st1) = fst (m2 st2) ->
  fst (http_errors m1 st1) = fst (http_errors m2 st2).
Proof.
  unfold http_errors, try_except. intros H.
  destruct (m1 st1) as [o1 s1], (m2 st2) as [o2 s2]. simpl in H. subst o2.
  destruct o1 as [a|[code d|cls msg]]; reflexivity.
Qed.

End HeaderForm.

(** X4.  Two uploads that the reader parses into frames with at least
    one row which agree once their header names are trimmed and put in
    lower case end in the same result or the same error: the capitals
    and the surrounding whitespace of a header name make no
    difference. *)
Theorem headers_count_normalized (R : Runtime) (contents1 contents2 : list byte)
    (df1 df2 : DataFrame) (st1 st2 : list log_record) :
  read_csv R (decoded_text contents1) = inr df1 ->
  read_csv R (decoded_text contents2) = inr df2 ->
  df_empty df1 = false ->
  df_empty df2 = false ->
  normalize_columns R df1 = normalize_columns R df2 ->
  fst (analyze_expenses R contents1 st1) = fst (analyze_expenses R contents2 st2).
Proof.
  intros H1 H2 E1 E2 H.
  rewrite (analyze_expenses_frame _ _ _ st1 H1 E1).
  rewrite (analyze_expenses_frame _ _ _ st2 H2 E2).
  apply http_errors_fst. apply analyze_frame_normalized. exact H.
Qed.

(** The three-row upload, with its header row as it is and in
    capitals. *)
Lemma headers_count_normalized_witness :
  columns_of lunch_rent_groceries = [lit "Category"; lit "Amount"]
  /\ (exists df2,
        read_csv Reference.runtime (decoded_text three_row_text_capitals) = inr df2
        /\ columns_of df2 = [lit "CATEGORY "; lit "AMOUNT"])
  /\ fst (analyze_expenses Reference.runtime three_row_text [])
     = fst (analyze_expenses Reference.runtime three_row_text_capitals []).
Proof.
  split; [reflexivity|]. split.
  - eexists. split; [vm_compute; reflexivity | reflexivity].
  - apply (headers_count_normalized Reference.runtime three_row_text
             three_row_text_capitals lunch_rent_groceries
             [ (lit "CATEGORY ", snd (nth 0 lunch_rent_groceries ([], Object [])));
               (lit "AMOUNT", snd (nth 1 lunch_rent_groceries ([], Object []))) ]
             [] []);
      vm_compute; reflexivity.
Defined.

(* ================================================================= *)
(** ** The Category Normalizer *)

Section CategoryNormalizer.

Variable R : Runtime.

Lemma single_spaced_collapse_run (b : bool) (s : str) :
  single_spaced b (collapse_run b s) = true.
Proof.
  revert b. induction s as [|c s IH]; intros b; simpl; [reflexivity|].
  destruct (isspace c) eqn:E.
  - destruct b; simpl.
    + apply IH.
    + change (isspace 32) with true. cbv iota. rewrite IH. reflexivity.
  - simpl. rewrite E. apply IH.
Qed.

Lemma collapse_run_single_spaced (b : bool) (s : str) :
  single_spaced b s = true -> collapse_run b s = s.
Proof.
  revert b. induction s as [|c s IH]; intros b; simpl; [reflexivity|].
  destruct (isspace c) eqn:E.
  - intros H. apply andb_true_iff in H. destruct H as [H Hs].
    apply andb_true_iff in H. destruct H as [Hc Hb].
    apply N.eqb_eq in Hc. apply negb_true_iff in Hb. subst c b.
    rewrite (IH true Hs). reflexivity.
  - intros H. rewrite (IH false H). reflexivity.
Qed.

Lemma single_spaced_in (b : bool) (s : str) (c : N) :
  single_spaced b s = true -> In c s -> isspace c = true -> c = 32.
Proof.
  revert b. induction s as [|x s IH]; intros b H Hin Hc; [contradiction|].
  simpl in H. destruct Hin as [-> | Hin].
  - rewrite Hc in H. apply andb_true_iff in H. destruct H as [H _].
    apply andb_true_iff in H. destruct H as [H _]. apply N.eqb_eq. exact H.
  - destruct (isspace x).
    + apply andb_true_iff in H. destruct H as [_ H]. exact (IH true H Hin Hc).
    + exact (IH false H Hin Hc).
Qed.

Lemma single_spaced_adjacent (b : bool) (pre post : str) (x y : N) :
  single_spaced b (pre ++ x :: y :: post) = true ->
  isspace x = true -> isspace y = false.
Proof.
  revert b. induction pre as [|p pre IH]; intros b H Hx; simpl in H.
  - rewrite Hx in H. apply andb_true_iff in H. destruct H as [_ H].
    simpl in H. destruct (isspace y); [|reflexivity].
    rewrite andb_false_r in H. discriminate.
  - destruct (isspace p).
    + apply andb_true_iff in H. destruct H as [_ H]. exact (IH true H Hx).
    + exact (IH false H Hx).
Qed.

Lemma single_spaced_clean_category (x : pyobj) :
  single_spaced false (clean_category R x) = true.
Proof.
  unfold clean_category. destruct (pd_isna x); [reflexivity|].
  apply single_spaced_collapse_run.
Qed.

(** The three steps of the normalizer on an ASCII string that is
    trimmed, in lower case and single-spaced: each leaves it as it
    is. *)
Lemma clean_category_fixed (v : str) :
  Forall (fun c => is_ascii c = true /\ ascii_lower c = c) v ->
  trimmed v -> single_spaced false v = true ->
  clean_category R (PStr v) = v.
Proof.
  intros Hv Ht Hs. unfold clean_category. simpl pd_isna. cbv iota. simpl py_str.
  rewrite (trimmed_strip_fixed _ Ht).
  rewrite py_lower_ascii by (eapply Forall_impl; [|exact Hv]; intros c [H _]; exact H).
  assert (Hm : List.map ascii_lower v = v).
  { clear -Hv. induction Hv as [|c l [_ Hc] _ IH]; simpl; [reflexivity|].
    rewrite Hc, IH. reflexivity. }
  rewrite Hm. apply collapse_run_single_spaced. exact Hs.
Qed.

Lemma clean_category_ascii_form (s : str) :
  Forall (fun c => is_ascii c = true) s ->
  Forall (fun c => is_ascii c = true /\ ascii_lower c = c)
    (clean_category R (PStr s))
  /\ trimmed (clean_category R (PStr s)).
Proof.
  intros Hs. unfold clean_category. simpl pd_isna. cbv iota. simpl py_str.
  pose proof (strip_chars _ _ Hs) as Ht.
  rewrite (py_lower_ascii R _ Ht). split.
  - apply collapse_run_chars; [split; reflexivity|].
    rewrite Forall_map. eapply Forall_impl; [|exact Ht].
    intros c Hc. split; [apply is_ascii_lower; exact Hc | apply ascii_lower_idem].
  - apply trimmed_collapse_ws, trimmed_map_lower, strip_trimmed.
Qed.

End CategoryNormalizer.

(** X5.  Normalizing twice is normalizing once: on an ASCII cell,
    [clean_category] leaves what it has produced as it is. *)
Theorem clean_category_idempotent (R : Runtime) (s : str) :
  Forall (fun c => is_ascii c = true) s ->
  clean_category R (PStr (clean_category R (PStr s))) = clean_category R (PStr s).
Proof.
  intros Hs. destruct (clean_category_ascii_form R s Hs) as [Hv Ht].
  apply clean_category_fixed; [exact Hv | exact Ht |].
  apply single_spaced_clean_category.
Qed.

(** A cell with capitals, tabs and runs of blanks. *)
Lemma clean_category_idempotent_witness :
  clean_category Reference.runtime (PStr (lit "  Fast   Food  "))
  = lit "fast food"
  /\ clean_category Reference.runtime
       (PStr (clean_category Reference.runtime (PStr (lit "  Fast   Food  "))))
     = clean_category Reference.runtime (PStr (lit "  Fast   Food  ")).
Proof.
  split; [vm_compute; reflexivity|].
  apply (clean_category_idempotent Reference.runtime (lit "  Fast   Food  ")).
  vm_compute. repeat constructor.
Defined.

(** X6.  Whatever the cell and the runtime, the category that
    [clean_category] returns holds no whitespace but single spaces:
    every whitespace character in it is the space, and no two
    whitespace characters follow each other.  A missing cell gives the
    empty category. *)
Theorem clean_category_single_spaced (R : Runtime) (x : pyobj) :
  (forall c, In c (clean_category R x) -> isspace c = true -> c = 32)
  /\ (forall pre a b post,
         clean_category R x = pre ++ a :: b :: post ->
         isspace a = true -> isspace b = false)
  /\ (pd_isna x = true -> clean_category R x = []).
Proof.
  pose proof (single_spaced_clean_category R x) as H.
  split; [|split].
  - intros c. apply (single_spaced_in false _ c H).
  - intros pre a b post E. rewrite E in H.
    apply (single_spaced_adjacent false pre post a b H).
  - intros Hna. unfold clean_category. rewrite Hna. reflexivity.
Qed.

(** A cell whose runs of whitespace mix tabs and blanks. *)
Lemma clean_category_single_spaced_witness :
  clean_category Reference.runtime (PStr [71; 97; 115; 9; 32; 9; 38; 32; 32; 71; 111])
  = [103; 97; 115; 32; 38; 32; 103; 111]
  /\ isspace 38 = false.
Proof.
  split; [vm_compute; reflexivity|].
  apply (proj1 (proj2 (clean_category_single_spaced Reference.runtime
                         (PStr [71; 97; 115; 9; 32; 9; 38; 32; 32; 71; 111])))
           [103; 97; 115] 32 38 [32; 103; 111]);
    vm_compute; reflexivity.
Defined.

(* ================================================================= *)
(** ** Whitespace around a cell *)

Section Padding.

Lemma lstrip_app (s p : str) :
  lstrip (s ++ p) = match lstrip s with [] => lstrip p | _ :: _ => lstrip s ++ p end.
Proof.
  induction s as [|c s IH]; simpl.
  - destruct (lstrip p); reflexivity.
  - destruct (isspace c); [exact IH | reflexivity].
Qed.

Lemma lstrip_spaces (p : str) :
  Forall (fun c => isspace c = true) p -> lstrip p = [].
Proof.
  induction 1 as [|c p Hc _ IH]; simpl; [reflexivity|].
  rewrite Hc. exact IH.
Qed.

Lemma lstrip_pad (pad s : str) :
  Forall (fun c => isspace c = true) pad -> lstrip (pad ++ s) = lstrip s.
Proof.
  intros H. rewrite lstrip_app, (lstrip_spaces _ H). reflexivity.
Qed.

Lemma rstrip_pad (s pad : str) :
  Forall (fun c => isspace c = true) pad -> rstrip (s ++ pad) = rstrip s.
Proof.
  intros H. unfold rstrip. rewrite rev_app_distr, lstrip_pad; [reflexivity|].
  apply Forall_rev. exact H.
Qed.

Lemma strip_pad (pad1 s pad2 : str) :
  Forall (fun c => isspace c = true) pad1 ->
  Forall (fun c => isspace c = true) pad2 ->
  strip (pad1 ++ s ++ pad2) = strip s.
Proof.
  intros H1 H2. unfold strip. rewrite (lstrip_pad _ _ H1), lstrip_app.
  destruct (lstrip s) as [|c t] eqn:E.
  - rewrite (lstrip_spaces _ H2). reflexivity.
  - apply rstrip_pad. exact H2.
Qed.

Lemma lstrip_map_lower (s : str) :
  lstrip (List.map ascii_lower s) = List.map ascii_lower (lstrip s).
Proof.
  induction s as [|c s IH]; simpl; [reflexivity|].
  rewrite isspace_ascii_lower. destruct (isspace c); [exact IH | reflexivity].
Qed.

Lemma strip_map_lower (s : str) :
  strip (List.map ascii_lower s) = List.map ascii_lower (strip s).
Proof.
  unfold strip, rstrip.
  rewrite lstrip_map_lower, <- map_rev, lstrip_map_lower, map_rev. reflexivity.
Qed.

(** The amount of a string cell is read off its token alone: the test
    of line 26 for the empty string changes nothing. *)
Lemma amount_value_token (R : Runtime) (s : str) :
  amount_value R (PStr s)
  = match py_float R (clean_token R (PStr s)) with
    | Some f => f
    | None => Float.zero
    end.
Proof.
  unfold amount_value. destruct s as [|c s]; reflexivity.
Qed.

Lemma clean_token_strip (R : Runtime) (s t : str) :
  strip s = strip t -> clean_token R (PStr s) = clean_token R (PStr t).
Proof.
  intros H. unfold clean_token. simpl py_str. rewrite H. reflexivity.
Qed.

End Padding.

(** X7.  Whitespace before and after the text of a cell does not
    count: with any padding of whitespace characters, a string cell has
    the same amount and the same category as without it. *)
Theorem surrounding_whitespace_ignored (R : Runtime) (pad1 s pad2 : str) :
  Forall (fun c => isspace c = true) pad1 ->
  Forall (fun c => isspace c = true) pad2 ->
  amount_value R (PStr (pad1 ++ s ++ pad2)) = amount_value R (PStr s)
  /\ clean_category R (PStr (pad1 ++ s ++ pad2)) = clean_category R (PStr s).
Proof.
  intros H1 H2. pose proof (strip_pad pad1 s pad2 H1 H2) as E. split.
  - rewrite !amount_value_token, (clean_token_strip R _ _ E). reflexivity.
  - unfold clean_category. simpl pd_isna. cbv iota. simpl py_str.
    rewrite E. reflexivity.
Qed.

(** A tab and a blank before the text, a line feed after it. *)
#[warnings="-inexact-float"]
Lemma surrounding_whitespace_ignored_witness :
  amount_value Reference.runtime (PStr ([9; 32] ++ lit "$4.20" ++ [10])) = f64 4.2
  /\ amount_value Reference.runtime (PStr ([9; 32] ++ lit "$4.20" ++ [10]))
     = amount_value Reference.runtime (PStr (lit "$4.20"))
  /\ clean_category Reference.runtime (PStr ([9; 32] ++ lit "$4.20" ++ [10]))
     = clean_category Reference.runtime (PStr (lit "$4.20")).
Proof.
  split; [vm_compute; reflexivity|].
  apply (surrounding_whitespace_ignored Reference.runtime [9; 32] (lit "$4.20") [10]);
    repeat constructor.
Defined.

(* ================================================================= *)
(** ** Currency symbols and grouping commas *)

Section Currency.

Lemma filter_idem {A} (p : A -> bool) (l : list A) :
  List.filter p (List.filter p l) = List.filter p l.
Proof.
  induction l as [|x l IH]; simpl; [reflexivity|].
  destruct (p x) eqn:E; simpl; [rewrite E, IH|]; auto.
Qed.

Lemma nospace_trimmed (s : str) :
  Forall (fun c => isspace c = false) s -> trimmed s.
Proof.
  intros H. destruct s as [|c s]; [exact I|]. split.
  - inversion H; assumption.
  - rewrite Forall_forall in H. apply H.
    destruct (exists_last (l := c :: s) ltac:(discriminate)) as [p [z E]].
    rewrite E, last_last. apply in_or_app. right. left. reflexivity.
Qed.

Lemma Forall_filter {A} (P : A -> Prop) (p : A -> bool) (l : list A) :
  Forall P l -> Forall P (List.filter p l).
Proof.
  induction 1 as [|x l Hx _ IH]; simpl; [constructor|].
  destruct (p x); [constructor|]; assumption.
Qed.

End Currency.

(** X8.  In a cell without whitespace the currency symbols (dollar,
    euro, pound, yen, rupee) and the commas do not count, wherever they
    stand: the cell has the amount of the cell without them. *)
Theorem currency_and_commas_ignored (R : Runtime) (s : str) :
  Forall (fun c => isspace c = false) s ->
  amount_value R (PStr s)
  = amount_value R (PStr (sub_delete is_currency_or_comma s)).
Proof.
  intros Hs. rewrite !amount_value_token. unfold clean_token. simpl py_str.
  rewrite (trimmed_strip_fixed _ (nospace_trimmed _ Hs)).
  rewrite (trimmed_strip_fixed (sub_delete is_currency_or_comma s)).
  - unfold sub_delete. rewrite filter_idem. reflexivity.
  - apply nospace_trimmed. unfold sub_delete. apply Forall_filter. exact Hs.
Qed.

(** A euro sign after the digits and two grouping commas. *)
#[warnings="-inexact-float"]
Lemma currency_and_commas_ignored_witness :
  amount_value Reference.runtime (PStr (lit "1,234,567.5" ++ [8364])) = f64 1234567.5
  /\ sub_delete is_currency_or_comma (lit "1,234,567.5" ++ [8364]) = lit "1234567.5"
  /\ amount_value Reference.runtime (PStr (lit "1,234,567.5" ++ [8364]))
     = amount_value Reference.runtime
         (PStr (sub_delete is_currency_or_comma (lit "1,234,567.5" ++ [8364]))).
Proof.
  split; [vm_compute; reflexivity|]. split; [vm_compute; reflexivity|].
  apply (currency_and_commas_ignored Reference.runtime (lit "1,234,567.5" ++ [8364])).
  vm_compute. repeat constructor.
Defined.

(* ================================================================= *)
(** ** What decides the Food Classifier *)

Section Classifier.

Variable R : Runtime.

Lemma any_keyword_in_app (l1 l2 : list str) (t : str) :
  any_keyword_in (l1 ++ l2) t = any_keyword_in l1 t || any_keyword_in l2 t.
Proof.
  induction l1 as [|k l1 IH]; simpl; [reflexivity|].
  destruct (contains k t); [reflexivity | exact IH].
Qed.

Lemma contains_longer (k pre post t : str) :
  contains (pre ++ k ++ post) t = true -> contains k t = true.
Proof.
  rewrite !contains_spec. intros [p [q ->]].
  exists (p ++ pre), (post ++ q). rewrite <- !app_assoc. reflexivity.
Qed.

(** The first fifteen keywords decide: the exact match of line 72 and
    the keywords of two words hold the keyword of line 64. *)
Lemma food_keywords_plain (t : str) :
  (if Text.eqb t (lit "food") then true else any_keyword_in food_keywords t)
  = any_keyword_in (firstn 15 food_keywords) t.
Proof.
  destruct (Text.eqb t (lit "food")) eqn:E.
  - apply eqb_eq in E. subst t. vm_compute. reflexivity.
  - change food_keywords
      with (firstn 15 food_keywords ++ [lit "fast food"; lit "fastfood"]) at 1.
    rewrite any_keyword_in_app.
    destruct (any_keyword_in (firstn 15 food_keywords) t) eqn:E1; [reflexivity|].
    assert (Hfood : contains (lit "food") t = false).
    { change (firstn 15 food_keywords)
        with (lit "food" :: tl (firstn 15 food_keywords)) in E1.
      simpl any_keyword_in in E1.
      destruct (contains (lit "food") t); [discriminate | reflexivity]. }
    simpl.
    destruct (contains (lit "fast food") t) eqn:E2.
    { rewrite (contains_longer (lit "food") (lit "fast ") [] t E2) in Hfood.
      discriminate. }
    destruct (contains (lit "fastfood") t) eqn:E3; [|reflexivity].
    rewrite (contains_longer (lit "food") (lit "fast") [] t E3) in Hfood.
    discriminate.
Qed.

Lemma startswith_collapse (k s : str) :
  Forall (fun c => isspace c = false) k ->
  startswith (collapse_run false s) k = startswith s k.
Proof.
  intros Hk. revert s. induction Hk as [|a k Ha _ IH]; intros s.
  - destruct s; [reflexivity|]. simpl. destruct (isspace n); reflexivity.
  - destruct s as [|c s]; [reflexivity|]. simpl.
    destruct (isspace c) eqn:Ec.
    + simpl. replace (a =? 32) with false; [replace (a =? c) with false|].
      * reflexivity.
      * symmetry. apply N.eqb_neq. intros ->. congruence.
      * symmetry. apply N.eqb_neq. intros ->. discriminate.
    + simpl. rewrite IH. reflexivity.
Qed.

Lemma contains_collapse (k : str) (b : bool) (s : str) :
  k <> [] -> Forall (fun c => isspace c = false) k ->
  contains k (collapse_run b s) = contains k s.
Proof.
  intros Hne Hk. destruct k as [|a k]; [contradiction|]. clear Hne.
  inversion Hk as [|? ? Ha Hk']; subst.
  revert b. induction s as [|c s IH]; intros b; [reflexivity|].
  simpl collapse_run. destruct (isspace c) eqn:Ec.
  - assert (Hc : (a =? c) = false) by (apply N.eqb_neq; intros ->; congruence).
    destruct b.
    + rewrite IH. simpl. rewrite Hc. reflexivity.
    + simpl. rewrite IH, Hc.
      replace (a =? 32) with false; [reflexivity|].
      symmetry. apply N.eqb_neq. intros ->. discriminate.
  - simpl. rewrite IH, (startswith_collapse k s Hk'). reflexivity.
Qed.

Lemma any_keyword_in_collapse (keywords : list str) (b : bool) (s : str) :
  Forall (fun k => k <> [] /\ Forall (fun c => isspace c = false) k) keywords ->
  any_keyword_in keywords (collapse_run b s) = any_keyword_in keywords s.
Proof.
  induction 1 as [|k l [Hne Hk] _ IH]; simpl; [reflexivity|].
  rewrite (contains_collapse k b s Hne Hk), IH. reflexivity.
Qed.

Lemma plain_keywords_nospace :
  Forall (fun k => k <> [] /\ Forall (fun c => isspace c = false) k)
    (firstn 15 food_keywords).
Proof.
  repeat (apply Forall_cons; [split; [discriminate | repeat constructor]|]).
  apply Forall_nil.
Qed.

End Classifier.

(** X9.  The Category Normalizer never changes what the Food
    Classifier answers: on an ASCII cell the classifier gives the same
    answer for the cell as it is and for its normalized category. *)
Theorem normalizer_keeps_classification (R : Runtime) (s : str) :
  Forall (fun c => is_ascii c = true) s ->
  is_food_category R (clean_category R (PStr s)) = is_food_category R s.
Proof.
  intros Hs. unfold is_food_category at 1. cbv zeta.
  rewrite (clean_category_normal_form R s Hs).
  unfold is_food_category. cbv zeta.
  rewrite !food_keywords_plain.
  unfold clean_category. simpl pd_isna. cbv iota. simpl py_str.
  rewrite (py_lower_ascii R _ (strip_chars _ _ Hs)), (py_lower_ascii R _ Hs).
  rewrite strip_map_lower. unfold collapse_ws.
  apply any_keyword_in_collapse, plain_keywords_nospace.
Qed.

(** A cell with capitals, padding and a run of blanks. *)
Lemma normalizer_keeps_classification_witness :
  clean_category Reference.runtime (PStr (lit " Fast   Food, Inc. ")) = lit "fast food, inc."
  /\ is_food_category Reference.runtime (lit " Fast   Food, Inc. ") = true
  /\ is_food_category Reference.runtime
       (clean_category Reference.runtime (PStr (lit " Fast   Food, Inc. ")))
     = is_food_category Reference.runtime (lit " Fast   Food, Inc. ").
Proof.
  split; [vm_compute; reflexivity|]. split; [vm_compute; reflexivity|].
  apply (normalizer_keeps_classification Reference.runtime (lit " Fast   Food, Inc. ")).
  vm_compute. repeat constructor.
Defined.

(** X10.  Of all that [is_food_category] tests, the first fifteen
    keywords decide alone: the exact match with food of line 72 and the
    keywords fast food and fastfood never change the answer, since
    whatever they accept holds the keyword food. *)
Theorem first_fifteen_keywords_decide (R : Runtime) (category : str) :
  is_food_category R category
  = any_keyword_in
      (List.map lit
         ["food"; "restaurant"; "dining"; "lunch"; "dinner"; "breakfast";
          "cafe"; "coffee"; "snack"; "meal"; "grocery"; "groceries";
          "catering"; "takeout"; "delivery"]%string)
      (strip (py_lower R category)).
Proof.
  unfold is_food_category. cbv zeta. rewrite food_keywords_plain. reflexivity.
Qed.

(* ================================================================= *)
(** ** Amounts in parentheses *)

Ltac cmp_by_lia :=
  repeat match goal with
    | |- context [N.leb ?a ?b] =>
        first [ rewrite (proj2 (N.leb_le a b)) by lia
              | rewrite (proj2 (N.leb_gt a b)) by lia ]
    | |- context [N.eqb ?a ?b] =>
        first [ rewrite (proj2 (N.eqb_eq a b)) by lia
              | rewrite (proj2 (N.eqb_neq a b)) by lia ]
    | |- context [N.ltb ?a ?b] =>
        first [ rewrite (proj2 (N.ltb_lt a b)) by lia
              | rewrite (proj2 (N.ltb_ge a b)) by lia ]
    end.

Section Parentheses.

Variable R : Runtime.

Lemma binary_round_aux_opp (m e : Z) (l : location) :
  binary_round_aux Float.prec Float.emax true m e l
  = SFopp (binary_round_aux Float.prec Float.emax false m e l).
Proof.
  unfold binary_round_aux.
  destruct (shr_fexp Float.prec Float.emax m e l) as [mrs' e'].
  destruct (shr_fexp Float.prec Float.emax
              (round_nearest_even (shr_m mrs') (loc_of_shr_record mrs')) e' loc_Exact)
    as [mrs'' e''].
  destruct (shr_m mrs'') as [|p|p]; [reflexivity | | reflexivity].
  destruct (e'' <=? Float.emax - Float.prec)%Z; reflexivity.
Qed.

Lemma of_decimal_opp (m : Z) (k : nat) :
  Float.of_decimal true m k = SFopp (Float.of_decimal false m k).
Proof.
  unfold Float.of_decimal. destruct m as [|p|p]; try reflexivity.
  unfold SFdiv.
  destruct (SFdiv_core_binary Float.prec Float.emax (Z.pos p) 0
              (Z.pos (Float.pow10 k)) 0) as [[mz ez] lz].
  apply binary_round_aux_opp.
Qed.

(** A string that does not start with the minus sign has no sign for
    [float]. *)
Lemma no_sign (c : N) (r : str) :
  c <> 45 ->
  match c :: r with 45 :: r' => (true, r') | _ => (false, c :: r) end
  = (false, c :: r).
Proof.
  intros Hc. destruct c as [|p]; [reflexivity|].
  repeat (destruct p as [p|p|]; try reflexivity).
  exfalso. apply Hc. reflexivity.
Qed.

Lemma py_float_minus (t : str) :
  match t with c :: _ => c <> 45 | [] => True end ->
  py_float R (45 :: t) = option_map SFopp (py_float R t).
Proof.
  intros Ht. unfold py_float.
  assert (E : match t with 45 :: r => (true, r) | _ => (false, t) end = (false, t)).
  { destruct t as [|c r]; [reflexivity | apply no_sign; exact Ht]. }
  rewrite E. clear E Ht.
  destruct (span_digits R t 0%Z 0%nat) as [[ip ni] s2].
  destruct (match s2 with 46 :: r => span_digits R r ip 0%nat | _ => (ip, 0%nat, s2) end)
    as [[m nf] s3].
  destruct s3; [|reflexivity].
  destruct (ni + nf =? 0)%nat; [reflexivity|].
  simpl. rewrite of_decimal_opp. reflexivity.
Qed.

Lemma unsigned_amount_char_cases (c : N) :
  is_unsigned_amount_char c = true ->
  48 <= c <= 57 \/ c = 46 \/ is_currency_or_comma c = true.
Proof.
  unfold is_unsigned_amount_char. rewrite !orb_true_iff, andb_true_iff.
  rewrite !N.leb_le, N.eqb_eq. tauto.
Qed.

Lemma currency_or_comma_cases (c : N) :
  is_currency_or_comma c = true ->
  c = 36 \/ c = 8364 \/ c = 163 \/ c = 165 \/ c = 8377 \/ c = 44.
Proof.
  unfold is_currency_or_comma. rewrite !orb_true_iff, !N.eqb_eq. tauto.
Qed.

Lemma unsigned_amount_char_nospace (c : N) :
  is_unsigned_amount_char c = true -> isspace c = false.
Proof.
  intros H. apply unsigned_amount_char_cases in H.
  destruct H as [H | [-> | H]]; [| reflexivity |].
  - unfold isspace. cmp_by_lia. reflexivity.
  - apply currency_or_comma_cases in H.
    destruct H as [-> | [-> | [-> | [-> | [-> | ->]]]]]; reflexivity.
Qed.

Lemma digit_is_numeric (c : N) : 48 <= c <= 57 -> is_numeric_char R c = true.
Proof.
  intros H. unfold is_numeric_char, is_digit, py_decimal. cmp_by_lia. reflexivity.
Qed.

Lemma digit_not_currency (c : N) : 48 <= c <= 57 -> is_currency_or_comma c = false.
Proof.
  intros H. unfold is_currency_or_comma. cmp_by_lia. reflexivity.
Qed.

(** What is left of an unsigned amount once the currency symbols and
    the commas are deleted: digits and points, all kept by line 40. *)
Lemma unsigned_amount_digits (s : str) :
  Forall (fun c => is_unsigned_amount_char c = true) s ->
  Forall (fun c => 48 <= c <= 57 \/ c = 46) (sub_delete is_currency_or_comma s).
Proof.
  unfold sub_delete. induction 1 as [|c s Hc _ IH]; simpl; [constructor|].
  destruct (is_currency_or_comma c) eqn:E; simpl; [exact IH|].
  constructor; [|exact IH].
  apply unsigned_amount_char_cases in Hc. rewrite E in Hc.
  destruct Hc as [H | [H | H]]; [left; exact H | right; exact H | discriminate].
Qed.

Lemma digits_kept (t : str) :
  Forall (fun c => 48 <= c <= 57 \/ c = 46) t ->
  sub_delete (fun c => negb (is_numeric_char R c)) t = t.
Proof.
  unfold sub_delete. induction 1 as [|c t Hc _ IH]; simpl; [reflexivity|].
  assert (E : is_numeric_char R c = true).
  { destruct Hc as [Hc | ->]; [apply digit_is_numeric; exact Hc|].
    unfold is_numeric_char. rewrite orb_true_iff. left.
    rewrite orb_true_iff. right. reflexivity. }
  rewrite E. simpl. rewrite IH. reflexivity.
Qed.

Lemma digits_no_parenthesis (t : str) :
  Forall (fun c => 48 <= c <= 57 \/ c = 46) t -> startswith t (lit "(") = false.
Proof.
  intros H. destruct H as [|c t Hc _]; [reflexivity|].
  change (startswith (c :: t) (lit "(")) with ((40 =? c) && true).
  rewrite andb_true_r. apply N.eqb_neq.
  destruct Hc as [Hc | ->]; [lia | discriminate].
Qed.

(** The token of an unsigned amount, and of the amount in
    parentheses. *)
Lemma clean_token_unsigned (s : str) :
  Forall (fun c => is_unsigned_amount_char c = true) s ->
  clean_token R (PStr s) = sub_delete is_currency_or_comma s.
Proof.
  intros Hs. unfold clean_token. simpl py_str.
  rewrite (trimmed_strip_fixed s).
  2:{ apply nospace_trimmed. eapply Forall_impl; [|exact Hs].
      intros c. apply unsigned_amount_char_nospace. }
  pose proof (unsigned_amount_digits s Hs) as Ht.
  rewrite (digits_no_parenthesis _ Ht). simpl andb. cbv iota.
  apply digits_kept. exact Ht.
Qed.

Lemma clean_token_parentheses (s : str) :
  Forall (fun c => is_unsigned_amount_char c = true) s ->
  clean_token R (PStr (lit "(" ++ s ++ lit ")"))
  = 45 :: sub_delete is_currency_or_comma s.
Proof.
  intros Hs. unfold clean_token. simpl py_str.
  pose proof (unsigned_amount_digits s Hs) as Ht.
  set (t := sub_delete is_currency_or_comma s) in *.
  change (40 :: s ++ lit ")") with (40 :: s ++ [41]).
  rewrite (trimmed_strip_fixed (40 :: s ++ [41])).
  2:{ split; [reflexivity|].
      change (40 :: s ++ [41]) with ((40 :: s) ++ [41]).
      rewrite last_last. reflexivity. }
  assert (E : sub_delete is_currency_or_comma (40 :: s ++ [41]) = 40 :: t ++ [41]).
  { unfold sub_delete, t. simpl. rewrite filter_app. reflexivity. }
  rewrite E. clear E.
  assert (E : startswith (40 :: t ++ [41]) (lit "(")
              && endswith (40 :: t ++ [41]) (lit ")") = true).
  { unfold endswith. simpl rev. rewrite rev_app_distr. reflexivity. }
  rewrite E. clear E.
  unfold slice_1_m1. simpl tl. rewrite removelast_last.
  assert (E : is_numeric_char R 45 = true).
  { unfold is_numeric_char. apply orb_true_iff. right. reflexivity. }
  change (sub_delete (fun c => negb (is_numeric_char R c)) (lit "-" ++ t))
    with (if negb (negb (is_numeric_char R 45))
          then 45 :: sub_delete (fun c => negb (is_numeric_char R c)) t
          else sub_delete (fun c => negb (is_numeric_char R c)) t).
  rewrite E. simpl negb. cbv iota. f_equal. apply digits_kept. exact Ht.
Qed.

End Parentheses.

(** X11.  Parentheses negate: when a non-empty cell made of ASCII
    digits, points, currency symbols and commas converts, the same cell
    between parentheses converts too, to the opposite amount. *)
Theorem parentheses_negate (R : Runtime) (s : str) :
  Forall (fun c => is_unsigned_amount_char c = true) s ->
  s <> [] ->
  amount_warning R (PStr s) = [] ->
  amount_value R (PStr (lit "(" ++ s ++ lit ")")) = SFopp (amount_value R (PStr s))
  /\ amount_warning R (PStr (lit "(" ++ s ++ lit ")")) = [].
Proof.
  intros Hs Hne Hw.
  pose proof (unsigned_amount_digits s Hs) as Ht.
  assert (Hf : exists f, py_float R (clean_token R (PStr s)) = Some f).
  { unfold amount_warning in Hw. destruct s as [|c s]; [contradiction|].
    simpl in Hw. destruct (py_float R (clean_token R (PStr (c :: s)))) as [f|];
      [exists f; reflexivity | discriminate]. }
  destruct Hf as [f Hf].
  assert (Hp : py_float R (clean_token R (PStr (lit "(" ++ s ++ lit ")")))
               = Some (SFopp f)).
  { rewrite (clean_token_parentheses R s Hs).
    rewrite (clean_token_unsigned R s Hs) in Hf.
    rewrite py_float_minus, Hf; [reflexivity|].
    destruct Ht as [|c t Hc _]; [exact I|].
    destruct Hc as [Hc | ->]; [lia | discriminate]. }
  split.
  - rewrite !amount_value_token, Hp, Hf. reflexivity.
  - unfold amount_warning. change (lit "(" ++ s ++ lit ")") with (40 :: s ++ [41]).
    simpl. change (40 :: s ++ [41]) with (lit "(" ++ s ++ lit ")").
    rewrite Hp. reflexivity.
Qed.

(** A price with a dollar sign and a grouping comma. *)
#[warnings="-inexact-float"]
Lemma parentheses_negate_witness :
  amount_value Reference.runtime (PStr (lit "$1,250.75")) = f64 1250.75
  /\ SFopp (f64 1250.75) = f64 (-1250.75)
  /\ amount_value Reference.runtime (PStr (lit "(" ++ lit "$1,250.75" ++ lit ")"))
     = SFopp (amount_value Reference.runtime (PStr (lit "$1,250.75"))).
Proof.
  split; [vm_compute; reflexivity|]. split; [vm_compute; reflexivity|].
  apply (parentheses_negate Reference.runtime (lit "$1,250.75")).
  - vm_compute. repeat constructor.
  - discriminate.
  - vm_compute. reflexivity.
Defined.

(* ================================================================= *)
(** ** Cells that hold an integer *)

Section IntegerCells.

Variable R : Runtime.

Lemma span_digits_digit (c : N) (r : str) (acc : Z) (n : nat) :
  48 <= c <= 57 ->
  span_digits R (c :: r) acc n
  = span_digits R r (acc * 10 + Z.of_N (c - 48))%Z (S n).
Proof.
  intros H. simpl. unfold py_decimal. cmp_by_lia. reflexivity.
Qed.

Ltac head_digit :=
  match goal with
  | |- context [lit (NilEmpty.string_of_uint (?D ?d)) ++ ?rest] =>
      let c := eval vm_compute in (hd 0 (lit (NilEmpty.string_of_uint (D d)))) in
      change (lit (NilEmpty.string_of_uint (D d)) ++ rest)
        with (c :: (lit (NilEmpty.string_of_uint d) ++ rest));
      rewrite (span_digits_digit c) by lia
  end.

Lemma span_digits_uint_acc (d : Decimal.uint) (rest : str) (acc : positive) (n : nat) :
  span_digits R (lit (NilEmpty.string_of_uint d) ++ rest) (Z.pos acc) n
  = span_digits R rest (Z.pos (Pos.of_uint_acc d acc)) (Decimal.nb_digits d + n).
Proof.
  revert acc n.
  induction d as [|d IH|d IH|d IH|d IH|d IH|d IH|d IH|d IH|d IH|d IH];
    intros acc n; [reflexivity | ..];
    head_digit; cbn [Pos.of_uint_acc];
    match goal with
    | |- span_digits R _ ?v _ = span_digits R _ (Z.pos (Pos.of_uint_acc _ ?a)) _ =>
        replace v with (Z.pos a) by (simpl Z.of_N; lia)
    end;
    rewrite IH; simpl Decimal.nb_digits; f_equal; lia.
Qed.

Lemma span_digits_uint (d : Decimal.uint) (rest : str) (n : nat) :
  span_digits R (lit (NilEmpty.string_of_uint d) ++ rest) 0%Z n
  = span_digits R rest (Z.of_N (Pos.of_uint d)) (Decimal.nb_digits d + n).
Proof.
  revert n.
  induction d as [|d IH|d IH|d IH|d IH|d IH|d IH|d IH|d IH|d IH|d IH];
    intros n; [reflexivity | ..];
    head_digit;
    [ change (0 * 10 + Z.of_N (48 - 48))%Z with 0%Z; rewrite IH;
      simpl Decimal.nb_digits; simpl Pos.of_uint; f_equal; lia
    | match goal with
      | |- span_digits R _ ?v _ = _ =>
          let p := eval vm_compute in v in change v with p
      end;
      rewrite span_digits_uint_acc; simpl Decimal.nb_digits; simpl Pos.of_uint;
      simpl Z.of_N; f_equal; lia .. ].
Qed.

Lemma uint_chars (d : Decimal.uint) :
  Forall (fun c => 48 <= c <= 57) (lit (NilEmpty.string_of_uint d)).
Proof.
  induction d; simpl; constructor; try assumption; split; discriminate.
Qed.

(** A string of ASCII digits, points and minus signs is its own
    token. *)
Lemma clean_token_numeric (x : pyobj) :
  Forall (fun c => 48 <= c <= 57 \/ c = 46 \/ c = 45) (py_str R x) ->
  clean_token R x = py_str R x.
Proof.
  intros H. unfold clean_token. set (s := py_str R x) in *.
  assert (Hsp : Forall (fun c => isspace c = false) s).
  { eapply Forall_impl; [|exact H]. intros c [Hc | [-> | ->]]; [| reflexivity ..].
    unfold isspace. cmp_by_lia. reflexivity. }
  rewrite (trimmed_strip_fixed _ (nospace_trimmed _ Hsp)).
  assert (Hcur : sub_delete is_currency_or_comma s = s).
  { clear Hsp. unfold sub_delete. induction H as [|c t Hc _ IH]; simpl; [reflexivity|].
    assert (E : is_currency_or_comma c = false).
    { destruct Hc as [Hc | [-> | ->]]; [| reflexivity ..].
      apply digit_not_currency. exact Hc. }
    rewrite E. simpl. rewrite IH. reflexivity. }
  rewrite Hcur.
  assert (Hpar : startswith s (lit "(") = false).
  { destruct H as [|c t Hc _]; [reflexivity|].
    change (startswith (c :: t) (lit "(")) with ((40 =? c) && true).
    rewrite andb_true_r. apply N.eqb_neq.
    destruct Hc as [Hc | [-> | ->]]; [lia | discriminate ..]. }
  rewrite Hpar. simpl andb. cbv iota.
  clear Hsp Hcur Hpar. unfold sub_delete.
  induction H as [|c t Hc _ IH]; simpl; [reflexivity|].
  assert (E : is_numeric_char R c = true).
  { destruct Hc as [Hc | [-> | ->]]; [apply digit_is_numeric; exact Hc | |];
      unfold is_numeric_char; rewrite !orb_true_iff; [left; right | right];
      reflexivity. }
  rewrite E. simpl. rewrite IH. reflexivity.
Qed.

Lemma py_float_uint (d : Decimal.uint) :
  d <> Decimal.Nil ->
  py_float R (lit (NilEmpty.string_of_uint d))
  = Some (Float.of_decimal false (Z.of_N (Pos.of_uint d)) 0).
Proof.
  intros Hd. unfold py_float.
  assert (E : match lit (NilEmpty.string_of_uint d) with
              | 45 :: r => (true, r)
              | _ => (false, lit (NilEmpty.string_of_uint d))
              end = (false, lit (NilEmpty.string_of_uint d))).
  { destruct d; reflexivity. }
  rewrite E. clear E.
  rewrite <- (app_nil_r (lit (NilEmpty.string_of_uint d))), span_digits_uint.
  simpl span_digits. cbv iota.
  destruct d; [contradiction | reflexivity ..].
Qed.

Lemma py_float_int (z : Z) :
  py_float R (py_str R (PInt z))
  = Some (Float.of_decimal (z <? 0)%Z (Z.abs z) 0).
Proof.
  assert (Hnil : forall p, Pos.to_uint p <> Decimal.Nil).
  { intros p E. pose proof (DecimalPos.Unsigned.of_to p) as H.
    rewrite E in H. discriminate. }
  assert (Hne : forall d, d <> Decimal.Nil ->
                  NilZero.string_of_uint d = NilEmpty.string_of_uint d).
  { intros d Hd. destruct d; [contradiction | reflexivity ..]. }
  destruct z as [|p|p]; simpl py_str.
  - vm_compute. reflexivity.
  - unfold NilZero.string_of_int. rewrite (Hne _ (Hnil p)).
    rewrite (py_float_uint _ (Hnil p)), DecimalPos.Unsigned.of_to. reflexivity.
  - unfold NilZero.string_of_int. rewrite (Hne _ (Hnil p)).
    change (lit (String "-" (NilEmpty.string_of_uint (Pos.to_uint p))))
      with (45 :: lit (NilEmpty.string_of_uint (Pos.to_uint p))).
    rewrite py_float_minus.
    + rewrite (py_float_uint _ (Hnil p)), DecimalPos.Unsigned.of_to.
      change (Z.neg p <? 0)%Z with true. change (Z.abs (Z.neg p)) with (Z.pos p).
      rewrite of_decimal_opp. reflexivity.
    + pose proof (uint_chars (Pos.to_uint p)) as H.
      destruct H as [|c t Hc _]; [exact I | lia].
Qed.

Lemma int_chars (z : Z) :
  Forall (fun c => 48 <= c <= 57 \/ c = 46 \/ c = 45) (py_str R (PInt z)).
Proof.
  assert (H : forall d, Forall (fun c => 48 <= c <= 57 \/ c = 46 \/ c = 45)
                          (lit (NilZero.string_of_uint d))).
  { intros d. destruct d; try (eapply Forall_impl; [|apply uint_chars]; intros c Hc;
                               left; exact Hc).
    constructor; [left; split; discriminate | constructor]. }
  destruct z as [|p|p]; simpl py_str.
  - constructor; [left; split; discriminate | constructor].
  - apply H.
  - constructor; [right; right; reflexivity | apply H].
Qed.

End IntegerCells.

(** X12.  A cell that holds an integer that [str] prints, as every
    64-bit integer that the reader makes of a column of whole numbers
    is (an integer of at most 4300 digits), always converts:
    [clean_amount] prints it, reads the decimal numeral back and
    returns the float nearest to the integer, with its sign, and logs
    nothing. *)
Theorem integer_cells_convert (R : Runtime) (z : Z) :
  str_returns (PInt z) ->
  amount_value R (PInt z) = Float.of_decimal (z <? 0)%Z (Z.abs z) 0
  /\ amount_warning R (PInt z) = [].
Proof.
  intros _.
  unfold amount_value, amount_warning. simpl pd_isna. simpl is_empty_str.
  simpl orb. cbv iota.
  rewrite (clean_token_numeric R (PInt z) (int_chars R z)), py_float_int.
  split; reflexivity.
Qed.

(** A negative amount in a column of whole numbers, and the largest
    64-bit integer, which is rounded. *)
#[warnings="-inexact-float"]
Lemma integer_cells_convert_witness :
  (amount_value Reference.runtime (PInt (-1250)) = f64 (-1250.0)
   /\ amount_warning Reference.runtime (PInt (-1250)) = [])
  /\ amount_value Reference.runtime (PInt (2 ^ 64 - 1)) = f64 18446744073709551616.0.
Proof.
  split.
  - destruct (integer_cells_convert Reference.runtime (-1250)) as [Hv Hw].
    + vm_compute. reflexivity.
    + rewrite Hv, Hw. split; [vm_compute; reflexivity | reflexivity].
  - destruct (integer_cells_convert Reference.runtime (2 ^ 64 - 1)) as [Hv _].
    + vm_compute. reflexivity.
    + rewrite Hv. vm_compute. reflexivity.
Defined.

(* ================================================================= *)
(** ** Cells without a digit *)

Section NoDigit.

Variable R : Runtime.

Lemma Forall_removelast {A} (P : A -> Prop) (l : list A) :
  Forall P l -> Forall P (removelast l).
Proof.
  induction 1 as [|x l Hx Hl IH]; simpl; [constructor|].
  destruct l; [constructor | constructor; assumption].
Qed.

Lemma Forall_tl {A} (P : A -> Prop) (l : list A) : Forall P l -> Forall P (tl l).
Proof. intros H. destruct H; [constructor | assumption]. Qed.

Lemma span_digits_stop (s : str) (acc : Z) (n : nat) :
  match s with [] => True | c :: _ => c = 46 \/ c = 45 end ->
  span_digits R s acc n = (acc, n, s).
Proof.
  destruct s as [|c r]; [reflexivity|]. intros [-> | ->]; reflexivity.
Qed.

Lemma points_and_minus_head (t : str) :
  Forall (fun c => c = 46 \/ c = 45) t ->
  match t with [] => True | c :: _ => c = 46 \/ c = 45 end.
Proof. intros H. destruct H; [exact I | assumption]. Qed.

(** Points and minus signs alone are no numeral. *)
Lemma py_float_no_digit (t : str) :
  Forall (fun c => c = 46 \/ c = 45) t -> py_float R t = None.
Proof.
  intros H. unfold py_float. destruct H as [|c t Hc Ht]; [reflexivity|].
  pose proof (points_and_minus_head t Ht) as Hh.
  destruct Hc as [-> | ->]; cbv beta iota zeta.
  - rewrite (span_digits_stop (46 :: t)) by (left; reflexivity). cbv beta iota.
    rewrite (span_digits_stop t _ _ Hh). destruct t; reflexivity.
  - rewrite (span_digits_stop t _ _ Hh). cbv beta iota.
    destruct Ht as [|c' t' Hc' Ht']; [reflexivity|].
    destruct Hc' as [-> | ->]; cbv beta iota; [|reflexivity].
    rewrite (span_digits_stop t' _ _ (points_and_minus_head t' Ht')).
    destruct t'; reflexivity.
Qed.

(** What line 40 keeps of a string without a digit. *)
Lemma no_digit_kept (u : str) :
  Forall (fun c => is_digit R c = false) u ->
  Forall (fun c => c = 46 \/ c = 45)
    (sub_delete (fun c => negb (is_numeric_char R c)) u).
Proof.
  unfold sub_delete. induction 1 as [|c u Hc _ IH]; simpl; [constructor|].
  destruct (is_numeric_char R c) eqn:E; simpl; [|exact IH].
  constructor; [|exact IH].
  unfold is_numeric_char in E. rewrite Hc in E. simpl in E.
  apply orb_true_iff in E. rewrite !N.eqb_eq in E. exact E.
Qed.

Lemma clean_token_no_digit (x : pyobj) :
  Forall (fun c => is_digit R c = false) (py_str R x) ->
  Forall (fun c => c = 46 \/ c = 45) (clean_token R x).
Proof.
  intros H. unfold clean_token. cbv zeta. apply no_digit_kept.
  assert (H0 : Forall (fun c => is_digit R c = false)
                 (sub_delete is_currency_or_comma (strip (py_str R x)))).
  { unfold sub_delete. apply Forall_filter, strip_chars, H. }
  destruct (startswith _ _ && endswith _ _); [|exact H0].
  apply Forall_app. split.
  - constructor; [reflexivity | constructor].
  - unfold slice_1_m1. apply Forall_removelast, Forall_tl, H0.
Qed.

End NoDigit.

(** X13.  A cell without a decimal digit is worth nothing: unless it is
    missing or the empty string, [clean_amount] returns 0.0 for it and
    logs what is left of it as not convertible. *)
Theorem cell_without_digit (R : Runtime) (x : pyobj) :
  pd_isna x = false ->
  is_empty_str x = false ->
  Forall (fun c => is_digit R c = false) (py_str R x) ->
  amount_value R x = Float.zero
  /\ amount_warning R x = [WarnCouldNotConvert (clean_token R x)].
Proof.
  intros Hna He Hd. unfold amount_value, amount_warning. rewrite Hna, He.
  simpl orb. cbv iota.
  rewrite (py_float_no_digit R _ (clean_token_no_digit R x Hd)).
  split; reflexivity.
Qed.

(** A dash between parentheses, and the truth value that the reader
    makes of a column of flags. *)
Lemma cell_without_digit_witness :
  (amount_value Reference.runtime (PStr (lit "(-)")) = Float.zero
   /\ amount_warning Reference.runtime (PStr (lit "(-)"))
      = [WarnCouldNotConvert (clean_token Reference.runtime (PStr (lit "(-)")))])
  /\ clean_token Reference.runtime (PStr (lit "(-)")) = lit "--"
  /\ (amount_value Reference.runtime (PBool true) = Float.zero
      /\ amount_warning Reference.runtime (PBool true)
         = [WarnCouldNotConvert (clean_token Reference.runtime (PBool true))])
  /\ clean_token Reference.runtime (PBool true) = [].
Proof.
  split; [|split; [vm_compute; reflexivity | split; [|vm_compute; reflexivity]]].
  - apply (cell_without_digit Reference.runtime (PStr (lit "(-)")));
      [reflexivity | reflexivity | vm_compute; repeat constructor].
  - apply (cell_without_digit Reference.runtime (PBool true));
      [reflexivity | reflexivity | vm_compute; repeat constructor].
Defined.

(* ================================================================= *)
(** ** The columns that the pipeline creates *)

Section CreatedColumns.

Lemma amount_keyword_before_clean (c : str) :
  any_keyword_in amount_keywords (c ++ lit "_clean") = true ->
  any_keyword_in amount_keywords c = true.
Proof.
  rewrite !any_keyword_in_spec. intros [k [Hin Hs]]. exists k. split; [exact Hin|].
  apply contains_spec. apply contains_spec in Hs.
  change (lit "_clean") with (95 :: lit "clean") in Hs.
  assert (Hk : ~ In 95 k /\ contains k (95 :: lit "clean") = false).
  { unfold amount_keywords in Hin. simpl in Hin.
    repeat (destruct Hin as [<- | Hin];
            [split; [vm_compute; intuition discriminate | vm_compute; reflexivity]|]).
    contradiction. }
  apply (contains_before_underscore k c (lit "clean") (proj1 Hk) (proj2 Hk) Hs).
Qed.

Lemma detected_not_clean_category (columns : list str) (a c : str) :
  detect_amount_col columns = Some a ->
  detect_category_col columns = Some c ->
  a <> c ++ lit "_clean".
Proof.
  intros Ha Hc ->.
  destruct (first_column_with_in _ _ _ Ha) as [_ Hka].
  destruct (first_column_with_in _ _ _ Hc) as [_ Hkc].
  assert (E : c ++ lit "_clean" = c).
  { apply (first_columns_agree _ _ _ _ _ Ha Hc).
    - apply keyword_after_append. exact Hkc.
    - apply amount_keyword_before_clean. exact Hka. }
  apply (f_equal (@List.length N)) in E. rewrite length_app in E.
  simpl in E. lia.
Qed.

End CreatedColumns.

(** X14.  The two columns that the pipeline adds to the frame never
    take the place of a column it has detected: the label of the
    cleaned amounts is not the category column, the label of the
    cleaned categories is not the amount column, and the two labels
    differ as soon as the two detected columns do. *)
Theorem created_columns_spare_detected (columns : list str) (a c : str) :
  detect_amount_col columns = Some a ->
  detect_category_col columns = Some c ->
  a ++ lit "_clean" <> c
  /\ c ++ lit "_clean" <> a
  /\ (a <> c -> a ++ lit "_clean" <> c ++ lit "_clean").
Proof.
  intros Ha Hc. split; [|split].
  - intros E. apply (detected_not_clean _ _ _ Ha Hc). symmetry. exact E.
  - intros E. apply (detected_not_clean_category _ _ _ Ha Hc). symmetry. exact E.
  - intros Hac E. apply Hac. apply app_inv_tail in E. exact E.
Qed.

(** Headers among which a label to create already stands. *)
Lemma created_columns_spare_detected_witness :
  lit "cost" ++ lit "_clean" <> lit "item"
  /\ lit "item" ++ lit "_clean" <> lit "cost"
  /\ (lit "cost" <> lit "item" ->
      lit "cost" ++ lit "_clean" <> lit "item" ++ lit "_clean").
Proof.
  apply (created_columns_spare_detected
           [lit "date"; lit "item"; lit "item_clean"; lit "cost"; lit "notes"]);
    vm_compute; reflexivity.
Defined.

(* ================================================================= *)
(** ** What a successful request logs *)

Section SuccessLog.

Variable R : Runtime.

Lemma mask_filter_map {A B} (g : A -> B) (mask : list bool) (l : list A) :
  mask_filter mask (List.map g l) = List.map g (mask_filter mask l).
Proof.
  revert l. induction mask as [|m mask IH]; intros l; [reflexivity|].
  destruct l as [|x l]; [reflexivity|]. simpl.
  destruct m; simpl; rewrite IH; reflexivity.
Qed.

Lemma length_items_mask_column (mask : list bool) (col : column) :
  List.length (items (mask_column mask col))
  = List.length (mask_filter mask (items col)).
Proof.
  destruct col; simpl; rewrite ?mask_filter_map, ?length_map; reflexivity.
Qed.

Lemma length_mask_filter {A B} (f : A -> bool) (l : list A) (l' : list B) :
  List.length l' = List.length l ->
  List.length (mask_filter (List.map f l) l') = List.length (List.filter f l).
Proof.
  revert l'. induction l as [|x l IH]; intros l' H; [reflexivity|].
  destruct l' as [|y l']; [discriminate|]. simpl in *.
  destruct (f x); simpl; rewrite IH; try reflexivity; lia.
Qed.

Lemma setitem_Forall (P : str * column -> Prop) (df : DataFrame) label col :
  Forall P df -> P (label, col) -> Forall P (setitem df label col).
Proof.
  intros H Hp. unfold setitem. destruct (existsb _ df).
  - rewrite Forall_map. eapply Forall_impl; [|exact H].
    intros [l c] Hlc. simpl. destruct (Text.eqb l label); assumption.
  - apply Forall_app. split; [exact H | constructor; [exact Hp | constructor]].
Qed.

Lemma setitem_not_nil (df : DataFrame) label col : setitem df label col <> [].
Proof.
  unfold setitem. destruct (existsb _ df) eqn:E.
  - destruct df; [discriminate | discriminate].
  - destruct df; discriminate.
Qed.

(** The frame kept by the food mask has as many rows as there are food
    rows. *)
Lemma nrows_boolean_index (df : DataFrame) (cc : column) (n : nat) :
  df <> [] ->
  Forall (fun lc => List.length (items (snd lc)) = n) df ->
  List.length (items cc) = n ->
  nrows (boolean_index df (food_mask_of R cc)) = food_rows R cc.
Proof.
  intros Hne H Hcc. destruct df as [|[l col] rest]; [contradiction|].
  inversion H as [|? ? Hcol _]; subst. simpl in Hcol.
  simpl. rewrite length_items_mask_column. unfold food_mask_of, food_rows.
  apply length_mask_filter. congruence.
Qed.

End SuccessLog.

(** X15.  When the reader yields a frame with at least one row, whose
    columns have all the same number of cells and whose normalized
    header names are pairwise distinct, and two different columns are
    detected, the request adds to the log, in this order: the header
    names and the shape of the frame as read, the two detected columns,
    one warning for every cell of the amount column that does not
    convert, in row order and whether the row is food or not, the
    number of food rows, and the total before rounding.  Nothing is
    logged as an error. *)
Theorem success_log (R : Runtime) (contents : list byte)
    (df : DataFrame) (st : list log_record) (a c : str) (ca cc : column) :
  read_csv R (decoded_text contents) = inr df ->
  df_empty df = false ->
  rectangular df ->
  NoDup (columns_of (normalize_columns R df)) ->
  detect_amount_col (columns_of (normalize_columns R df)) = Some a ->
  detect_category_col (columns_of (normalize_columns R df)) = Some c ->
  a <> c ->
  In (a, ca) (normalize_columns R df) ->
  In (c, cc) (normalize_columns R df) ->
  snd (analyze_expenses R contents st)
  = st ++ [InfoCsvColumns (columns_of df);
           InfoCsvShape (nrows df) (List.length df);
           InfoAmountColumn a; InfoCategoryColumn c]
       ++ flat_map (amount_warning R) (items ca)
       ++ [InfoFoundFood (food_rows R cc);
           InfoTotal (Scalar (PFloat (food_total R ca cc)))].
Proof.
  intros Hread Hrows Hrect Hnd Ha Hc Hac Hca Hcc.
  rewrite (analyze_expenses_frame _ _ _ st Hread Hrows).
  pose proof (analyze_frame_regular_run R df st a c ca cc Hnd Ha Hc Hac Hca Hcc) as E.
  rewrite (http_errors_return _ _ _ _ E). simpl snd.
  assert (H0 : Forall (fun lc => List.length (items (snd lc)) = nrows df)
                 (normalize_columns R df)).
  { unfold normalize_columns. rewrite Forall_map. exact Hrect. }
  assert (Lca : List.length (items ca) = nrows df).
  { rewrite Forall_forall in H0. apply (H0 _ Hca). }
  assert (Lcc : List.length (items cc) = nrows df).
  { rewrite Forall_forall in H0. apply (H0 _ Hcc). }
  rewrite (nrows_boolean_index R _ cc (nrows df)); [reflexivity | | | exact Lcc].
  - apply setitem_not_nil.
  - apply setitem_Forall; [apply setitem_Forall; [exact H0|] |]; simpl.
    + rewrite !length_map. exact Lca.
    + rewrite length_map. exact Lcc.
Qed.

(** An upload with two amounts that do not convert: the one of the
    rent, which is no food, is reported like the one of the snack. *)
#[warnings="-inexact-float"]
Lemma success_log_witness :
  snd (analyze_expenses Reference.runtime unpriced_upload [])
  = [] ++ [InfoCsvColumns [lit "Item"; lit "Cost"];
           InfoCsvShape 3 2;
           InfoAmountColumn (lit "cost"); InfoCategoryColumn (lit "item")]
       ++ [WarnCouldNotConvert (lit "12-01"); WarnCouldNotConvert []]
       ++ [InfoFoundFood 2; InfoTotal (Scalar (PFloat (f64 3.5)))].
Proof.
  rewrite (success_log Reference.runtime unpriced_upload
             [ (lit "Item", Object [PStr (lit "Coffee"); PStr (lit "Rent");
                                    PStr (lit "Snack")]);
               (lit "Cost", Object [PStr (lit "3.50"); PStr (lit "12-01");
                                    PStr (lit "free")]) ]
             [] (lit "cost") (lit "item")
             (Object [PStr (lit "3.50"); PStr (lit "12-01"); PStr (lit "free")])
             (Object [PStr (lit "Coffee"); PStr (lit "Rent"); PStr (lit "Snack")])
             ltac:(vm_compute; reflexivity)
             ltac:(vm_compute; reflexivity)
             ltac:(repeat constructor)
             ltac:(vm_compute; repeat constructor; simpl; intuition discriminate)
             ltac:(vm_compute; reflexivity)
             ltac:(vm_compute; reflexivity)
             ltac:(vm_compute; discriminate)
             ltac:(vm_compute; tauto)
             ltac:(vm_compute; tauto)).
  vm_compute. reflexivity.
Defined.

(* ================================================================= *)
(** ** One header for both roles *)

Section OneColumn.

Variable R : Runtime.

Lemma http_errors_py {A} (m : M A) (st st' : list log_record) cls msg :
  m st = (Raise (PyError cls msg), st') ->
  http_errors m st
  = (Raise (HTTPException 500 (lit "Internal server error: " ++ msg)),
     st' ++ [ErrorUnexpected msg]).
Proof. intros H. unfold http_errors, try_except. rewrite H. reflexivity. Qed.

Lemma label_not_clean (a : str) : a <> a ++ lit "_clean".
Proof.
  intros E. apply (f_equal (@List.length N)) in E. rewrite length_app in E.
  simpl in E. lia.
Qed.

(** From a frame with distinct normalized labels in which one column is
    detected for both roles: the cleaned categories replace the cleaned
    amounts, and the runtime sums and rounds the categories that are
    kept. *)
Lemma analyze_frame_one_column (df : DataFrame) (st : list log_record)
    (a : str) (ca : column) :
  NoDup (columns_of (normalize_columns R df)) ->
  detect_amount_col (columns_of (normalize_columns R df)) = Some a ->
  detect_category_col (columns_of (normalize_columns R df)) = Some a ->
  In (a, ca) (normalize_columns R df) ->
  fst (http_errors (analyze_frame R df) st)
  = sum_and_round R (Series (kept_categories R ca)).
Proof.
  intros Hnd Ha Hc Hca.
  unfold http_errors, try_except, analyze_frame. cbv zeta. rewrite Ha, Hc.
  set (df0 := normalize_columns R df) in *.
  unfold bind, log. cbv beta iota.
  rewrite (getitem_unique df0 a ca _ Hnd Hca). cbv beta iota.
  unfold apply_clean_amount. unfold bind.
  rewrite mapM_clean_amount_run. unfold ret. cbv beta iota.
  set (amounts := Float64 (List.map (amount_value R) (items ca))).
  set (df1 := setitem df0 (a ++ lit "_clean") amounts).
  assert (Hnd1 : NoDup (columns_of df1)) by (apply setitem_NoDup; exact Hnd).
  assert (Hca1 : In (a, ca) df1)
    by (apply setitem_in_other; [apply label_not_clean | exact Hca]).
  rewrite (getitem_unique df1 a ca _ Hnd1 Hca1). cbv beta iota.
  unfold apply_clean_category. unfold ret. cbv beta iota.
  set (categories := Object (List.map (fun x => PStr (clean_category R x)) (items ca))).
  set (df2 := setitem df1 (a ++ lit "_clean") categories).
  assert (Hnd2 : NoDup (columns_of df2)) by (apply setitem_NoDup; exact Hnd1).
  assert (Hcat2 : In (a ++ lit "_clean", categories) df2) by apply setitem_in_same.
  rewrite (getitem_unique df2 _ categories _ Hnd2 Hcat2). cbv beta iota.
  unfold apply_is_food_category, categories. simpl items.
  rewrite mapM_is_food_category_run. cbv beta iota.
  fold (food_mask_of R ca). fold categories.
  set (mask := food_mask_of R ca).
  assert (Hndf : NoDup (columns_of (boolean_index df2 mask)))
    by (rewrite columns_of_boolean_index; exact Hnd2).
  rewrite (getitem_unique _ _ _ _ Hndf (boolean_index_in df2 mask _ _ Hcat2)).
  cbv beta iota. unfold categories, mask_column. cbv beta iota.
  unfold sum_and_round, kept_categories, lift. fold mask.
  destruct (sum_other R _) as [[cls msg]|total]; [reflexivity|].
  unfold ret, raise, bind, log. cbv beta iota.
  destruct (round_other R total) as [[cls msg]|rounded]; reflexivity.
Qed.

End OneColumn.

(** X16.  When one header is detected for both roles, as a header that
    holds a keyword of each list is, the cleaned categories are stored
    under the label of the cleaned amounts and replace them: what the
    request sums and rounds is the column of the categories of the food
    rows, and no amount has a part in the answer. *)
Theorem one_header_for_both_roles (R : Runtime) (contents : list byte)
    (df : DataFrame) (st : list log_record) (a : str) (ca : column) :
  read_csv R (decoded_text contents) = inr df ->
  df_empty df = false ->
  NoDup (columns_of (normalize_columns R df)) ->
  detect_amount_col (columns_of (normalize_columns R df)) = Some a ->
  detect_category_col (columns_of (normalize_columns R df)) = Some a ->
  In (a, ca) (normalize_columns R df) ->
  fst (analyze_expenses R contents st)
  = sum_and_round R (Series (kept_categories R ca)).
Proof.
  intros Hread Hrows Hnd Ha Hc Hca.
  rewrite (analyze_expenses_frame _ _ _ st Hread Hrows).
  apply (analyze_frame_one_column R df st a ca Hnd Ha Hc Hca).
Qed.

(** The header expense type holds the keywords expense and type: the
    runtime is asked for the sum of the category coffee. *)
Lemma one_header_for_both_roles_witness :
  kept_categories Reference.runtime
    (Object [PStr (lit "Coffee"); PStr (lit "Rent")])
  = Object [PStr (lit "coffee")]
  /\ fst (analyze_expenses Reference.runtime expense_type_upload [])
     = sum_and_round Reference.runtime
         (Series (kept_categories Reference.runtime
                    (Object [PStr (lit "Coffee"); PStr (lit "Rent")]))).
Proof.
  split; [vm_compute; reflexivity|].
  apply (one_header_for_both_roles Reference.runtime expense_type_upload
           [ (lit "Expense type", Object [PStr (lit "Coffee"); PStr (lit "Rent")]);
             (lit "Notes", Object [PStr (lit "x"); PStr (lit "y")]) ]
           [] (lit "expense type")).
  - vm_compute. reflexivity.
  - vm_compute. reflexivity.
  - vm_compute. repeat constructor; simpl; intuition discriminate.
  - vm_compute. reflexivity.
  - vm_compute. reflexivity.
  - vm_compute. tauto.
Defined.

(* ================================================================= *)
(** ** A detected header that comes twice *)

Section RepeatedHeader.

Variable R : Runtime.

Lemma length_filter_label (df : DataFrame) (label : str) :
  List.length (List.filter (fun lc => Text.eqb (fst lc) label) df)
  = occurrences label (columns_of df).
Proof.
  unfold occurrences, columns_of. induction df as [|[l c] df IH]; [reflexivity|].
  simpl. unfold Text.eqb at 1.
  destruct (list_eq_dec N.eq_dec l label); simpl; rewrite IH; reflexivity.
Qed.

Lemma getitem_repeated (df : DataFrame) (label : str) (st : list log_record) :
  (2 <= occurrences label (columns_of df))%nat ->
  exists cols, getitem df label st = (Return (SubFrame cols), st).
Proof.
  rewrite <- length_filter_label. unfold getitem.
  destruct (List.filter _ df) as [|[l0 c0] [|[l1 c1] rest]]; simpl; try lia.
  intros _. eexists. reflexivity.
Qed.

Lemma getitem_once (df : DataFrame) (label : str) (st : list log_record) :
  occurrences label (columns_of df) = 1%nat ->
  exists col, getitem df label st = (Return (Series col), st).
Proof.
  rewrite <- length_filter_label. unfold getitem.
  destruct (List.filter _ df) as [|[l0 c0] [|[l1 c1] rest]]; simpl; try lia.
  intros _. eexists. reflexivity.
Qed.

Lemma occurrences_setitem (df : DataFrame) (label l : str) (col : column) :
  (occurrences l (columns_of df)
   <= occurrences l (columns_of (setitem df label col)))%nat.
Proof.
  unfold setitem. destruct (existsb _ df).
  - assert (E : columns_of (List.map (fun lc => if Text.eqb (fst lc) label
                                              then (label, col) else lc) df)
                = columns_of df).
    { unfold columns_of. rewrite map_map. apply map_ext. intros [l0 c0]. simpl.
      destruct (Text.eqb l0 label) eqn:El; [apply eqb_eq in El; subst|]; reflexivity. }
    rewrite E. lia.
  - unfold occurrences, columns_of. rewrite map_app, count_occ_app.
    apply Nat.le_add_r.
Qed.

Lemma occurrences_in (l : str) (columns : list str) :
  In l columns -> (1 <= occurrences l columns)%nat.
Proof.
  intros H. unfold occurrences.
  apply (count_occ_In (list_eq_dec N.eq_dec)) in H. lia.
Qed.

Lemma analyze_frame_repeated (df : DataFrame) (st : list log_record) (a c : str) :
  detect_amount_col (columns_of (normalize_columns R df)) = Some a ->
  detect_category_col (columns_of (normalize_columns R df)) = Some c ->
  (2 <= occurrences a (columns_of (normalize_columns R df))
   \/ 2 <= occurrences c (columns_of (normalize_columns R df)))%nat ->
  exists st', analyze_frame R df st
              = (Raise (PyError ValueError (ambiguous_truth R)), st').
Proof.
  intros Ha Hc Hrep.
  unfold analyze_frame. cbv zeta. rewrite Ha, Hc.
  set (df0 := normalize_columns R df) in *.
  unfold bind, log. cbv beta iota.
  destruct (Nat.le_gt_cases 2 (occurrences a (columns_of df0))) as [H2 | H1].
  - destruct (getitem_repeated df0 a
                (((st ++ [InfoCsvColumns (columns_of df)])
                    ++ [InfoCsvShape (nrows df) (List.length df)])
                   ++ [InfoAmountColumn a] ++ [InfoCategoryColumn c]) H2)
      as [cols E].
    rewrite <- !app_assoc in E. rewrite <- !app_assoc. simpl app in *.
    rewrite E. cbv beta iota. eexists. reflexivity.
  - destruct Hrep as [Hrep | Hrep]; [lia|].
    destruct (first_column_with_in _ _ _ Ha) as [Hina _].
    pose proof (occurrences_in a _ Hina) as H0.
    assert (Hone : occurrences a (columns_of df0) = 1%nat) by lia.
    destruct (getitem_once df0 a
                (((st ++ [InfoCsvColumns (columns_of df)])
                    ++ [InfoCsvShape (nrows df) (List.length df)])
                   ++ [InfoAmountColumn a] ++ [InfoCategoryColumn c]) Hone)
      as [ca E].
    rewrite <- !app_assoc in E. rewrite <- !app_assoc. simpl app in *.
    rewrite E. cbv beta iota.
    unfold apply_clean_amount. unfold bind.
    rewrite mapM_clean_amount_run. unfold ret. cbv beta iota.
    match goal with
    | |- context [getitem ?d c ?s] =>
        destruct (getitem_repeated d c s) as [cols E2];
        [eapply Nat.le_trans; [exact Hrep | apply occurrences_setitem]|];
        rewrite E2
    end.
    cbv beta iota. eexists. reflexivity.
Qed.

End RepeatedHeader.

(** X17.  When the normalized name of the detected amount column or of
    the detected category column stands more than once among the
    headers, the selection of that column is a frame and not a series:
    the request fails with an internal server error, whose detail
    carries the message that the pandas of the runtime has for the
    truth value of a series. *)
Theorem repeated_header_fails (R : Runtime) (contents : list byte)
    (df : DataFrame) (st : list log_record) (a c : str) :
  read_csv R (decoded_text contents) = inr df ->
  df_empty df = false ->
  detect_amount_col (columns_of (normalize_columns R df)) = Some a ->
  detect_category_col (columns_of (normalize_columns R df)) = Some c ->
  (2 <= occurrences a (columns_of (normalize_columns R df))
   \/ 2 <= occurrences c (columns_of (normalize_columns R df)))%nat ->
  fst (analyze_expenses R contents st)
  = Raise (HTTPException 500 (lit "Internal server error: " ++ ambiguous_truth R)).
Proof.
  intros Hread Hrows Ha Hc Hrep.
  rewrite (analyze_expenses_frame _ _ _ st Hread Hrows).
  destruct (analyze_frame_repeated R df st a c Ha Hc Hrep) as [st' E].
  rewrite (http_errors_py _ _ _ _ _ E). reflexivity.
Qed.

(** The headers Type and TYPE have the same normalized name. *)
Lemma repeated_header_fails_witness :
  occurrences (lit "type") [lit "amount"; lit "type"; lit "type"] = 2%nat
  /\ fst (analyze_expenses Reference.runtime repeated_category_upload [])
     = Raise (HTTPException 500
                (lit "Internal server error: " ++ ambiguous_truth Reference.runtime)).
Proof.
  split; [vm_compute; reflexivity|].
  apply (repeated_header_fails Reference.runtime repeated_category_upload
           [ (lit "Amount", Object [PStr (lit "$1")]);
             (lit "Type", Object [PStr (lit "Food")]);
             (lit "TYPE", Object [PStr (lit "Rent")]) ]
           [] (lit "amount") (lit "type")).
  - vm_compute. reflexivity.
  - vm_compute. reflexivity.
  - vm_compute. reflexivity.
  - vm_compute. reflexivity.
  - right. vm_compute. apply le_n.
Defined.
